(** * jsend: JSend envelopes over an http.ResponseWriter

    A shallow embedding of [jsend.go] (package [jsend] of gamegos/jsend)
    together with the properties of its specification.

    Go's [string] and [[]byte] are both finite byte sequences; both are
    embedded as [string] (a list of 8-bit [ascii] characters), so the
    conversion [string(data)] is the identity.  Go's [int] is embedded
    as [Z]; the only operations the package performs on it are
    comparisons with small constants. *)


From Stdlib Require Import ZArith NArith Ascii String Decimal DecimalString
  DecimalFacts DecimalPos DecimalN DecimalZ.
From stdpp Require Import gmap strings list.

Local Open Scope string_scope.
Local Open Scope Z_scope.

(** ** Byte sequences *)

Module Bytes.

(** The double quote character (code 34). *)
Definition dq : ascii := "034"%char.

Definition ord (c : ascii) : N := N_of_ascii c.

(** [in_range lo hi c]: lo <= c <= hi on byte codes. *)
Definition in_range (lo hi : N) (c : ascii) : bool :=
  ((lo <=? ord c) && (ord c <=? hi))%N.

(** Writes a literal with single quotes standing for double quotes:
    [js "{'a':1}"] is the byte sequence [{"a":1}]. *)
Fixpoint js (s : string) : string :=
  match s with
  | EmptyString => EmptyString
  | String c r => String (if Ascii.eqb c "'" then dq else c) (js r)
  end.

End Bytes.
Import Bytes.

(** ** unicode/utf8 and encoding/json: the string encoder

    [encoding/json] is a collaborator of the package, not part of it.
    It is modelled from its documented behaviour, at the level of RFC
    8259 texts: the encoder's nesting and cycle limits and float64
    formatting are outside the model. *)

Module utf8.

Definition cont (c : ascii) : bool := in_range 128 191 c.

(** Well-formed two, three and four byte sequences (the accept ranges
    of [utf8.DecodeRune]); on anything else [DecodeRune] returns
    [(RuneError, 1)]. *)
Definition seq2 (a b : ascii) : bool := in_range 194 223 a && cont b.

Definition seq3 (a b c : ascii) : bool :=
  ((Ascii.eqb a "224" && in_range 160 191 b)
   || (in_range 225 236 a && cont b)
   || (Ascii.eqb a "237" && in_range 128 159 b)
   || (in_range 238 239 a && cont b)) && cont c.

Definition seq4 (a b c d : ascii) : bool :=
  ((Ascii.eqb a "240" && in_range 144 191 b)
   || (in_range 241 243 a && cont b)
   || (Ascii.eqb a "244" && in_range 128 143 b)) && cont c && cont d.

(** U+2028 LINE SEPARATOR and U+2029 PARAGRAPH SEPARATOR are E2 80 A8
    and E2 80 A9. *)
Definition is_ls_ps (a b c : ascii) : bool :=
  Ascii.eqb a "226" && Ascii.eqb b "128" && in_range 168 169 c.

(** [utf8.ValidString]. *)
Fixpoint ValidString (s : string) : bool :=
  match s with
  | EmptyString => true
  | String a r1 =>
    if (ord a <? 128)%N then ValidString r1
    else
      match r1 with
      | EmptyString => false
      | String b r2 =>
        if seq2 a b then ValidString r2
        else
          match r2 with
          | EmptyString => false
          | String c r3 =>
            if seq3 a b c then ValidString r3
            else
              match r3 with
              | EmptyString => false
              | String d r4 => seq4 a b c d && ValidString r4
              end
          end
      end
  end.

(** The encoding of U+FFFD, the replacement character. *)
Definition RuneError : string := String "239" (String "191" (String "189" "")).

(** [utf8.EncodeRune]. *)
Definition EncodeRune (r : N) : string :=
  (if r <=? 127 then String (ascii_of_N r) ""
   else if r <=? 2047 then
     String (ascii_of_N (192 + r / 64)) (String (ascii_of_N (128 + r mod 64)) "")
   else if (55296 <=? r) && (r <=? 57343) || (1114111 <? r) then RuneError
   else if r <=? 65535 then
     String (ascii_of_N (224 + r / 4096))
       (String (ascii_of_N (128 + (r / 64) mod 64))
          (String (ascii_of_N (128 + r mod 64)) ""))
   else
     String (ascii_of_N (240 + r / 262144))
       (String (ascii_of_N (128 + (r / 4096) mod 64))
          (String (ascii_of_N (128 + (r / 64) mod 64))
             (String (ascii_of_N (128 + r mod 64)) ""))))%N.

End utf8.

Module utf16.

Definition IsSurrogate (r : N) : bool := ((55296 <=? r) && (r <? 57344))%N.

(** [utf16.DecodeRune]: the code point of a surrogate pair, U+FFFD when
    the two are not one. *)
Definition DecodeRune (r1 r2 : N) : N :=
  (if (55296 <=? r1) && (r1 <? 56320) && (56320 <=? r2) && (r2 <? 57344)
   then (r1 - 55296) * 1024 + (r2 - 56320) + 65536
   else 65533)%N.

End utf16.

Module json.

Definition hex (n : N) : ascii :=
  ascii_of_N (if (n <? 10)%N then 48 + n else 87 + n)%N.

(** [\u00XX] for a byte below 0x80. *)
Definition u00 (c : ascii) : string :=
  "\u00" ++ String (hex (ord c / 16)) (String (hex (ord c mod 16)) "").

(** [htmlSafeSet]: the bytes from 0x20 to 0x7F except the double
    quote, the backslash and the HTML characters <, > and &. *)
Definition htmlSafe (c : ascii) : bool :=
  in_range 32 127 c &&
  negb (Ascii.eqb c dq || Ascii.eqb c "\" || Ascii.eqb c "<"
        || Ascii.eqb c ">" || Ascii.eqb c "&").

(** One ASCII byte inside a string literal (escapeHTML is on, as it
    is for [json.Marshal]; the short escapes of backspace and form
    feed are those of Go 1.22 and later). *)
Definition escape_ascii (c : ascii) : string :=
  if htmlSafe c then String c ""
  else if Ascii.eqb c "\" then "\\"
  else if Ascii.eqb c dq then String "\" (String dq "")
  else if Ascii.eqb c "008" then "\b"
  else if Ascii.eqb c "012" then "\f"
  else if Ascii.eqb c "010" then "\n"
  else if Ascii.eqb c "013" then "\r"
  else if Ascii.eqb c "009" then "\t"
  else u00 c.

(** The body of [appendString]: the literal without its quotes.
    Invalid UTF-8 becomes the escape of U+FFFD; U+2028 and U+2029 are escaped. *)
Fixpoint escape (s : string) : string :=
  match s with
  | EmptyString => EmptyString
  | String a r1 =>
    if (ord a <? 128)%N then escape_ascii a ++ escape r1
    else
      match r1 with
      | EmptyString => "\ufffd" ++ escape r1
      | String b r2 =>
        if utf8.seq2 a b then String a (String b (escape r2))
        else
          match r2 with
          | EmptyString => "\ufffd" ++ escape r1
          | String c r3 =>
            if utf8.seq3 a b c then
              if utf8.is_ls_ps a b c
              then "\u202" ++ String (hex (ord c mod 16)) (escape r3)
              else String a (String b (String c (escape r3)))
            else
              match r3 with
              | EmptyString => "\ufffd" ++ escape r1
              | String d r4 =>
                if utf8.seq4 a b c d
                then String a (String b (String c (String d (escape r4))))
                else "\ufffd" ++ escape r1
              end
          end
      end
  end.

Definition appendString (s : string) : string :=
  String dq (escape s ++ String dq "").

(** *** The scanner: validity and [compact]

    [json.Marshal] passes the bytes returned by a [Marshaler] (here
    [json.RawMessage]) through [compact], which checks them against
    the JSON grammar and copies them without insignificant white
    space, escaping <, >, & and U+2028, U+2029.  The scanner is a
    pushdown automaton in Go; it is written here as the recursive
    descent it accepts, the fuel bounding the number of nested
    calls. *)

Definition isSpace (c : ascii) : bool :=
  Ascii.eqb c " " || Ascii.eqb c "009" || Ascii.eqb c "013" || Ascii.eqb c "010".

Fixpoint skip_ws (s : string) : string :=
  match s with
  | String c r => if isSpace c then skip_ws r else s
  | EmptyString => s
  end.

(** [after c s]: what follows [c] when [s] starts with it. *)
Definition after (c : ascii) (s : string) : option string :=
  match s with
  | String c' r => if Ascii.eqb c' c then Some r else None
  | EmptyString => None
  end.

Definition isDigit (c : ascii) : bool := in_range 48 57 c.

Definition isHex (c : ascii) : bool :=
  isDigit c || in_range 97 102 c || in_range 65 70 c.

Definition isHtml (c : ascii) : bool :=
  Ascii.eqb c "<" || Ascii.eqb c ">" || Ascii.eqb c "&".

(** The characters that may follow a backslash, [u] apart. *)
Definition isEscape (c : ascii) : bool :=
  Ascii.eqb c dq || Ascii.eqb c "\" || Ascii.eqb c "/" || Ascii.eqb c "b"
  || Ascii.eqb c "f" || Ascii.eqb c "n" || Ascii.eqb c "r" || Ascii.eqb c "t".

Definition emit (o : string) (k : option (string * string)) :
  option (string * string) :=
  '(o', r) ← k; Some (o ++ o', r).

(** A string literal after its opening quote: the compacted literal
    (closing quote included) and the input that follows it. *)
Fixpoint scan_string (s : string) : option (string * string) :=
  match s with
  | EmptyString => None
  | String c r =>
    if Ascii.eqb c dq then Some (String dq "", r)
    else if Ascii.eqb c "\" then
      match r with
      | String e r1 =>
        if isEscape e then emit (String c (String e "")) (scan_string r1)
        else if Ascii.eqb e "u" then
          match r1 with
          | String h1 (String h2 (String h3 (String h4 r2))) =>
            if isHex h1 && isHex h2 && isHex h3 && isHex h4
            then emit (String c (String e (String h1 (String h2
                         (String h3 (String h4 ""))))))
                      (scan_string r2)
            else None
          | _ => None
          end
        else None
      | EmptyString => None
      end
    else if (ord c <? 32)%N then None
    else if isHtml c then emit (u00 c) (scan_string r)
    else
      match r with
      | String b (String d r2) =>
        if utf8.is_ls_ps c b d
        then emit ("\u202" ++ String (hex (ord d mod 16)) "") (scan_string r2)
        else emit (String c "") (scan_string r)
      | _ => emit (String c "") (scan_string r)
      end
  end.

(** The longest prefix of digits, and what follows. *)
Fixpoint digits (s : string) : string * string :=
  match s with
  | String c r =>
    if isDigit c then let '(d, r') := digits r in (String c d, r')
    else (EmptyString, s)
  | EmptyString => (EmptyString, s)
  end.

(** One or more digits. *)
Definition digits1 (s : string) : option (string * string) :=
  match digits s with
  | (EmptyString, _) => None
  | p => Some p
  end.

(** [0], or a non-zero digit followed by digits. *)
Definition scan_int (s : string) : option (string * string) :=
  match s with
  | String c r =>
    if Ascii.eqb c "0" then Some (String c "", r)
    else if isDigit c then let '(d, r') := digits r in Some (String c d, r')
    else None
  | EmptyString => None
  end.

Definition scan_frac (s : string) : option (string * string) :=
  match after "." s with
  | Some r => emit "." (digits1 r)
  | None => Some (EmptyString, s)
  end.

Definition scan_exp (s : string) : option (string * string) :=
  match s with
  | String c r =>
    if Ascii.eqb c "e" || Ascii.eqb c "E" then
      match r with
      | String g r1 =>
        if Ascii.eqb g "+" || Ascii.eqb g "-"
        then emit (String c (String g "")) (digits1 r1)
        else emit (String c "") (digits1 r)
      | EmptyString => None
      end
    else Some (EmptyString, s)
  | EmptyString => Some (EmptyString, s)
  end.

(** A number literal: the literal and what follows it. *)
Definition scan_number (s : string) : option (string * string) :=
  let '(sign, s1) :=
    match after "-" s with
    | Some r => ("-", r)
    | None => (EmptyString, s)
    end in
  '(i, s2) ← scan_int s1;
  '(f, s3) ← scan_frac s2;
  '(e, s4) ← scan_exp s3;
  Some (sign ++ i ++ f ++ e, s4).

(** [scan_lit w s]: [s] starts with the word [w]. *)
Fixpoint scan_lit (w s : string) : option (string * string) :=
  match w with
  | EmptyString => Some (EmptyString, s)
  | String c w' =>
    match s with
    | String c' r => if Ascii.eqb c c' then emit (String c "") (scan_lit w' r) else None
    | EmptyString => None
    end
  end.

Fixpoint scan_value (fuel : nat) (s : string) : option (string * string) :=
  match fuel with
  | O => None
  | S f =>
    match skip_ws s with
    | EmptyString => None
    | String c r =>
      if Ascii.eqb c "{" then
        match after "}" (skip_ws r) with
        | Some r1 => Some ("{}", r1)
        | None => emit "{" (scan_members f (skip_ws r))
        end
      else if Ascii.eqb c "[" then
        match after "]" (skip_ws r) with
        | Some r1 => Some ("[]", r1)
        | None => emit "[" (scan_elements f (skip_ws r))
        end
      else if Ascii.eqb c dq then emit (String dq "") (scan_string r)
      else if Ascii.eqb c "t" then scan_lit "true" (String c r)
      else if Ascii.eqb c "f" then scan_lit "false" (String c r)
      else if Ascii.eqb c "n" then scan_lit "null" (String c r)
      else scan_number (String c r)
    end
  end

(** The elements of an array after [[] up to and including []]. *)
with scan_elements (fuel : nat) (s : string) : option (string * string) :=
  match fuel with
  | O => None
  | S f =>
    '(o, r) ← scan_value f s;
    match after "," (skip_ws r) with
    | Some r1 => emit (o ++ ",") (scan_elements f r1)
    | None => r1 ← after "]" (skip_ws r); Some (o ++ "]", r1)
    end
  end

(** The members of an object after [{] up to and including [}]. *)
with scan_members (fuel : nat) (s : string) : option (string * string) :=
  match fuel with
  | O => None
  | S f =>
    r ← after dq (skip_ws s);
    '(k, r1) ← scan_string r;
    r2 ← after ":" (skip_ws r1);
    '(o, r3) ← scan_value f r2;
    match after "," (skip_ws r3) with
    | Some r4 => emit (String dq k ++ ":" ++ o ++ ",") (scan_members f r4)
    | None => r4 ← after "}" (skip_ws r3); Some (String dq k ++ ":" ++ o ++ "}", r4)
    end
  end.

(** [compact src]: [None] when [src] is not a JSON text (the error of
    [json.Compact]), the compacted text otherwise. *)
Definition compact (src : string) : option string :=
  '(o, r) ← scan_value (S (String.length src)) src;
  match skip_ws r with
  | EmptyString => Some o
  | _ => None
  end.

(** [json.Valid]. *)
Definition Valid (src : string) : bool :=
  match compact src with Some _ => true | None => false end.

(** *** Go values and [json.Marshal]

    What an [interface{}] holds, as far as [encoding/json] tells the
    cases apart.  A Go map is represented by its entries in
    increasing key order, the order in which [Marshal] emits them.
    Numbers are the integer kinds; [float64] is outside the model.
    [json.Unmarshal] into an [interface{}] yields values of the same
    type. *)

Local Unset Elimination Schemes.

Inductive value : Type :=
| Null                                   (* a nil pointer, map or slice *)
| Bool (b : bool)
| Int (n : Z)
| Str (s : string)
| Slice (l : list value)
| Map (m : list (string * value))
| Chan.                                  (* a channel, function or complex number *)

Local Set Elimination Schemes.

(** [Marshal] returns an [UnsupportedTypeError] when it meets a
    channel, function or complex number anywhere in the value. *)
Fixpoint supported (v : value) : bool :=
  match v with
  | Chan => false
  | Slice l => forallb supported l
  | Map m => forallb (fun e => supported e.2) m
  | _ => true
  end.

(** [strconv.AppendInt] in base 10. *)
Definition itoa (n : Z) : string := NilZero.string_of_int (Z.to_int n).

(** Comma separated. *)
Fixpoint join (l : list string) : string :=
  match l with
  | [] => ""
  | [x] => x
  | x :: l' => x ++ "," ++ join l'
  end.

Fixpoint encode (v : value) : string :=
  match v with
  | Null => "null"
  | Bool b => if b then "true" else "false"
  | Int n => itoa n
  | Str s => appendString s
  | Slice l => "[" ++ join (map encode l) ++ "]"
  | Map m =>
    "{" ++ join (map (fun e => appendString e.1 ++ ":" ++ encode e.2) m) ++ "}"
  | Chan => ""
  end.

(** [json.Marshal(v)] for a non-nil [interface{}]; [None] is a
    non-nil error. *)
Definition Marshal (v : value) : option string :=
  if supported v then Some (encode v) else None.

(** *** [json.Unmarshal] into an [interface{}]

    Objects become maps (a later member replaces an earlier one of
    the same name), arrays slices, strings are unquoted.  Number
    literals with a fraction or an exponent denote [float64] values
    that are not integers in general; they are outside the model and
    [Unmarshal] is [None] on them. *)

Definition hexval (c : ascii) : N :=
  (if isDigit c then ord c - 48
   else if in_range 97 102 c then ord c - 87
   else ord c - 55)%N.

Definition getu4 (h1 h2 h3 h4 : ascii) : N :=
  (((hexval h1 * 16 + hexval h2) * 16 + hexval h3) * 16 + hexval h4)%N.

Definition unescape (e : ascii) : option ascii :=
  if Ascii.eqb e dq then Some dq
  else if Ascii.eqb e "\" then Some "\"%char
  else if Ascii.eqb e "/" then Some "/"%char
  else if Ascii.eqb e "b" then Some "008"%char
  else if Ascii.eqb e "f" then Some "012"%char
  else if Ascii.eqb e "n" then Some "010"%char
  else if Ascii.eqb e "r" then Some "013"%char
  else if Ascii.eqb e "t" then Some "009"%char
  else None.

(** A string literal after its opening quote: the string it denotes
    and the input that follows its closing quote. *)
Fixpoint unquote (s : string) : option (string * string) :=
  match s with
  | EmptyString => None
  | String c r =>
    if Ascii.eqb c dq then Some (EmptyString, r)
    else if Ascii.eqb c "\" then
      match r with
      | EmptyString => None
      | String e r1 =>
        if Ascii.eqb e "u" then
          match r1 with
          | String h1 (String h2 (String h3 (String h4 r2))) =>
            if isHex h1 && isHex h2 && isHex h3 && isHex h4 then
              let rr := getu4 h1 h2 h3 h4 in
              if utf16.IsSurrogate rr then
                match r2 with
                | String b1 (String b2 (String k1 (String k2 (String k3 (String k4 r3))))) =>
                  if Ascii.eqb b1 "\" && Ascii.eqb b2 "u"
                     && isHex k1 && isHex k2 && isHex k3 && isHex k4
                     && negb (utf16.DecodeRune rr (getu4 k1 k2 k3 k4) =? 65533)%N
                  then emit (utf8.EncodeRune (utf16.DecodeRune rr (getu4 k1 k2 k3 k4)))
                            (unquote r3)
                  else emit utf8.RuneError (unquote r2)
                | _ => emit utf8.RuneError (unquote r2)
                end
              else emit (utf8.EncodeRune rr) (unquote r2)
            else None
          | _ => None
          end
        else
          match unescape e with
          | Some ch => emit (String ch "") (unquote r1)
          | None => None
          end
      end
    else if (ord c <? 32)%N then None
    else if (ord c <? 128)%N then emit (String c "") (unquote r)
    else
      match r with
      | EmptyString => emit utf8.RuneError (unquote r)
      | String b r2 =>
        if utf8.seq2 c b then emit (String c (String b "")) (unquote r2)
        else
          match r2 with
          | EmptyString => emit utf8.RuneError (unquote r)
          | String d r3 =>
            if utf8.seq3 c b d
            then emit (String c (String b (String d ""))) (unquote r3)
            else
              match r3 with
              | EmptyString => emit utf8.RuneError (unquote r)
              | String g r4 =>
                if utf8.seq4 c b d g
                then emit (String c (String b (String d (String g "")))) (unquote r4)
                else emit utf8.RuneError (unquote r)
              end
          end
      end
  end.

(** Storing a key in a map. *)
Fixpoint insert (k : string) (v : value) (m : list (string * value)) :
  list (string * value) :=
  match m with
  | [] => [(k, v)]
  | (k', v') :: m' =>
    match String.compare k k' with
    | Lt => (k, v) :: m
    | Eq => (k, v) :: m'
    | Gt => (k', v') :: insert k v m'
    end
  end.

(** The map built from the members of an object, in their order. *)
Definition from_entries (es : list (string * value)) : list (string * value) :=
  fold_left (fun m e => insert e.1 e.2 m) es [].

Definition decode_number (s : string) : option (value * string) :=
  '(lit, r) ← scan_number s;
  n ← NilZero.int_of_string lit;
  Some (Int (Z.of_int n), r).

Definition decode_lit (w : string) (v : value) (s : string) : option (value * string) :=
  '(_, r) ← scan_lit w s; Some (v, r).

Fixpoint decode_value (fuel : nat) (s : string) : option (value * string) :=
  match fuel with
  | O => None
  | S f =>
    match skip_ws s with
    | EmptyString => None
    | String c r =>
      if Ascii.eqb c "{" then
        match after "}" (skip_ws r) with
        | Some r1 => Some (Map [], r1)
        | None =>
          '(m, r2) ← decode_members f (skip_ws r); Some (Map (from_entries m), r2)
        end
      else if Ascii.eqb c "[" then
        match after "]" (skip_ws r) with
        | Some r1 => Some (Slice [], r1)
        | None => '(l, r2) ← decode_elements f (skip_ws r); Some (Slice l, r2)
        end
      else if Ascii.eqb c dq then '(t, r1) ← unquote r; Some (Str t, r1)
      else if Ascii.eqb c "t" then decode_lit "true" (Bool true) (String c r)
      else if Ascii.eqb c "f" then decode_lit "false" (Bool false) (String c r)
      else if Ascii.eqb c "n" then decode_lit "null" Null (String c r)
      else decode_number (String c r)
    end
  end

with decode_elements (fuel : nat) (s : string) : option (list value * string) :=
  match fuel with
  | O => None
  | S f =>
    '(v, r) ← decode_value f s;
    match after "," (skip_ws r) with
    | Some r1 => '(l, r2) ← decode_elements f r1; Some (v :: l, r2)
    | None => r1 ← after "]" (skip_ws r); Some ([v], r1)
    end
  end

with decode_members (fuel : nat) (s : string) :
  option (list (string * value) * string) :=
  match fuel with
  | O => None
  | S f =>
    r ← after dq (skip_ws s);
    '(k, r1) ← unquote r;
    r2 ← after ":" (skip_ws r1);
    '(v, r3) ← decode_value f r2;
    match after "," (skip_ws r3) with
    | Some r4 => '(m, r5) ← decode_members f r4; Some ((k, v) :: m, r5)
    | None => r4 ← after "}" (skip_ws r3); Some ([(k, v)], r4)
    end
  end.

Definition Unmarshal (data : string) : option value :=
  '(v, r) ← decode_value (S (String.length data)) data;
  match skip_ws r with
  | EmptyString => Some v
  | _ => None
  end.

(** Strictly increasing keys. *)
Fixpoint increasing (ks : list string) : bool :=
  match ks with
  | [] => true
  | k :: t => forallb (String.ltb k) t && increasing t
  end.

(** The Go values that are JSON values: null, booleans, integers,
    well-formed UTF-8 strings, and slices and string-keyed maps of
    such. *)
Fixpoint is_json (v : value) : bool :=
  match v with
  | Null | Bool _ | Int _ => true
  | Str s => utf8.ValidString s
  | Slice l => forallb is_json l
  | Map m =>
    forallb (fun e => utf8.ValidString e.1 && is_json e.2) m
    && increasing (map fst m)
  | Chan => false
  end.

End json.

(** ** net/http: headers and the response sink *)

Module http.

(** [http.Header] is [map[string][]string]. *)
Abbreviation Header := (gmap string (list string)).

(** [Header.Get]: the first value of the key, the empty string when
    there is none.  The package only uses the key [Content-Type],
    which is in canonical form already. *)
Definition Get (h : Header) (key : string) : string :=
  match h !! key with
  | Some (v :: _) => v
  | _ => ""
  end.

(** [Header.Set] replaces the values of the key. *)
Definition Set_ (h : Header) (key value : string) : Header :=
  <[key := [value]]> h.

End http.

(** Go's [error]; [None] of [option error] is [nil]. *)
Inductive error : Type :=
| ErrInvalidRawJSON
| ErrJSONEncode
| ErrWrittenAlready
| SinkError (msg : string).          (* an error of the sink's own *)

(** [http.ResponseWriter].  A sink is a mutable object; its methods
    take the state before the call and return the state after it.
    [Header()] returns the sink's own map, which the caller mutates in
    place: [rw_setHeader] stores the mutated map. *)
Class ResponseWriter (W : Type) : Type := {
  rw_Header : W -> http.Header;
  rw_setHeader : http.Header -> W -> W;
  rw_WriteHeader : Z -> W -> W;
  rw_Write : string -> W -> (Z * option error) * W;
}.

(** The map returned by [Header()] is the sink's: what is stored in it
    is read back. *)
Class HeaderRef (W : Type) `{ResponseWriter W} : Prop := {
  rw_Header_set : forall h w, rw_Header (rw_setHeader h w) = h;
}.

(** A sink whose [WriteHeader] and [Write] leave the header map to the
    caller. *)
Class HeaderStable (W : Type) `{ResponseWriter W} : Prop := {
  rw_Header_WriteHeader : forall c w, rw_Header (rw_WriteHeader c w) = rw_Header w;
  rw_Header_Write : forall b w, rw_Header (rw_Write b w).2 = rw_Header w;
}.

(** ** Package jsend *)

Module jsend.

(** JSend status codes *)
Definition StatusSuccess : string := "success".
Definition StatusError : string := "error".
Definition StatusFail : string := "fail".

Record jsonResponse : Type := {
  Status : string;
  Data : string;                   (* json.RawMessage, tag [data,omitempty] *)
  Message : string;                (* tag [message,omitempty] *)
}.

Definition set_Data (d : string) (r : jsonResponse) : jsonResponse :=
  {| Status := Status r; Data := d; Message := Message r |}.

Definition set_Message (m : string) (r : jsonResponse) : jsonResponse :=
  {| Status := Status r; Data := Data r; Message := m |}.

(** The members that [json.Marshal] emits for a [*jsonResponse],
    in the order of the struct's fields: [omitempty] drops a [Data]
    of length zero and an empty [Message]; a [Data] that is kept goes
    through [RawMessage.MarshalJSON] and [compact]. *)
Definition members (r : jsonResponse) : option (list (string * string)) :=
  d ← (if decide (Data r = "") then Some []
       else o ← json.compact (Data r); Some [("data", o)]);
  Some ([("status", json.appendString (Status r))] ++ d
        ++ (if decide (Message r = "") then []
            else [("message", json.appendString (Message r))]))%list.

Definition object (ms : list (string * string)) : string :=
  "{" ++ json.join (map (fun m => String dq (m.1 ++ String dq "") ++ ":" ++ m.2) ms)
      ++ "}".

(** [json.Marshal(response)]. *)
Definition Marshal_jsonResponse (r : jsonResponse) : option string :=
  object <$> members r.

Section Sink.

Context {W : Type} `{ResponseWriter W}.

Definition writeJSONResponse (w : W) (response : jsonResponse) :
  (Z * option error) * W :=
  match Marshal_jsonResponse response with
  | None => ((0, Some ErrInvalidRawJSON), w)
  | Some resJSON => rw_Write resJSON w
  end.

(** The default content type, shared by [write] and [Wrap]. *)
Definition defaultContentType (w : W) : W :=
  if decide (http.Get (rw_Header w) "Content-Type" = "")
  then rw_setHeader (http.Set_ (rw_Header w) "Content-Type" "application/json") w
  else w.

(** [data] is an [interface{}]: [None] is the nil interface. *)
Definition write (w : W) (status : string) (statusCode : Z)
           (data : option json.value) (error_ : string) :
  (Z * option error) * W :=
  let res := {| Status := status; Data := ""; Message := "" |} in
  match
    match data with
    | Some v =>
      match json.Marshal v with
      | None => inl ErrJSONEncode
      | Some dataJSON => inr (set_Data dataJSON res)
      end
    | None => inr res
    end
  with
  | inl err => ((0, Some err), w)
  | inr res =>
    let res := if decide (error_ = "") then res else set_Message error_ res in
    let w := defaultContentType w in
    let w := rw_WriteHeader statusCode w in
    writeJSONResponse w res
  end.

(** Success json encodes and writes data to specified response with
    "success" status. *)
Definition Success (w : W) (data : option json.value) (code : Z) :=
  write w StatusSuccess code data "".

(** Error writes error string to specified response with "error"
    status. *)
Definition Error (w : W) (error_ : string) (code : Z) :=
  write w StatusError code None error_.

(** Fail json encodes and writes data to specified response with
    "fail" status. *)
Definition Fail (w : W) (data : option json.value) (code : Z) :=
  write w StatusFail code data "".

(** A response wraps a http.ResponseWriter.  The embedded
    [sync.Mutex] is held for the whole of [Write], so that calls of
    [Write] on one response run one after the other: a call of
    [Write] is one step of the state below. *)
Record response : Type := {
  rw : W;
  code : Z;
  written : bool;
}.

Definition Wrap (rw : W) : response :=
  {| rw := defaultContentType rw; code := 0; written := false |}.

Definition getStatus (code : Z) : string :=
  if decide (code >= 500) then StatusError
  else if decide (code >= 400 /\ code < 500) then StatusFail
  else StatusSuccess.

Definition Header (r : response) : http.Header := rw_Header (rw r).

Definition WriteHeader (c : Z) (r : response) : response :=
  {| rw := rw_WriteHeader c (rw r); code := c; written := written r |}.

Definition Write (data : string) (r : response) : (Z * option error) * response :=
  if written r then ((0, Some ErrWrittenAlready), r)
  else
    let st := getStatus (code r) in
    let jr := {| Status := st; Data := ""; Message := "" |} in
    let jr :=
      if decide (st = StatusError) then set_Message data jr
      else if decide (st = StatusFail) then set_Data data jr
      else set_Data data jr in
    let '(res, w) := writeJSONResponse (rw r) jr in
    (res, {| rw := w; code := code r; written := true |}).

End Sink.

Arguments response W : clear implicits.

(** The response is a [http.ResponseWriter] itself. *)
#[export] Instance response_ResponseWriter {W : Type} `{ResponseWriter W} :
  ResponseWriter (response W) := {
  rw_Header := Header;
  rw_setHeader h r :=
    {| rw := rw_setHeader h (rw r); code := code r; written := written r |};
  rw_WriteHeader := WriteHeader;
  rw_Write := Write;
}.

End jsend.

(** ** A recording sink

    A sink that records what it is given, in the manner of
    [httptest.ResponseRecorder]: the header map, the last status code
    and the body bytes. *)

Module httptest.

Record Recorder : Type := {
  Code : Z;
  HeaderMap : http.Header;
  Body : string;
}.

Definition NewRecorder : Recorder :=
  {| Code := 200; HeaderMap := ∅; Body := "" |}.

#[export] Instance Recorder_ResponseWriter : ResponseWriter Recorder := {
  rw_Header := HeaderMap;
  rw_setHeader h w := {| Code := Code w; HeaderMap := h; Body := Body w |};
  rw_WriteHeader c w := {| Code := c; HeaderMap := HeaderMap w; Body := Body w |};
  rw_Write b w :=
    ((Z.of_nat (String.length b), None),
     {| Code := Code w; HeaderMap := HeaderMap w; Body := Body w ++ b |});
}.

End httptest.

Import jsend httptest.

(** ** Vocabulary of the properties *)

Section Vocabulary.

Context {W : Type} `{ResponseWriter W}.

(** What [Write] returns when the envelope [env] reaches the sink:
    the sink's own result, and the decorator marked as written. *)
Definition forwarded (env : string) (r : response W) :
  (Z * option error) * response W :=
  ((rw_Write env (rw r)).1,
   {| rw := (rw_Write env (rw r)).2; code := code r; written := true |}).

(** [res] is what the sink [w0] returns for an envelope that has the
    status [st] and, after it, members named [ks], in this order. *)
Definition emitted (res : (Z * option error) * W) (w0 : W)
           (st : string) (ks : list string) : Prop :=
  exists ms, map fst ms = ks
             /\ res = rw_Write (object (("status", json.appendString st) :: ms)) w0.

(** [res] is the refusal of [writeJSONResponse]: the sink [w0] is not
    called. *)
Definition refused (res : (Z * option error) * W) (w0 : W) : Prop :=
  res = ((0, Some ErrInvalidRawJSON), w0).

End Vocabulary.

(** The bytes that [write] stores in [jsonResponse.Data]: those of
    [json.Marshal], none for the nil interface. *)
Definition payload_bytes (data : option json.value) : option string :=
  match data with
  | Some v => json.Marshal v
  | None => Some ""
  end.

(** [h'] is [h] after the default content type has been applied. *)
Definition content_type_defaulted (h h' : http.Header) : Prop :=
  http.Get h' "Content-Type"
  = (if decide (http.Get h "Content-Type" = "") then "application/json"
     else http.Get h "Content-Type")
  /\ (http.Get h "Content-Type" <> "" -> h' = h)
  /\ (forall k, k <> "Content-Type" -> h' !! k = h !! k).

(** The decorator of the tests: a fresh recorder, wrapped. *)
Definition fresh : response Recorder := Wrap NewRecorder.

(** *** Vocabulary of the round trip *)

(** The envelope of a payload. *)
Definition envelope (st : string) (p : json.value) : string :=
  object [("status", json.appendString st); ("data", json.encode p)].

(** What may follow a number literal. *)
Definition ends_number (rest : string) : bool :=
  match rest with
  | EmptyString => true
  | String c _ =>
    negb (json.isDigit c || Ascii.eqb c "." || Ascii.eqb c "e" || Ascii.eqb c "E")
  end.

(** The first character of a value. *)
Definition value_start (c : ascii) : bool :=
  json.isDigit c || Ascii.eqb c "-" || Ascii.eqb c dq || Ascii.eqb c "["
  || Ascii.eqb c "{" || Ascii.eqb c "n" || Ascii.eqb c "t" || Ascii.eqb c "f".

(** The fuel that a value asks of the scanner and of the decoder. *)
Fixpoint need (v : json.value) : nat :=
  match v with
  | json.Slice l => S (list_sum (map (fun x => S (need x)) l))
  | json.Map m => S (list_sum (map (fun e => S (need e.2)) m))
  | _ => 1
  end.

(** The scanner accepts the encoding of [v] and copies it. *)
Definition scans (v : json.value) : Prop :=
  forall f rest, (need v <= f)%nat -> ends_number rest = true ->
    json.scan_value f (json.encode v ++ rest) = Some (json.encode v, rest).

(** A member of an object, as [Marshal] writes it. *)
Definition member (e : string * json.value) : string :=
  json.appendString e.1 ++ ":" ++ json.encode e.2.

(** The decoder reads the encoding of [v] back. *)
Definition decodes (v : json.value) : Prop :=
  forall f rest, (need v <= f)%nat -> ends_number rest = true ->
    json.decode_value f (json.encode v ++ rest) = Some (v, rest).

(** *** Vocabulary of the envelope *)

(** The envelope that [json.Marshal] writes for a [jsonResponse]: the
    status, then the [data] member when there are bytes for it, then
    the [message] member when there is a text. *)
Definition envelope_of (st : string) (data : option string) (msg : string) : string :=
  object ([("status", json.appendString st)]
          ++ (match data with Some d => [("data", d)] | None => [] end)
          ++ (if decide (msg = "") then []
              else [("message", json.appendString msg)]))%list.

(** The envelope as a Go value, members in the order of the struct's
    fields. *)
Definition envelope_value (st : string) (data : option json.value) (msg : string) :
  json.value :=
  json.Map ([("status", json.Str st)]
            ++ (match data with Some p => [("data", p)] | None => [] end)
            ++ (if decide (msg = "") then [] else [("message", json.Str msg)]))%list.

(** What a client that decodes the envelope into an [interface{}]
    gets: a map, which has its keys in increasing order. *)
Definition decoded_envelope (st : string) (data : option json.value) (msg : string) :
  json.value :=
  json.Map ((match data with Some p => [("data", p)] | None => [] end)
            ++ (if decide (msg = "") then [] else [("message", json.Str msg)])
            ++ [("status", json.Str st)])%list.

(** *** Vocabulary of the bodies handed to a sink *)

(** The scanner accepts the text [o] and copies it, given the fuel [g]. *)
Definition rescans (g : nat) (o : string) : Prop :=
  forall f rest, (g <= f)%nat -> ends_number rest = true ->
    json.scan_value f (o ++ rest) = Some (o, rest).

(** None of the bytes <, > and & occurs in [s]. *)
Fixpoint html_free (s : string) : bool :=
  match s with
  | EmptyString => true
  | String c r => negb (json.isHtml c) && html_free r
  end.

(** A sink whose [Write] takes all the bytes it is given and reports
    their number, as a sink does when nothing fails. *)
Class CountsBytes (W : Type) `{ResponseWriter W} : Prop := {
  rw_Write_reports :
    forall b w, (rw_Write b w).1 = (Z.of_nat (String.length b), None);
}.

(** *** Vocabulary of the decoder *)

(** The UTF-8 sequence that the byte [c], 0x80 or more, starts when
    [r] follows it, and what follows the sequence; [None] when it
    starts none: the decoder then reads U+FFFD and goes on after [c]. *)
Definition sequence_at (c : ascii) (r : string) : option (string * string) :=
  match r with
  | EmptyString => None
  | String b r2 =>
    if utf8.seq2 c b then Some (String c (String b ""), r2)
    else
      match r2 with
      | EmptyString => None
      | String d r3 =>
        if utf8.seq3 c b d then Some (String c (String b (String d "")), r3)
        else
          match r3 with
          | EmptyString => None
          | String g r4 =>
            if utf8.seq4 c b d g
            then Some (String c (String b (String d (String g ""))), r4)
            else None
          end
      end
  end.

(** The code point of the surrogate pair that the escape of the high
    surrogate [rr] makes with the escape at the head of [r], and what
    follows that escape; [None] when they make none. *)
Definition pair_at (rr : N) (r : string) : option (N * string) :=
  match r with
  | String b1 (String b2 (String k1 (String k2 (String k3 (String k4 r3))))) =>
    if Ascii.eqb b1 "\" && Ascii.eqb b2 "u"
       && json.isHex k1 && json.isHex k2 && json.isHex k3 && json.isHex k4
       && negb (utf16.DecodeRune rr (json.getu4 k1 k2 k3 k4) =? 65533)%N
    then Some (utf16.DecodeRune rr (json.getu4 k1 k2 k3 k4), r3)
    else None
  | _ => None
  end.


(** * Properties *)

(** ** Byte sequences *)

Lemma append_nil_l (s : string) : "" ++ s = s.
Proof. reflexivity. Qed.

Lemma append_cons (c : ascii) (a b : string) :
  String c a ++ b = String c (a ++ b).
Proof. reflexivity. Qed.

Lemma append_nil_r (s : string) : s ++ "" = s.
Proof.
  induction s as [|c s IH]; [reflexivity|].
  rewrite append_cons. now rewrite IH.
Qed.

Lemma append_assoc (a b c : string) : a ++ (b ++ c) = (a ++ b) ++ c.
Proof.
  induction a as [|x a IH]; [reflexivity|].
  rewrite !append_cons. now rewrite IH.
Qed.

Lemma append_length (a b : string) :
  String.length (a ++ b) = (String.length a + String.length b)%nat.
Proof.
  induction a as [|x a IH]; [reflexivity|].
  rewrite append_cons. simpl. now rewrite IH.
Qed.


(** ** The codec on examples *)

Example appendString_plain :
  json.appendString "something wrong" = js "'something wrong'".
Proof. reflexivity. Qed.

Example appendString_html :
  json.appendString (js "a<'b'>") = js "'a\u003c\'b\'\u003e'".
Proof. reflexivity. Qed.

Example compact_object :
  json.compact (js " { 'foo' : [1, 2.5e+3 , true,null ] , 'b<' : {} } ")
  = Some (js "{'foo':[1,2.5e+3,true,null],'b\u003c':{}}").
Proof. reflexivity. Qed.

Example compact_invalid :
  json.compact "some invalid json" = None /\ json.compact (String dq "") = None
  /\ json.compact "" = None /\ json.compact "01" = None /\ json.compact "[1,]" = None.
Proof. repeat split; reflexivity. Qed.

Example Marshal_scenario :
  json.Marshal (json.Map [("id", json.Int 1); ("name", json.Str "foo")])
  = Some (js "{'id':1,'name':'foo'}").
Proof. reflexivity. Qed.

Example Marshal_numbers :
  json.Marshal (json.Slice [json.Int 0; json.Int (-12); json.Int 1005; json.Null])
  = Some "[0,-12,1005,null]".
Proof. reflexivity. Qed.

Example Unmarshal_object :
  json.Unmarshal (js " { 'b' : [1, -20 , true,null ] , 'a<\n\ud83d\ude00' : {}, 'b': 'x' } ")
  = Some (json.Map [(String "a" (String "<" (String "010"
                       (String "240" (String "159" (String "152" (String "128" "")))))),
                     json.Map []);
                    ("b", json.Str "x")]).
Proof. reflexivity. Qed.

Example Unmarshal_invalid :
  json.Unmarshal "[1 2]" = None /\ json.Unmarshal (js "'\x'") = None
  /\ json.Unmarshal (js "{'a':1,}") = None.
Proof. repeat split; reflexivity. Qed.

(** ** The recording sink keeps its headers *)

#[export] Instance Recorder_HeaderRef : HeaderRef Recorder.
Proof. constructor. reflexivity. Qed.

#[export] Instance Recorder_HeaderStable : HeaderStable Recorder.
Proof. constructor; reflexivity. Qed.


(** ** The scenarios of the package's tests *)

Example scenario_Success :
  Success NewRecorder
          (Some (json.Map [("id", json.Int 1); ("name", json.Str "foo")])) 200
  = ((49, None),
     {| Code := 200;
        HeaderMap := {[ "Content-Type" := ["application/json"] ]};
        Body := js "{'status':'success','data':{'id':1,'name':'foo'}}" |}).
Proof. vm_compute. reflexivity. Qed.

Example scenario_Error :
  Body (Error NewRecorder "something wrong" 500).2
  = js "{'status':'error','message':'something wrong'}".
Proof. vm_compute. reflexivity. Qed.

Example scenario_Wrap_fail :
  let r := WriteHeader 400 (Wrap NewRecorder) in
  let out := Write (js "{'foo':'bar'}") r in
  out.1 = (38, None) /\ Code (rw out.2) = 400
  /\ Body (rw out.2) = js "{'status':'fail','data':{'foo':'bar'}}".
Proof. vm_compute. repeat split; reflexivity. Qed.

Example scenario_Wrap_custom_content_type :
  let w := rw_setHeader (http.Set_ (rw_Header NewRecorder) "Content-Type"
                                   "application/foo+json") NewRecorder in
  let out := Write (js "'foo'") (WriteHeader 200 (Wrap w)) in
  out.1 = (33, None)
  /\ http.Get (Header out.2) "Content-Type" = "application/foo+json"
  /\ Body (rw out.2) = js "{'status':'success','data':'foo'}".
Proof. vm_compute. repeat split; reflexivity. Qed.

Example scenario_Wrap_invalid :
  let out := Write "some invalid json" (WriteHeader 200 (Wrap NewRecorder)) in
  out.1 = (0, Some ErrInvalidRawJSON) /\ Body (rw out.2) = ""
  /\ http.Get (Header out.2) "Content-Type" = "application/json".
Proof. vm_compute. repeat split; reflexivity. Qed.

Example scenario_MultipleWrite :
  let out0 := Write (js "'hello'") (Wrap NewRecorder) in
  let out1 := Write (js "'world'") out0.2 in
  out0.1.2 = None /\ out1.1 = (0, Some ErrWrittenAlready)
  /\ Body (rw out1.2) = js "{'status':'success','data':'hello'}".
Proof. vm_compute. repeat split; reflexivity. Qed.

Example scenario_writeJSONResponse :
  writeJSONResponse NewRecorder
    {| Status := StatusSuccess; Data := String dq ""; Message := "" |}
  = ((0, Some ErrInvalidRawJSON), NewRecorder).
Proof. reflexivity. Qed.

Example scenario_unsupported :
  Success NewRecorder (Some (json.Map [("foos", json.Chan)])) 200
  = ((0, Some ErrJSONEncode), NewRecorder).
Proof. reflexivity. Qed.

(** ** The codec: what [Marshal] writes is scanned and read back *)

Lemma high_not_special (a : ascii) :
  (ord a <? 128)%N = false ->
  Ascii.eqb a dq = false /\ Ascii.eqb a "\" = false
  /\ (ord a <? 32)%N = false /\ json.isHtml a = false.
Proof.
  destruct a as [[] [] [] [] [] [] [] []]; vm_compute; intros Ha;
    try discriminate Ha; repeat split; reflexivity.
Qed.

Lemma escape_ascii_scan (a : ascii) (t : string) :
  (ord a <? 128)%N = true ->
  json.scan_string (json.escape_ascii a ++ t)
  = json.emit (json.escape_ascii a) (json.scan_string t).
Proof.
  intros Ha.
  destruct a as [[] [] [] [] [] [] [] []]; vm_compute in Ha; try discriminate Ha;
    (destruct t as [|b [|d r]]; reflexivity).
Qed.

Lemma escape_ascii_unquote (a : ascii) (t : string) :
  (ord a <? 128)%N = true ->
  json.unquote (json.escape_ascii a ++ t)
  = json.emit (String a "") (json.unquote t).
Proof.
  intros Ha.
  destruct a as [[] [] [] [] [] [] [] []]; vm_compute in Ha; try discriminate Ha;
    reflexivity.
Qed.

Ltac bool_facts :=
  repeat match goal with
         | H : _ && _ = true |- _ => apply andb_prop in H; destruct H
         | H : _ || _ = true |- _ => apply orb_prop in H; destruct H
         | H : Ascii.eqb _ _ = true |- _ => apply Ascii.eqb_eq in H; subst
         | H : in_range _ _ _ = true |- _ =>
           unfold in_range in H
         | H : (_ <=? _)%N = true |- _ => apply N.leb_le in H
         | H : (_ <? _)%N = true |- _ => apply N.ltb_lt in H
         | H : (_ <? _)%N = false |- _ => apply N.ltb_ge in H
         end.

Lemma cont_high (b : ascii) : utf8.cont b = true -> (ord b <? 128)%N = false.
Proof. unfold utf8.cont. intros Hb. bool_facts. apply N.ltb_ge. lia. Qed.

Lemma cont_not_e2 (b : ascii) : utf8.cont b = true -> Ascii.eqb b "226" = false.
Proof.
  destruct b as [[] [] [] [] [] [] [] []]; vm_compute; congruence.
Qed.

(** A byte from 0x80 up that is not 0xE2 is copied by the scanner. *)
Lemma scan_string_copy (a : ascii) (t : string) :
  (ord a <? 128)%N = false -> Ascii.eqb a "226" = false ->
  json.scan_string (String a t) = json.emit (String a "") (json.scan_string t).
Proof.
  intros Ha He.
  destruct a as [[] [] [] [] [] [] [] []]; vm_compute in Ha; try discriminate Ha;
    vm_compute in He; try discriminate He;
    (destruct t as [|b [|d r]]; reflexivity).
Qed.

Lemma scan_string_e2 (b c : ascii) (t : string) :
  json.scan_string (String "226" (String b (String c t)))
  = if utf8.is_ls_ps "226" b c
    then json.emit ("\u202" ++ String (json.hex (ord c mod 16)) "") (json.scan_string t)
    else json.emit (String "226" "") (json.scan_string (String b (String c t))).
Proof. reflexivity. Qed.

Lemma unquote_high (a : ascii) (r : string) :
  (ord a <? 128)%N = false ->
  json.unquote (String a r)
  = match r with
    | EmptyString => json.emit utf8.RuneError (json.unquote r)
    | String b r2 =>
      if utf8.seq2 a b then json.emit (String a (String b "")) (json.unquote r2)
      else
        match r2 with
        | EmptyString => json.emit utf8.RuneError (json.unquote r)
        | String d r3 =>
          if utf8.seq3 a b d
          then json.emit (String a (String b (String d ""))) (json.unquote r3)
          else
            match r3 with
            | EmptyString => json.emit utf8.RuneError (json.unquote r)
            | String g r4 =>
              if utf8.seq4 a b d g
              then json.emit (String a (String b (String d (String g "")))) (json.unquote r4)
              else json.emit utf8.RuneError (json.unquote r)
            end
        end
    end.
Proof.
  intros Ha. destruct (high_not_special a Ha) as (H1 & H2 & H3 & _).
  cbn [json.unquote]. rewrite H1, H2, H3, Ha. reflexivity.
Qed.

Lemma seq2_high a b : utf8.seq2 a b = true -> (ord a <? 128)%N = false /\ Ascii.eqb a "226" = false /\ utf8.cont b = true.
Proof.
  unfold utf8.seq2. intros H. apply andb_prop in H. destruct H as [Ha Hb].
  split; [|split; [|exact Hb]]; revert Ha;
    destruct a as [[] [] [] [] [] [] [] []]; vm_compute; congruence.
Qed.

Ltac range_solve :=
  unfold utf8.cont, in_range in *; bool_facts;
  repeat match goal with |- _ /\ _ => split end;
  first [ reflexivity
        | repeat match goal with
                 | |- _ && _ = true => apply andb_true_intro; split
                 | |- (_ <=? _)%N = true => apply N.leb_le
                 | |- (_ <? _)%N = false => apply N.ltb_ge
                 end;
          first [ reflexivity | lia ] ].

Lemma seq3_bytes (a b c : ascii) :
  utf8.seq3 a b c = true ->
  (ord a <? 128)%N = false /\ utf8.cont b = true /\ utf8.cont c = true.
Proof. unfold utf8.seq3. intros H. range_solve. Qed.

Lemma seq4_bytes (a b c d : ascii) :
  utf8.seq4 a b c d = true ->
  (ord a <? 128)%N = false /\ Ascii.eqb a "226" = false
  /\ utf8.cont b = true /\ utf8.cont c = true /\ utf8.cont d = true.
Proof.
  unfold utf8.seq4. intros H.
  assert (Ha : in_range 240 244 a = true) by (clear - H; range_solve).
  split; [|split].
  - clear - Ha. range_solve.
  - clear - Ha. revert Ha.
    destruct a as [[] [] [] [] [] [] [] []]; vm_compute; congruence.
  - clear Ha. range_solve.
Qed.

Lemma ValidString_ind (P : string -> Prop) :
  P "" ->
  (forall a r, (ord a <? 128)%N = true -> P r -> P (String a r)) ->
  (forall a b r, (ord a <? 128)%N = false -> utf8.seq2 a b = true ->
                 P r -> P (String a (String b r))) ->
  (forall a b c r, (ord a <? 128)%N = false -> utf8.seq2 a b = false ->
                   utf8.seq3 a b c = true ->
                   P r -> P (String a (String b (String c r)))) ->
  (forall a b c d r, (ord a <? 128)%N = false -> utf8.seq2 a b = false ->
                     utf8.seq3 a b c = false -> utf8.seq4 a b c d = true ->
                     P r -> P (String a (String b (String c (String d r))))) ->
  forall s, utf8.ValidString s = true -> P s.
Proof.
  intros H0 H1 H2 H3 H4 s.
  assert (Hn : exists n, (String.length s <= n)%nat) by (exists (String.length s); lia).
  destruct Hn as [n Hn]. revert s Hn.
  induction n as [|n IH]; intros s Hn Hv.
  - destruct s; [exact H0 | simpl in Hn; lia].
  - destruct s as [|a r1]; [exact H0|].
    cbn [utf8.ValidString] in Hv. simpl in Hn.
    destruct (ord a <? 128)%N eqn:Ha.
    { apply H1; [exact Ha | apply IH; [lia | exact Hv]]. }
    destruct r1 as [|b r2]; [discriminate|]. simpl in Hn.
    destruct (utf8.seq2 a b) eqn:H2b.
    { apply H2; [exact Ha | exact H2b | apply IH; [lia | exact Hv]]. }
    destruct r2 as [|c r3]; [discriminate|]. simpl in Hn.
    destruct (utf8.seq3 a b c) eqn:H3b.
    { apply H3; [exact Ha | exact H2b | exact H3b | apply IH; [lia | exact Hv]]. }
    destruct r3 as [|d r4]; [discriminate|]. simpl in Hn.
    apply andb_prop in Hv. destruct Hv as [H4b Hv].
    apply H4; [exact Ha | exact H2b | exact H3b | exact H4b | apply IH; [lia | exact Hv]].
Qed.

(** Strings, split the way [appendString] reads them: ASCII bytes,
    well-formed sequences, and bytes that start none. *)
Lemma escape_ind (P : string -> Prop) :
  P "" ->
  (forall a r, (ord a <? 128)%N = true -> P r -> P (String a r)) ->
  (forall a b r, (ord a <? 128)%N = false -> utf8.seq2 a b = true ->
                 P r -> P (String a (String b r))) ->
  (forall a b c r, (ord a <? 128)%N = false -> utf8.seq2 a b = false ->
                   utf8.seq3 a b c = true ->
                   P r -> P (String a (String b (String c r)))) ->
  (forall a b c d r, (ord a <? 128)%N = false -> utf8.seq2 a b = false ->
                     utf8.seq3 a b c = false -> utf8.seq4 a b c d = true ->
                     P r -> P (String a (String b (String c (String d r))))) ->
  (forall a r, (ord a <? 128)%N = false ->
               json.escape (String a r) = "\ufffd" ++ json.escape r ->
               P r -> P (String a r)) ->
  forall s, P s.
Proof.
  intros H0 H1 H2 H3 H4 H5 s.
  assert (Hn : exists n, (String.length s <= n)%nat) by (exists (String.length s); lia).
  destruct Hn as [n Hn]. revert s Hn.
  induction n as [|n IH]; intros s Hn.
  - destruct s; [exact H0 | simpl in Hn; lia].
  - destruct s as [|a r1]; [exact H0|]. simpl in Hn.
    destruct (ord a <? 128)%N eqn:Ha.
    { apply H1; [exact Ha | apply IH; lia]. }
    assert (Hr1 : P r1) by (apply IH; lia).
    destruct r1 as [|b r2].
    { apply H5; [exact Ha | cbn [json.escape]; rewrite Ha; reflexivity | exact Hr1]. }
    simpl in Hn.
    destruct (utf8.seq2 a b) eqn:H2b.
    { apply H2; [exact Ha | exact H2b | apply IH; lia]. }
    destruct r2 as [|c r3].
    { apply H5; [exact Ha | cbn [json.escape]; rewrite Ha, H2b; reflexivity | exact Hr1]. }
    simpl in Hn.
    destruct (utf8.seq3 a b c) eqn:H3b.
    { apply H3; [exact Ha | exact H2b | exact H3b | apply IH; lia]. }
    destruct r3 as [|d r4].
    { apply H5; [exact Ha | cbn [json.escape]; rewrite Ha, H2b, H3b; reflexivity
                | exact Hr1]. }
    simpl in Hn.
    destruct (utf8.seq4 a b c d) eqn:H4b.
    { apply H4; [exact Ha | exact H2b | exact H3b | exact H4b | apply IH; lia]. }
    apply H5; [exact Ha | cbn [json.escape]; rewrite Ha, H2b, H3b, H4b; reflexivity
              | exact Hr1].
Qed.

Lemma emit_Some (o o' r : string) :
  json.emit o (Some (o', r)) = Some (o ++ o', r).
Proof. reflexivity. Qed.

Lemma is_ls_ps_bytes (a b c : ascii) :
  utf8.is_ls_ps a b c = true ->
  a = "226"%char /\ b = "128"%char /\ (c = "168"%char \/ c = "169"%char).
Proof.
  unfold utf8.is_ls_ps. intros H.
  apply andb_prop in H. destruct H as [H Hc].
  apply andb_prop in H. destruct H as [Ha Hb].
  apply Ascii.eqb_eq in Ha. apply Ascii.eqb_eq in Hb.
  split; [exact Ha | split; [exact Hb|]].
  revert Hc. clear.
  destruct c as [[] [] [] [] [] [] [] []]; vm_compute; intros H;
    try discriminate H; auto.
Qed.

Lemma scan_string_u202 (c : ascii) (e t : string) :
  c = "168"%char \/ c = "169"%char ->
  json.scan_string (("\u202" ++ String (json.hex (ord c mod 16)) e) ++ t)
  = json.emit ("\u202" ++ String (json.hex (ord c mod 16)) "")
              (json.scan_string (e ++ t)).
Proof. intros [-> | ->]; reflexivity. Qed.

Lemma unquote_u202 (c : ascii) (e t : string) :
  c = "168"%char \/ c = "169"%char ->
  json.unquote (("\u202" ++ String (json.hex (ord c mod 16)) e) ++ t)
  = json.emit (String "226" (String "128" (String c "")))
              (json.unquote (e ++ t)).
Proof. intros [-> | ->]; reflexivity. Qed.

(** The scanner accepts an escaped string and copies it. *)
Lemma scan_string_escape (s rest : string) :
  json.scan_string (json.escape s ++ String dq rest)
  = Some (json.escape s ++ String dq "", rest).
Proof.
  revert rest. pattern s.
  apply escape_ind; clear s;
    [ intros rest | intros a r Ha IH rest | intros a b r Ha H2 IH rest
    | intros a b c r Ha H2 H3 IH rest | intros a b c d r Ha H2 H3 H4 IH rest
    | intros a r Ha He IH rest ].
  - reflexivity.
  - cbn [json.escape]. rewrite Ha.
    rewrite <- !append_assoc, escape_ascii_scan, IH by exact Ha. reflexivity.
  - cbn [json.escape]. rewrite Ha, H2. rewrite !append_cons.
    destruct (seq2_high a b H2) as (_ & He & Hb).
    rewrite (scan_string_copy a) by assumption.
    rewrite (scan_string_copy b) by (auto using cont_high, cont_not_e2).
    rewrite IH. reflexivity.
  - cbn [json.escape]. rewrite Ha, H2, H3.
    destruct (seq3_bytes a b c H3) as (_ & Hb & Hc).
    destruct (utf8.is_ls_ps a b c) eqn:Hl.
    + destruct (is_ls_ps_bytes a b c Hl) as (-> & -> & Hc').
      rewrite (scan_string_u202 c _ _ Hc'), IH. reflexivity.
    + rewrite !append_cons.
      assert (Hstep : json.scan_string
                        (String a (String b (String c (json.escape r ++ String dq rest))))
                      = json.emit (String a "")
                          (json.scan_string
                             (String b (String c (json.escape r ++ String dq rest))))).
      { destruct (Ascii.eqb a "226") eqn:He.
        - apply Ascii.eqb_eq in He. subst a.
          rewrite scan_string_e2, Hl. reflexivity.
        - apply scan_string_copy; assumption. }
      rewrite Hstep.
      rewrite (scan_string_copy b) by (auto using cont_high, cont_not_e2).
      rewrite (scan_string_copy c) by (auto using cont_high, cont_not_e2).
      rewrite IH. reflexivity.
  - cbn [json.escape]. rewrite Ha, H2, H3, H4. rewrite !append_cons.
    destruct (seq4_bytes a b c d H4) as (_ & He & Hb & Hc & Hd).
    rewrite (scan_string_copy a) by assumption.
    rewrite (scan_string_copy b) by (auto using cont_high, cont_not_e2).
    rewrite (scan_string_copy c) by (auto using cont_high, cont_not_e2).
    rewrite (scan_string_copy d) by (auto using cont_high, cont_not_e2).
    rewrite IH. reflexivity.
  - rewrite He, <- append_assoc.
    change (json.scan_string ("\ufffd" ++ json.escape r ++ String dq rest))
      with (json.emit "\ufffd" (json.scan_string (json.escape r ++ String dq rest))).
    rewrite IH, emit_Some, append_assoc. reflexivity.
Qed.

(** Unquoting an escaped string gives the string back. *)
Lemma unquote_escape (s rest : string) :
  utf8.ValidString s = true ->
  json.unquote (json.escape s ++ String dq rest) = Some (s, rest).
Proof.
  intros Hv. revert rest. pattern s.
  apply ValidString_ind; [ | | | | | exact Hv]; clear s Hv;
    [ intros rest | intros a r Ha IH rest | intros a b r Ha H2 IH rest
    | intros a b c r Ha H2 H3 IH rest | intros a b c d r Ha H2 H3 H4 IH rest ].
  - reflexivity.
  - cbn [json.escape]. rewrite Ha.
    rewrite <- !append_assoc, escape_ascii_unquote, IH by exact Ha. reflexivity.
  - cbn [json.escape]. rewrite Ha, H2. rewrite !append_cons.
    rewrite (unquote_high a) by exact Ha. rewrite H2, IH. reflexivity.
  - cbn [json.escape]. rewrite Ha, H2, H3.
    destruct (utf8.is_ls_ps a b c) eqn:Hl.
    + destruct (is_ls_ps_bytes a b c Hl) as (-> & -> & Hc').
      rewrite (unquote_u202 c _ _ Hc'), IH. reflexivity.
    + rewrite !append_cons.
      rewrite (unquote_high a) by exact Ha. rewrite H2, H3, IH. reflexivity.
  - cbn [json.escape]. rewrite Ha, H2, H3, H4. rewrite !append_cons.
    rewrite (unquote_high a) by exact Ha. rewrite H2, H3, H4, IH. reflexivity.
Qed.

Lemma digits_end (rest : string) :
  ends_number rest = true -> json.digits rest = (EmptyString, rest).
Proof.
  destruct rest as [|c r]; [reflexivity|]. cbn [ends_number json.digits].
  intros H. apply negb_true_iff in H.
  destruct (json.isDigit c); [discriminate | reflexivity].
Qed.

Lemma digits_uint (d : uint) (rest : string) :
  ends_number rest = true ->
  json.digits (NilEmpty.string_of_uint d ++ rest)
  = (NilEmpty.string_of_uint d, rest).
Proof.
  intros Hr. induction d; cbn [NilEmpty.string_of_uint];
    rewrite ?append_cons, ?append_nil_l; cbn [json.digits];
    try (change (json.isDigit _) with true; cbv iota; rewrite IHd; reflexivity).
  apply digits_end, Hr.
Qed.

Lemma scan_frac_end (rest : string) :
  ends_number rest = true -> json.scan_frac rest = Some (EmptyString, rest).
Proof.
  destruct rest as [|c r]; [reflexivity|]. cbn [ends_number]. intros H.
  apply negb_true_iff in H. apply orb_false_elim in H. destruct H as [H _].
  apply orb_false_elim in H. destruct H as [H _].
  apply orb_false_elim in H. destruct H as [_ H].
  unfold json.scan_frac, json.after. rewrite H. reflexivity.
Qed.

Lemma scan_exp_end (rest : string) :
  ends_number rest = true -> json.scan_exp rest = Some (EmptyString, rest).
Proof.
  destruct rest as [|c r]; [reflexivity|]. cbn [ends_number]. intros H.
  apply negb_true_iff in H. apply orb_false_elim in H. destruct H as [H HE].
  apply orb_false_elim in H. destruct H as [_ He].
  unfold json.scan_exp. rewrite He, HE. reflexivity.
Qed.

Lemma to_uint_head (p : positive) (d : uint) : Pos.to_uint p <> D0 d.
Proof.
  intros Hp.
  assert (Hn : unorm (Pos.to_uint p) = Pos.to_uint p).
  { rewrite <- (DecimalPos.Unsigned.to_of (Pos.to_uint p)).
    rewrite DecimalPos.Unsigned.of_to. reflexivity. }
  rewrite Hp, unorm_D0 in Hn. unfold unorm in Hn.
  destruct (nzhead d) eqn:Hd;
    try (apply (nzhead_nonzero d d); congruence).
  injection Hn as <-. apply (DecimalPos.Unsigned.to_uint_nonzero p). exact Hp.
Qed.

Lemma scan_int_uint (p : positive) (rest : string) :
  ends_number rest = true ->
  json.scan_int (NilEmpty.string_of_uint (Pos.to_uint p) ++ rest)
  = Some (NilEmpty.string_of_uint (Pos.to_uint p), rest).
Proof.
  intros Hr.
  destruct (Pos.to_uint p) as [|d|d|d|d|d|d|d|d|d|d] eqn:Hp;
    [ destruct (DecimalPos.Unsigned.to_uint_nonnil p Hp)
    | destruct (to_uint_head p d Hp) | .. ];
    cbn [NilEmpty.string_of_uint]; rewrite append_cons; unfold json.scan_int;
    change (Ascii.eqb _ "0") with false; change (json.isDigit _) with true;
    cbv iota; rewrite (digits_uint d rest Hr); reflexivity.
Qed.

Lemma scan_number_int (s sign i rest : string) :
  match json.after "-" s with
  | Some r => ("-", r)
  | None => (EmptyString, s)
  end = (sign, i ++ rest) ->
  json.scan_int (i ++ rest) = Some (i, rest) ->
  ends_number rest = true ->
  json.scan_number s = Some (sign ++ i, rest).
Proof.
  intros Hs Hi Hr. unfold json.scan_number. rewrite Hs, Hi.
  cbn [mbind option_bind].
  rewrite (scan_frac_end rest Hr). cbn [mbind option_bind].
  rewrite (scan_exp_end rest Hr). cbn [mbind option_bind].
  rewrite !append_nil_r. reflexivity.
Qed.

Lemma itoa_pos (p : positive) :
  json.itoa (Z.pos p) = NilEmpty.string_of_uint (Pos.to_uint p)
  /\ json.itoa (Z.neg p) = String "-" (NilEmpty.string_of_uint (Pos.to_uint p)).
Proof.
  unfold json.itoa. cbn [Z.to_int NilZero.string_of_int].
  destruct (Pos.to_uint p) eqn:Hp; try (split; reflexivity).
  destruct (DecimalPos.Unsigned.to_uint_nonnil p Hp).
Qed.

Lemma scan_number_itoa (n : Z) (rest : string) :
  ends_number rest = true ->
  json.scan_number (json.itoa n ++ rest) = Some (json.itoa n, rest).
Proof.
  intros Hr. destruct n as [|p|p].
  - apply (scan_number_int _ "" "0" rest); [reflexivity | reflexivity | exact Hr].
  - destruct (itoa_pos p) as [-> _].
    apply (scan_number_int _ "" _ rest); [|apply scan_int_uint, Hr | exact Hr].
    destruct (Pos.to_uint p) as [|d|d|d|d|d|d|d|d|d|d] eqn:Hp; try reflexivity.
    destruct (DecimalPos.Unsigned.to_uint_nonnil p Hp).
  - destruct (itoa_pos p) as [_ ->].
    apply (scan_number_int _ "-" _ rest); [reflexivity | apply scan_int_uint, Hr | exact Hr].
Qed.

Lemma decode_number_itoa (n : Z) (rest : string) :
  ends_number rest = true ->
  json.decode_number (json.itoa n ++ rest) = Some (json.Int n, rest).
Proof.
  intros Hr. unfold json.decode_number.
  rewrite (scan_number_itoa n rest Hr). cbn. unfold json.itoa.
  rewrite NilZero.isi.
  - cbn. rewrite DecimalZ.of_to. reflexivity.
  - destruct n as [|p|p]; cbn; try discriminate.
    intros [= Hp]. apply (DecimalPos.Unsigned.to_uint_nonnil p Hp).
  - destruct n as [|p|p]; cbn; try discriminate.
    intros [= Hp]. apply (DecimalPos.Unsigned.to_uint_nonnil p Hp).
Qed.

Lemma value_ind (P : json.value -> Prop) :
  P json.Null -> (forall b, P (json.Bool b)) -> (forall n, P (json.Int n)) ->
  (forall s, P (json.Str s)) ->
  (forall l, Forall P l -> P (json.Slice l)) ->
  (forall m, Forall (fun e => P e.2) m -> P (json.Map m)) ->
  P json.Chan ->
  forall v, P v.
Proof.
  intros HNull HBool HInt HStr HSlice HMap HChan.
  fix IH 1. intros [|b|n|s|l|m|].
  - exact HNull.
  - apply HBool.
  - apply HInt.
  - apply HStr.
  - apply HSlice. induction l as [|x l IHl]; constructor; [apply IH | exact IHl].
  - apply HMap. induction m as [|[k x] m IHm]; constructor; [apply IH | exact IHm].
  - exact HChan.
Qed.

Ltac norm_app := repeat (rewrite <- append_assoc || rewrite append_cons || rewrite append_nil_l).

Lemma itoa_head (n : Z) :
  exists c t, json.itoa n = String c t /\ (json.isDigit c || Ascii.eqb c "-") = true.
Proof.
  destruct n as [|p|p].
  - exists "0"%char, EmptyString. split; reflexivity.
  - destruct (itoa_pos p) as [-> _].
    destruct (Pos.to_uint p) as [|d|d|d|d|d|d|d|d|d|d] eqn:Hp;
      [destruct (DecimalPos.Unsigned.to_uint_nonnil p Hp)|..];
      cbn [NilEmpty.string_of_uint]; eexists _, _; split; reflexivity.
  - destruct (itoa_pos p) as [_ ->]. eexists _, _. split; reflexivity.
Qed.

Lemma encode_head (v : json.value) :
  json.supported v = true ->
  exists c t, json.encode v = String c t /\ value_start c = true.
Proof.
  destruct v as [|b|n|s|l|m|]; intros Hs; try discriminate Hs.
  - eexists _, _. split; reflexivity.
  - destruct b; eexists _, _; split; reflexivity.
  - destruct (itoa_head n) as (c & t & Hn & Hc). exists c, t. split; [exact Hn|].
    unfold value_start. rewrite Hc. reflexivity.
  - eexists _, _. split; reflexivity.
  - eexists _, _. split; reflexivity.
  - eexists _, _. split; reflexivity.
Qed.

Lemma value_start_skip (c : ascii) (t : string) :
  value_start c = true -> json.skip_ws (String c t) = String c t.
Proof.
  intros Hc. cbn [json.skip_ws].
  destruct c as [[] [] [] [] [] [] [] []]; vm_compute in Hc; try discriminate Hc;
    reflexivity.
Qed.

Lemma value_start_after (c c' : ascii) (t : string) :
  value_start c = true -> c' = "]"%char \/ c' = "}"%char ->
  json.after c' (String c t) = None.
Proof.
  intros Hc [-> | ->];
    destruct c as [[] [] [] [] [] [] [] []]; vm_compute in Hc; try discriminate Hc;
    reflexivity.
Qed.

Lemma scan_value_number (f : nat) (c : ascii) (t : string) :
  (json.isDigit c || Ascii.eqb c "-") = true ->
  json.scan_value (S f) (String c t) = json.scan_number (String c t).
Proof.
  intros Hc.
  destruct c as [[] [] [] [] [] [] [] []]; vm_compute in Hc; try discriminate Hc;
    reflexivity.
Qed.

Lemma decode_value_number (f : nat) (c : ascii) (t : string) :
  (json.isDigit c || Ascii.eqb c "-") = true ->
  json.decode_value (S f) (String c t) = json.decode_number (String c t).
Proof.
  intros Hc.
  destruct c as [[] [] [] [] [] [] [] []]; vm_compute in Hc; try discriminate Hc;
    reflexivity.
Qed.

Lemma join_cons (x y : string) (l : list string) :
  json.join (x :: y :: l) = x ++ "," ++ json.join (y :: l).
Proof. reflexivity. Qed.

Lemma skip_ws_char (c : ascii) (t : string) :
  json.isSpace c = false -> json.skip_ws (String c t) = String c t.
Proof. intros Hc. cbn [json.skip_ws]. rewrite Hc. reflexivity. Qed.

Lemma after_eq (c : ascii) (t : string) : json.after c (String c t) = Some t.
Proof. unfold json.after. rewrite Ascii.eqb_refl. reflexivity. Qed.

Lemma after_ne (c c' : ascii) (t : string) :
  Ascii.eqb c' c = false -> json.after c (String c' t) = None.
Proof. intros Hc. unfold json.after. rewrite Hc. reflexivity. Qed.

Ltac next_char :=
  cbn [mbind option_bind];
  rewrite skip_ws_char by reflexivity;
  first [ rewrite after_eq | rewrite after_ne by reflexivity; try rewrite after_eq ];
  cbn [mbind option_bind].

Lemma scan_elements_join (l : list json.value) :
  l <> [] -> Forall scans l ->
  forall f rest, (list_sum (map (fun x => S (need x)) l) <= f)%nat ->
    json.scan_elements f (json.join (map json.encode l) ++ String "]" rest)
    = Some (json.join (map json.encode l) ++ "]", rest).
Proof.
  intros Hne Hl. induction Hl as [|x l Hx Hl IH]; [contradiction|].
  intros f rest Hf. simpl in Hf.
  destruct f as [|f]; [lia|]. cbn [json.scan_elements].
  destruct l as [|y l].
  - cbn [map json.join].
    rewrite (Hx f (String "]" rest)) by first [reflexivity | lia].
    next_char. reflexivity.
  - cbn [map]. rewrite join_cons.
    change (json.encode y :: map json.encode l) with (map json.encode (y :: l)).
    norm_app.
    rewrite (Hx f) by first [reflexivity | lia].
    next_char.
    rewrite IH by first [discriminate | lia].
    cbn [json.emit mbind option_bind]. norm_app. reflexivity.
Qed.

Lemma member_eq (k : string) (x : json.value) :
  member (k, x) = String dq (json.escape k ++ String dq (String ":" (json.encode x))).
Proof. unfold member, json.appendString. cbn [fst snd]. norm_app. reflexivity. Qed.

Lemma scan_members_join (m : list (string * json.value)) :
  m <> [] -> Forall (fun e => scans e.2) m ->
  forall f rest, (list_sum (map (fun e => S (need e.2)) m) <= f)%nat ->
    json.scan_members f (json.join (map member m) ++ String "}" rest)
    = Some (json.join (map member m) ++ "}", rest).
Proof.
  intros Hne Hm. induction Hm as [|[k x] m Hx Hm IH]; [contradiction|].
  intros f rest Hf. simpl in Hf.
  destruct f as [|f]; [lia|]. cbn [json.scan_members].
  cbn [snd] in Hx.
  destruct m as [|e m].
  - cbn [map json.join]. rewrite !member_eq. norm_app.
    next_char. rewrite (scan_string_escape k).
    next_char. rewrite (Hx f (String "}" rest)) by first [reflexivity | lia].
    next_char. norm_app. reflexivity.
  - cbn [map]. rewrite join_cons.
    change (member e :: map member m) with (map member (e :: m)).
    rewrite !member_eq. norm_app.
    next_char. rewrite (scan_string_escape k).
    next_char. rewrite (Hx f) by first [reflexivity | lia].
    next_char. rewrite IH by first [discriminate | lia].
    cbn [json.emit mbind option_bind]. norm_app. reflexivity.
Qed.

Lemma is_json_supported (v : json.value) :
  json.is_json v = true -> json.supported v = true.
Proof.
  induction v as [|b|n|s|l IH|m IH|] using value_ind; intros Hv;
    try reflexivity; try discriminate Hv.
  - cbn [json.is_json json.supported] in *.
    apply forallb_forall. intros x Hx.
    rewrite Forall_forall in IH. apply IH.
    + apply list_elem_of_In, Hx.
    + rewrite forallb_forall in Hv. apply Hv, Hx.
  - cbn [json.is_json json.supported] in *.
    apply andb_prop in Hv. destruct Hv as [Hv _].
    apply forallb_forall. intros x Hx.
    rewrite Forall_forall in IH. apply IH.
    + apply list_elem_of_In, Hx.
    + rewrite forallb_forall in Hv. specialize (Hv x Hx).
      apply andb_prop in Hv. apply Hv.
Qed.

Lemma encode_Slice_cons (x : json.value) (l : list json.value) (rest : string) :
  json.encode (json.Slice (x :: l)) ++ rest
  = String "[" (json.join (map json.encode (x :: l)) ++ String "]" rest).
Proof. cbn [json.encode]. norm_app. reflexivity. Qed.

Lemma encode_Map_cons (e : string * json.value) (m : list (string * json.value))
      (rest : string) :
  json.encode (json.Map (e :: m)) ++ rest
  = String "{" (json.join (map member (e :: m)) ++ String "}" rest).
Proof. cbn [json.encode]. norm_app. reflexivity. Qed.

Lemma join_head (x : json.value) (l : list json.value) (t : string) :
  json.supported x = true ->
  exists c u, json.join (map json.encode (x :: l)) ++ t = String c u
              /\ value_start c = true.
Proof.
  intros Hx. destruct (encode_head x Hx) as (c & u & He & Hc).
  destruct l as [|y l].
  - cbn [map json.join]. rewrite He. eexists _, _. split; [reflexivity | exact Hc].
  - cbn [map]. rewrite join_cons, He. eexists _, _. split; [reflexivity | exact Hc].
Qed.

(** The scanner accepts what [Marshal] produces and copies it. *)
Lemma scan_value_encode (v : json.value) : json.supported v = true -> scans v.
Proof.
  induction v as [|b|n|s|l IH|m IH|] using value_ind; intros Hv f rest Hf Hr;
    try discriminate Hv; (destruct f as [|f]; [simpl in Hf; lia|]).
  - reflexivity.
  - destruct b; reflexivity.
  - cbn [json.encode].
    destruct (itoa_head n) as (c & t & Hn & Hc).
    pose proof (scan_number_itoa n rest Hr) as Hs.
    rewrite Hn in *. rewrite append_cons in *.
    rewrite (scan_value_number f c _ Hc). exact Hs.
  - cbn [json.encode]. unfold json.appendString. norm_app.
    cbn [json.scan_value json.skip_ws]. change (json.isSpace dq) with false. cbv iota.
    change (Ascii.eqb dq "{") with false. change (Ascii.eqb dq "[") with false.
    rewrite Ascii.eqb_refl. cbv iota.
    rewrite (scan_string_escape s rest). reflexivity.
  - destruct l as [|x l]; [reflexivity|].
    rewrite encode_Slice_cons. cbn [json.supported] in Hv.
    assert (Hall : Forall scans (x :: l)).
    { rewrite Forall_forall in IH |- *. intros y Hy. apply IH; [exact Hy|].
      rewrite forallb_forall in Hv. apply Hv, list_elem_of_In, Hy. }
    assert (Hsx : json.supported x = true).
    { cbn [forallb] in Hv. apply andb_prop in Hv. apply Hv. }
    destruct (join_head x l (String "]" rest) Hsx) as (c & u & Hj & Hc).
    cbn [json.scan_value json.skip_ws]. change (json.isSpace "[") with false. cbv iota.
    change (Ascii.eqb "[" "{") with false. rewrite Ascii.eqb_refl. cbv iota.
    rewrite Hj, (value_start_skip c u Hc), (value_start_after c "]" u Hc) by auto.
    rewrite <- Hj.
    rewrite (scan_elements_join (x :: l))
      by first [discriminate | exact Hall | simpl in Hf |- *; lia].
    cbn [json.emit mbind option_bind json.encode]. norm_app. reflexivity.
  - destruct m as [|e m]; [reflexivity|].
    rewrite encode_Map_cons. cbn [json.supported] in Hv.
    assert (Hall : Forall (fun e => scans e.2) (e :: m)).
    { rewrite Forall_forall in IH |- *. intros y Hy. apply IH; [exact Hy|].
      rewrite forallb_forall in Hv. apply Hv, list_elem_of_In, Hy. }
    cbn [json.scan_value json.skip_ws]. change (json.isSpace "{") with false. cbv iota.
    rewrite Ascii.eqb_refl. cbv iota.
    destruct e as [k x]. cbn [map].
    assert (Hj : exists u, json.join (member (k, x) :: map member m) ++ String "}" rest
                           = String dq u).
    { destruct m as [|e' m].
      - cbn [map json.join]. rewrite member_eq. eexists. norm_app. reflexivity.
      - cbn [map]. rewrite join_cons, member_eq. eexists. norm_app. reflexivity. }
    destruct Hj as [u Hj]. rewrite Hj.
    change (json.skip_ws (String dq u)) with (String dq u).
    change (json.after "}" (String dq u)) with (@None string). cbv iota.
    rewrite <- Hj.
    change (member (k, x) :: map member m) with (map member ((k, x) :: m)).
    rewrite (scan_members_join ((k, x) :: m))
      by first [discriminate | exact Hall | simpl in Hf |- *; lia].
    cbn [json.emit mbind option_bind json.encode]. norm_app. reflexivity.
Qed.

Lemma decode_elements_join (l : list json.value) :
  l <> [] -> Forall decodes l ->
  forall f rest, (list_sum (map (fun x => S (need x)) l) <= f)%nat ->
    json.decode_elements f (json.join (map json.encode l) ++ String "]" rest)
    = Some (l, rest).
Proof.
  intros Hne Hl. induction Hl as [|x l Hx Hl IH]; [contradiction|].
  intros f rest Hf. simpl in Hf.
  destruct f as [|f]; [lia|]. cbn [json.decode_elements].
  destruct l as [|y l].
  - cbn [map json.join].
    rewrite (Hx f (String "]" rest)) by first [reflexivity | lia].
    next_char. reflexivity.
  - cbn [map]. rewrite join_cons.
    change (json.encode y :: map json.encode l) with (map json.encode (y :: l)).
    norm_app.
    rewrite (Hx f) by first [reflexivity | lia].
    next_char.
    rewrite IH by first [discriminate | lia].
    reflexivity.
Qed.

Lemma decode_members_join (m : list (string * json.value)) :
  m <> [] -> Forall (fun e => utf8.ValidString e.1 = true /\ decodes e.2) m ->
  forall f rest, (list_sum (map (fun e => S (need e.2)) m) <= f)%nat ->
    json.decode_members f (json.join (map member m) ++ String "}" rest)
    = Some (m, rest).
Proof.
  intros Hne Hm. induction Hm as [|[k x] m [Hk Hx] Hm IH]; [contradiction|].
  intros f rest Hf. simpl in Hf.
  destruct f as [|f]; [lia|]. cbn [json.decode_members].
  cbn [fst snd] in Hk, Hx.
  destruct m as [|e m].
  - cbn [map json.join]. rewrite !member_eq. norm_app.
    next_char. rewrite (unquote_escape k _ Hk).
    next_char. rewrite (Hx f (String "}" rest)) by first [reflexivity | lia].
    next_char. reflexivity.
  - cbn [map]. rewrite join_cons.
    change (member e :: map member m) with (map member (e :: m)).
    rewrite !member_eq. norm_app.
    next_char. rewrite (unquote_escape k _ Hk).
    next_char. rewrite (Hx f) by first [reflexivity | lia].
    next_char. rewrite IH by first [discriminate | lia].
    reflexivity.
Qed.

Lemma insert_last (k : string) (v : json.value) (m : list (string * json.value)) :
  Forall (fun e => String.ltb e.1 k = true) m ->
  json.insert k v m = (m ++ [(k, v)])%list.
Proof.
  induction 1 as [|[k' v'] m Hk Hm IH]; [reflexivity|].
  cbn [json.insert app]. cbn [fst] in Hk. unfold String.ltb in Hk.
  rewrite String.compare_antisym.
  destruct (String.compare k' k); try discriminate Hk.
  cbn [CompOpp]. rewrite IH. reflexivity.
Qed.

Lemma from_entries_app (acc es : list (string * json.value)) :
  Forall (fun a => Forall (fun e => String.ltb a.1 e.1 = true) es) acc ->
  json.increasing (map fst es) = true ->
  fold_left (fun m e => json.insert e.1 e.2 m) es acc = (acc ++ es)%list.
Proof.
  revert acc. induction es as [|[k v] es IH]; intros acc Hacc Hes.
  - rewrite List.app_nil_r. reflexivity.
  - cbn [fold_left fst snd map json.increasing] in *.
    apply andb_prop in Hes. destruct Hes as [Hk Hes].
    rewrite insert_last.
    + rewrite IH; [rewrite <- List.app_assoc; reflexivity | | exact Hes].
      apply Forall_app. split.
      * eapply Forall_impl; [exact Hacc|]. intros a Ha. inversion Ha; assumption.
      * constructor; [|constructor].
        rewrite forallb_forall in Hk. apply Forall_forall. intros e He.
        apply Hk. apply in_map. apply list_elem_of_In, He.
    + eapply Forall_impl; [exact Hacc|]. intros a Ha. inversion Ha; assumption.
Qed.

Lemma from_entries_increasing (m : list (string * json.value)) :
  json.increasing (map fst m) = true -> json.from_entries m = m.
Proof.
  intros Hm. unfold json.from_entries.
  rewrite from_entries_app; [reflexivity | constructor | exact Hm].
Qed.

(** Decoding what [Marshal] produces gives the value back. *)
Lemma decode_value_encode (v : json.value) : json.is_json v = true -> decodes v.
Proof.
  induction v as [|b|n|s|l IH|m IH|] using value_ind; intros Hv f rest Hf Hr;
    try discriminate Hv; (destruct f as [|f]; [simpl in Hf; lia|]).
  - reflexivity.
  - destruct b; reflexivity.
  - cbn [json.encode].
    destruct (itoa_head n) as (c & t & Hn & Hc).
    pose proof (decode_number_itoa n rest Hr) as Hs.
    rewrite Hn in *. rewrite append_cons in *.
    rewrite (decode_value_number f c _ Hc). exact Hs.
  - cbn [json.encode json.is_json] in *. unfold json.appendString. norm_app.
    cbn [json.decode_value json.skip_ws]. change (json.isSpace dq) with false. cbv iota.
    change (Ascii.eqb dq "{") with false. change (Ascii.eqb dq "[") with false.
    rewrite Ascii.eqb_refl. cbv iota.
    rewrite (unquote_escape s rest Hv). reflexivity.
  - destruct l as [|x l]; [reflexivity|].
    rewrite encode_Slice_cons. cbn [json.is_json] in Hv.
    assert (Hall : Forall decodes (x :: l)).
    { rewrite Forall_forall in IH |- *. intros y Hy. apply IH; [exact Hy|].
      rewrite forallb_forall in Hv. apply Hv, list_elem_of_In, Hy. }
    assert (Hsx : json.supported x = true).
    { apply is_json_supported. cbn [forallb] in Hv. apply andb_prop in Hv. apply Hv. }
    destruct (join_head x l (String "]" rest) Hsx) as (c & u & Hj & Hc).
    cbn [json.decode_value json.skip_ws]. change (json.isSpace "[") with false. cbv iota.
    change (Ascii.eqb "[" "{") with false. rewrite Ascii.eqb_refl. cbv iota.
    rewrite Hj, (value_start_skip c u Hc), (value_start_after c "]" u Hc) by auto.
    rewrite <- Hj.
    rewrite (decode_elements_join (x :: l)) by first [discriminate | exact Hall | simpl in Hf |- *; lia].
    reflexivity.
  - destruct m as [|e m]; [reflexivity|].
    rewrite encode_Map_cons. cbn [json.is_json] in Hv.
    apply andb_prop in Hv. destruct Hv as [Hv Hinc].
    assert (Hall : Forall (fun e => utf8.ValidString e.1 = true /\ decodes e.2) (e :: m)).
    { rewrite Forall_forall in IH |- *. intros y Hy.
      rewrite forallb_forall in Hv. specialize (Hv y (proj1 (list_elem_of_In _ _) Hy)).
      apply andb_prop in Hv. destruct Hv as [Hk Hy'].
      split; [exact Hk | apply IH; assumption]. }
    cbn [json.decode_value json.skip_ws]. change (json.isSpace "{") with false. cbv iota.
    rewrite Ascii.eqb_refl. cbv iota.
    destruct e as [k x]. cbn [map].
    assert (Hj : exists u, json.join (member (k, x) :: map member m) ++ String "}" rest
                           = String dq u).
    { destruct m as [|e' m].
      - cbn [map json.join]. rewrite member_eq. eexists. norm_app. reflexivity.
      - cbn [map]. rewrite join_cons, member_eq. eexists. norm_app. reflexivity. }
    destruct Hj as [u Hj]. rewrite Hj.
    change (json.skip_ws (String dq u)) with (String dq u).
    change (json.after "}" (String dq u)) with (@None string). cbv iota.
    rewrite <- Hj.
    change (member (k, x) :: map member m) with (map member ((k, x) :: m)).
    rewrite (decode_members_join ((k, x) :: m)) by first [discriminate | exact Hall | simpl in Hf |- *; lia].
    cbn [mbind option_bind].
    rewrite (from_entries_increasing _ Hinc). reflexivity.
Qed.

Lemma join_length (f : json.value -> string) (l : list json.value) :
  Forall (fun x => (need x <= String.length (f x))%nat) l ->
  (list_sum (map (fun x => S (need x)) l)
   <= S (String.length (json.join (map f l))))%nat.
Proof.
  induction 1 as [|x l Hx Hl IH]; [simpl; lia|].
  destruct l as [|y l].
  - simpl. lia.
  - change (list_sum (map (fun x0 => S (need x0)) (x :: y :: l)))
      with (S (need x) + list_sum (map (fun x0 => S (need x0)) (y :: l)))%nat.
    change (map f (x :: y :: l)) with (f x :: f y :: map f l).
    rewrite join_cons. rewrite !append_length.
    change (f y :: map f l) with (map f (y :: l)).
    change (String.length ",") with 1%nat.
    lia.
Qed.

Lemma member_length (m : list (string * json.value)) :
  Forall (fun e => (need e.2 <= String.length (json.encode e.2))%nat) m ->
  (list_sum (map (fun e => S (need e.2)) m)
   <= S (String.length (json.join (map member m))))%nat.
Proof.
  induction 1 as [|[k x] m Hx Hm IH]; [simpl; lia|].
  cbn [snd] in Hx.
  assert (Hk : (need x <= String.length (member (k, x)))%nat).
  { rewrite member_eq. cbn [String.length]. rewrite !append_length.
    cbn [String.length]. lia. }
  destruct m as [|e m].
  - simpl in Hk |- *. lia.
  - change (list_sum (map (fun e0 => S (need e0.2)) ((k, x) :: e :: m)))
      with (S (need x) + list_sum (map (fun e0 => S (need e0.2)) (e :: m)))%nat.
    change (map member ((k, x) :: e :: m))
      with (member (k, x) :: member e :: map member m).
    rewrite join_cons. rewrite !append_length.
    change (member e :: map member m) with (map member (e :: m)).
    change (String.length ",") with 1%nat.
    lia.
Qed.

Lemma need_length (v : json.value) :
  json.supported v = true -> (need v <= String.length (json.encode v))%nat.
Proof.
  induction v as [|b|n|s|l IH|m IH|] using value_ind; intros Hv;
    try discriminate Hv.
  - simpl. lia.
  - destruct b; simpl; lia.
  - cbn [need json.encode]. destruct (itoa_head n) as (c & t & -> & _). simpl. lia.
  - simpl. lia.
  - cbn [need json.encode json.supported] in *. rewrite !append_length.
    cbn [String.length].
    assert (Hall : Forall (fun x => (need x <= String.length (json.encode x))%nat) l).
    { rewrite Forall_forall in IH |- *. intros y Hy. apply IH; [exact Hy|].
      rewrite forallb_forall in Hv. apply Hv, list_elem_of_In, Hy. }
    pose proof (join_length json.encode l Hall). lia.
  - cbn [need json.encode json.supported] in *. rewrite !append_length.
    cbn [String.length].
    assert (Hall : Forall (fun e => (need e.2 <= String.length (json.encode e.2))%nat) m).
    { rewrite Forall_forall in IH |- *. intros y Hy. apply IH; [exact Hy|].
      rewrite forallb_forall in Hv. apply Hv, list_elem_of_In, Hy. }
    pose proof (member_length m Hall). unfold member in *. lia.
Qed.

Lemma decode_object (m : list (string * json.value)) (f : nat) (rest : string) :
  m <> [] ->
  Forall (fun e => utf8.ValidString e.1 = true /\ decodes e.2) m ->
  (need (json.Map m) <= f)%nat ->
  json.decode_value f (json.encode (json.Map m) ++ rest)
  = Some (json.Map (json.from_entries m), rest).
Proof.
  intros Hne Hall Hf. destruct f as [|f]; [simpl in Hf; lia|].
  destruct m as [|[k x] m]; [contradiction|].
  rewrite encode_Map_cons.
  cbn [json.decode_value json.skip_ws]. change (json.isSpace "{") with false. cbv iota.
  rewrite Ascii.eqb_refl. cbv iota. cbn [map].
  assert (Hj : exists u, json.join (member (k, x) :: map member m) ++ String "}" rest
                         = String dq u).
  { destruct m as [|e' m].
    - cbn [map json.join]. rewrite member_eq. eexists. norm_app. reflexivity.
    - cbn [map]. rewrite join_cons, member_eq. eexists. norm_app. reflexivity. }
  destruct Hj as [u Hj]. rewrite Hj.
  change (json.skip_ws (String dq u)) with (String dq u).
  change (json.after "}" (String dq u)) with (@None string). cbv iota.
  rewrite <- Hj.
  change (member (k, x) :: map member m) with (map member ((k, x) :: m)).
  rewrite (decode_members_join ((k, x) :: m))
    by first [discriminate | exact Hall | simpl in Hf |- *; lia].
  reflexivity.
Qed.

Lemma compact_encode (v : json.value) :
  json.supported v = true -> json.compact (json.encode v) = Some (json.encode v).
Proof.
  intros Hv. unfold json.compact.
  pose proof (scan_value_encode v Hv (S (String.length (json.encode v))) "") as Hs.
  rewrite append_nil_r in Hs. rewrite Hs; [reflexivity | | reflexivity].
  pose proof (need_length v Hv). lia.
Qed.

(** *** The fuel of the scanner *)

Lemma skip_ws_length (s : string) :
  (String.length (json.skip_ws s) <= String.length s)%nat.
Proof.
  induction s as [|c s IH]; [reflexivity|]. cbn [json.skip_ws].
  destruct (json.isSpace c); simpl; lia.
Qed.

Lemma after_inv (c : ascii) (s r : string) :
  json.after c s = Some r -> s = String c r.
Proof.
  destruct s as [|c' s]; [discriminate|]. unfold json.after.
  destruct (Ascii.eqb c' c) eqn:Hc; [|discriminate].
  apply Ascii.eqb_eq in Hc. intros [= ->]. subst. reflexivity.
Qed.

Lemma emit_inv (o o' r : string) (k : option (string * string)) :
  json.emit o k = Some (o', r) -> exists o'', k = Some (o'', r) /\ o' = o ++ o''.
Proof.
  destruct k as [[o'' r']|]; [|discriminate]. intros [= <- <-]. eauto.
Qed.

Lemma scan_string_length (s o r : string) :
  json.scan_string s = Some (o, r) -> (String.length r < String.length s)%nat.
Proof.
  assert (Hn : exists n, (String.length s <= n)%nat) by (exists (String.length s); lia).
  destruct Hn as [n Hn]. revert s o r Hn.
  induction n as [|n IH]; intros s o r Hn H.
  - destruct s; [discriminate | simpl in Hn; lia].
  - destruct s as [|c r0]; [discriminate|]. cbn [json.scan_string] in H. simpl in Hn.
    destruct (Ascii.eqb c dq); [injection H as <- <-; simpl; lia|].
    destruct (Ascii.eqb c "\").
    { destruct r0 as [|e r1]; [discriminate|]. simpl in Hn.
      destruct (json.isEscape e).
      - apply emit_inv in H. destruct H as (o' & H & _).
        apply IH in H; [simpl; lia | lia].
      - destruct (Ascii.eqb e "u"); [|discriminate].
        destruct r1 as [|h1 [|h2 [|h3 [|h4 r2]]]]; try discriminate.
        destruct (json.isHex h1 && json.isHex h2 && json.isHex h3 && json.isHex h4);
          [|discriminate].
        apply emit_inv in H. destruct H as (o' & H & _).
        simpl in Hn. apply IH in H; [simpl; lia | lia]. }
    destruct (ord c <? 32)%N; [discriminate|].
    destruct (json.isHtml c).
    { apply emit_inv in H. destruct H as (o' & H & _).
      apply IH in H; [simpl; lia | lia]. }
    destruct r0 as [|b [|d r2]];
      try (apply emit_inv in H; destruct H as (o' & H & _);
           apply IH in H; [simpl in *; lia | simpl in *; lia]).
    destruct (utf8.is_ls_ps c b d);
      apply emit_inv in H; destruct H as (o' & H & _);
      apply IH in H; simpl in *; lia.
Qed.

Lemma digits_length (s d r : string) :
  json.digits s = (d, r) -> (String.length r <= String.length s)%nat.
Proof.
  revert d r. induction s as [|c s IH]; intros d r H.
  - injection H as <- <-. reflexivity.
  - cbn [json.digits] in H. destruct (json.isDigit c).
    + destruct (json.digits s) as [d' r'] eqn:Hd. injection H as <- <-.
      specialize (IH _ _ eq_refl). simpl. lia.
    + injection H as <- <-. reflexivity.
Qed.

Lemma digits1_length (s d r : string) :
  json.digits1 s = Some (d, r) -> (String.length r <= String.length s)%nat.
Proof.
  unfold json.digits1. destruct (json.digits s) as [d' r'] eqn:Hd.
  destruct d'; [discriminate|]. intros [= <- <-]. apply (digits_length _ _ _ Hd).
Qed.

Lemma scan_int_length (s i r : string) :
  json.scan_int s = Some (i, r) -> (String.length r < String.length s)%nat.
Proof.
  unfold json.scan_int. destruct s as [|c s]; [discriminate|].
  destruct (Ascii.eqb c "0"); [intros [= <- <-]; simpl; lia|].
  destruct (json.isDigit c); [|discriminate].
  destruct (json.digits s) as [d r'] eqn:Hd. intros [= <- <-].
  pose proof (digits_length _ _ _ Hd). simpl. lia.
Qed.

Lemma scan_frac_length (s f r : string) :
  json.scan_frac s = Some (f, r) -> (String.length r <= String.length s)%nat.
Proof.
  unfold json.scan_frac. destruct (json.after "." s) as [s1|] eqn:Hd.
  - apply after_inv in Hd. subst s. intros H.
    apply emit_inv in H. destruct H as (o & H & _).
    apply digits1_length in H. simpl. lia.
  - intros [= <- <-]. reflexivity.
Qed.

Lemma scan_exp_length (s e r : string) :
  json.scan_exp s = Some (e, r) -> (String.length r <= String.length s)%nat.
Proof.
  unfold json.scan_exp. destruct s as [|c s]; [intros [= <- <-]; reflexivity|].
  destruct (Ascii.eqb c "e" || Ascii.eqb c "E"); [|intros [= <- <-]; reflexivity].
  destruct s as [|g s1]; [discriminate|].
  destruct (Ascii.eqb g "+" || Ascii.eqb g "-"); intros H;
    apply emit_inv in H; destruct H as (o & H & _);
    apply digits1_length in H; simpl in *; lia.
Qed.

Lemma scan_number_length (s o r : string) :
  json.scan_number s = Some (o, r) -> (String.length r < String.length s)%nat.
Proof.
  unfold json.scan_number.
  assert (Hgen : forall sign s1, (String.length s1 <= String.length s)%nat ->
            ('(i, s2) ← json.scan_int s1;
             '(f, s3) ← json.scan_frac s2;
             '(e, s4) ← json.scan_exp s3;
             Some (sign ++ i ++ f ++ e, s4)) = Some (o, r) ->
            (String.length r < String.length s)%nat).
  { intros sign s1 Hs1.
    destruct (json.scan_int s1) as [[i s2]|] eqn:Hi; [|discriminate].
    cbn [mbind option_bind].
    destruct (json.scan_frac s2) as [[f s3]|] eqn:Hf; [|discriminate].
    cbn [mbind option_bind].
    destruct (json.scan_exp s3) as [[e s4]|] eqn:He; [|discriminate].
    cbn [mbind option_bind]. intros [= <- <-].
    apply scan_int_length in Hi. apply scan_frac_length in Hf.
    apply scan_exp_length in He. lia. }
  destruct (json.after "-" s) as [s1|] eqn:Hsign.
  - apply after_inv in Hsign. apply Hgen. subst s. simpl. lia.
  - apply Hgen. lia.
Qed.

Lemma scan_lit_length (w s o r : string) :
  json.scan_lit w s = Some (o, r) ->
  String.length s = (String.length w + String.length r)%nat.
Proof.
  revert s o r. induction w as [|c w IH]; intros s o r H.
  - injection H as <- <-. reflexivity.
  - cbn [json.scan_lit] in H. destruct s as [|c' s]; [discriminate|].
    destruct (Ascii.eqb c c'); [|discriminate].
    apply emit_inv in H. destruct H as (o' & H & _).
    apply IH in H. simpl. lia.
Qed.

(** The result of the scanner does not depend on the fuel, once there
    is as much of it as there are characters consumed. *)
Lemma scan_fuel (f : nat) :
  (forall s o r, json.scan_value f s = Some (o, r) ->
     (String.length r < String.length s)%nat
     /\ forall f', (String.length s - String.length r <= f')%nat ->
                   json.scan_value f' s = Some (o, r))
  /\ (forall s o r, json.scan_elements f s = Some (o, r) ->
        (String.length r < String.length s)%nat
        /\ forall f', (String.length s - String.length r <= f')%nat ->
                      json.scan_elements f' s = Some (o, r))
  /\ (forall s o r, json.scan_members f s = Some (o, r) ->
        (String.length r < String.length s)%nat
        /\ forall f', (String.length s - String.length r <= f')%nat ->
                      json.scan_members f' s = Some (o, r)).
Proof.
  induction f as [|f (IHv & IHe & IHm)]; [repeat split; discriminate|].
  split; [|split]; intros s o r H.
  - cbn [json.scan_value] in H.
    pose proof (skip_ws_length s) as Hws.
    destruct (json.skip_ws s) as [|c r0] eqn:Hs; [discriminate|]. simpl in Hws.
    destruct (Ascii.eqb c "{") eqn:E1.
    { pose proof (skip_ws_length r0) as Hws0.
      destruct (json.after "}" (json.skip_ws r0)) as [r1|] eqn:Ha.
      - injection H as <- <-. apply after_inv in Ha. rewrite Ha in Hws0. simpl in Hws0.
        split; [lia|]. intros f' Hf'. destruct f' as [|f']; [lia|].
        cbn [json.scan_value]. rewrite Hs, E1, Ha, after_eq. reflexivity.
      - apply emit_inv in H. destruct H as (o' & H & ->).
        destruct (IHm _ _ _ H) as [Hlen Hmono].
        split; [lia|]. intros f' Hf'. destruct f' as [|f']; [lia|].
        cbn [json.scan_value]. rewrite Hs, E1, Ha, Hmono by lia. reflexivity. }
    destruct (Ascii.eqb c "[") eqn:E2.
    { pose proof (skip_ws_length r0) as Hws0.
      destruct (json.after "]" (json.skip_ws r0)) as [r1|] eqn:Ha.
      - injection H as <- <-. apply after_inv in Ha. rewrite Ha in Hws0. simpl in Hws0.
        split; [lia|]. intros f' Hf'. destruct f' as [|f']; [lia|].
        cbn [json.scan_value]. rewrite Hs, E1, E2, Ha, after_eq. reflexivity.
      - apply emit_inv in H. destruct H as (o' & H & ->).
        destruct (IHe _ _ _ H) as [Hlen Hmono].
        split; [lia|]. intros f' Hf'. destruct f' as [|f']; [lia|].
        cbn [json.scan_value]. rewrite Hs, E1, E2, Ha, Hmono by lia. reflexivity. }
    assert (Hlen : (String.length r < String.length (String c r0))%nat).
    { destruct (Ascii.eqb c dq).
      - apply emit_inv in H. destruct H as (o' & H & _).
        apply scan_string_length in H. simpl. lia.
      - destruct (Ascii.eqb c "t"); [apply scan_lit_length in H; simpl in *; lia|].
        destruct (Ascii.eqb c "f"); [apply scan_lit_length in H; simpl in *; lia|].
        destruct (Ascii.eqb c "n"); [apply scan_lit_length in H; simpl in *; lia|].
        apply scan_number_length in H. exact H. }
    simpl in Hlen. split; [lia|].
    intros f' Hf'. destruct f' as [|f']; [lia|].
    cbn [json.scan_value]. rewrite Hs, E1, E2. exact H.
  - cbn [json.scan_elements] in H.
    destruct (json.scan_value f s) as [[o1 r1]|] eqn:Hv; [|discriminate].
    cbn [mbind option_bind] in H.
    destruct (IHv _ _ _ Hv) as [Hlen1 Hmono1].
    pose proof (skip_ws_length r1) as Hws.
    destruct (json.after "," (json.skip_ws r1)) as [r2|] eqn:Hc.
    + apply after_inv in Hc. rewrite Hc in Hws. simpl in Hws.
      apply emit_inv in H. destruct H as (o2 & H & ->).
      destruct (IHe _ _ _ H) as [Hlen2 Hmono2].
      split; [lia|]. intros f' Hf'. destruct f' as [|f']; [lia|].
      cbn [json.scan_elements]. rewrite Hmono1 by lia. cbn [mbind option_bind].
      rewrite Hc, after_eq, Hmono2 by lia. reflexivity.
    + destruct (json.after "]" (json.skip_ws r1)) as [r2|] eqn:Hb; [|discriminate].
      cbn [mbind option_bind] in H. injection H as <- <-.
      pose proof (after_inv _ _ _ Hb) as Hb'. rewrite Hb' in Hws. simpl in Hws.
      split; [lia|]. intros f' Hf'. destruct f' as [|f']; [lia|].
      cbn [json.scan_elements]. rewrite Hmono1 by lia. cbn [mbind option_bind].
      rewrite Hc, Hb. reflexivity.
  - cbn [json.scan_members] in H.
    pose proof (skip_ws_length s) as Hws.
    destruct (json.after dq (json.skip_ws s)) as [r0|] eqn:Hq; [|discriminate].
    cbn [mbind option_bind] in H.
    pose proof (after_inv _ _ _ Hq) as Hq'. rewrite Hq' in Hws. simpl in Hws.
    destruct (json.scan_string r0) as [[k r1]|] eqn:Hk; [|discriminate].
    cbn [mbind option_bind] in H.
    pose proof (scan_string_length _ _ _ Hk) as Hlenk.
    pose proof (skip_ws_length r1) as Hws1.
    destruct (json.after ":" (json.skip_ws r1)) as [r2|] eqn:Hcolon; [|discriminate].
    cbn [mbind option_bind] in H.
    pose proof (after_inv _ _ _ Hcolon) as Hcolon'. rewrite Hcolon' in Hws1.
    simpl in Hws1.
    destruct (json.scan_value f r2) as [[o1 r3]|] eqn:Hv; [|discriminate].
    cbn [mbind option_bind] in H.
    destruct (IHv _ _ _ Hv) as [Hlen1 Hmono1].
    pose proof (skip_ws_length r3) as Hws3.
    destruct (json.after "," (json.skip_ws r3)) as [r4|] eqn:Hc.
    + pose proof (after_inv _ _ _ Hc) as Hc'. rewrite Hc' in Hws3. simpl in Hws3.
      apply emit_inv in H. destruct H as (o2 & H & ->).
      destruct (IHm _ _ _ H) as [Hlen2 Hmono2].
      split; [lia|]. intros f' Hf'. destruct f' as [|f']; [lia|].
      cbn [json.scan_members]. rewrite Hq. cbn [mbind option_bind].
      rewrite Hk. cbn [mbind option_bind]. rewrite Hcolon. cbn [mbind option_bind].
      rewrite Hmono1 by lia. cbn [mbind option_bind].
      rewrite Hc, Hmono2 by lia. reflexivity.
    + destruct (json.after "}" (json.skip_ws r3)) as [r4|] eqn:Hb; [|discriminate].
      cbn [mbind option_bind] in H. injection H as <- <-.
      pose proof (after_inv _ _ _ Hb) as Hb'. rewrite Hb' in Hws3. simpl in Hws3.
      split; [lia|]. intros f' Hf'. destruct f' as [|f']; [lia|].
      cbn [json.scan_members]. rewrite Hq. cbn [mbind option_bind].
      rewrite Hk. cbn [mbind option_bind]. rewrite Hcolon. cbn [mbind option_bind].
      rewrite Hmono1 by lia. cbn [mbind option_bind].
      rewrite Hc, Hb. reflexivity.
Qed.

(** [compact] does not run out of fuel: whatever the scanner accepts
    with some fuel, [compact] accepts. *)
Lemma compact_complete (f : nat) (src o r : string) :
  json.scan_value f src = Some (o, r) -> json.skip_ws r = "" ->
  json.compact src = Some o.
Proof.
  intros H Hr. destruct (scan_fuel f) as (Hv & _ & _).
  destruct (Hv _ _ _ H) as [_ Hmono].
  unfold json.compact. rewrite Hmono by lia. cbn [mbind option_bind].
  rewrite Hr. reflexivity.
Qed.

Lemma Valid_spec (src : string) :
  json.Valid src = true
  <-> exists f o r, json.scan_value f src = Some (o, r) /\ json.skip_ws r = "".
Proof.
  unfold json.Valid. split.
  - unfold json.compact.
    destruct (json.scan_value (S (String.length src)) src) as [[o r]|] eqn:Hs;
      [|discriminate].
    cbn [mbind option_bind]. destruct (json.skip_ws r) eqn:Hr; [|discriminate].
    intros _. eauto.
  - intros (f & o & r & Hs & Hr). rewrite (compact_complete f src o r Hs Hr).
    reflexivity.
Qed.

(** ** The package

    *** Status classification *)

Lemma getStatus_error (c : Z) : c >= 500 -> getStatus c = StatusError.
Proof. intros Hc. unfold getStatus. case_decide; [reflexivity | lia]. Qed.

Lemma getStatus_fail (c : Z) : 400 <= c < 500 -> getStatus c = StatusFail.
Proof. intros Hc. unfold getStatus. repeat case_decide; (reflexivity || lia). Qed.

Lemma getStatus_success (c : Z) : c < 400 -> getStatus c = StatusSuccess.
Proof. intros Hc. unfold getStatus. repeat case_decide; (reflexivity || lia). Qed.

Lemma getStatus_error_inv (c : Z) : getStatus c = StatusError -> c >= 500.
Proof.
  unfold getStatus. repeat case_decide; (discriminate || (intros; lia)).
Qed.

(** C1.  The classification that [Write] applies to the recorded code:
    [error] exactly from 500 up, [fail] exactly on 400..499, [success]
    exactly below 400, which includes the default code 0, negative
    codes and 1xx, 2xx and 3xx. *)
Theorem getStatus_spec (c : Z) :
  (getStatus c = StatusError <-> c >= 500)
  /\ (getStatus c = StatusFail <-> 400 <= c < 500)
  /\ (getStatus c = StatusSuccess <-> ~ c >= 500 /\ ~ 400 <= c < 500)
  /\ getStatus 0 = StatusSuccess /\ getStatus (-1) = StatusSuccess
  /\ getStatus 100 = StatusSuccess /\ getStatus 200 = StatusSuccess
  /\ getStatus 302 = StatusSuccess.
Proof.
  unfold getStatus, StatusError, StatusFail, StatusSuccess.
  repeat split; try reflexivity; repeat case_decide;
    first [ lia | discriminate | tauto | intros; first [lia | discriminate] ].
Qed.

(** *** Marshalling the envelope *)

Lemma members_message (st msg : string) :
  members {| Status := st; Data := ""; Message := msg |}
  = Some (("status", json.appendString st)
            :: if decide (msg = "") then []
               else [("message", json.appendString msg)]).
Proof. unfold members. simpl. reflexivity. Qed.

Lemma members_data (st d : string) :
  d <> "" ->
  members {| Status := st; Data := d; Message := "" |}
  = o ← json.compact d; Some [("status", json.appendString st); ("data", o)].
Proof.
  intros Hd. unfold members. simpl.
  destruct (decide (d = "")) as [Heq|_]; [contradiction|].
  destruct (json.compact d); reflexivity.
Qed.

Lemma Valid_false (d : string) : json.Valid d = false <-> json.compact d = None.
Proof.
  unfold json.Valid. destruct (json.compact d); split; congruence.
Qed.

Lemma itoa_nonempty (n : Z) : json.itoa n <> "".
Proof.
  unfold json.itoa. destruct (Z.to_int n) as [d|d]; simpl.
  - destruct d; discriminate.
  - discriminate.
Qed.

Lemma encode_nonempty (v : json.value) :
  json.supported v = true -> json.encode v <> "".
Proof.
  destruct v as [|b|n|s|l|m|]; simpl; try discriminate.
  - destruct b; discriminate.
  - intros _. apply itoa_nonempty.
Qed.

Lemma Marshal_jsonResponse_data (st : string) (p : json.value) :
  json.supported p = true ->
  Marshal_jsonResponse {| Status := st; Data := json.encode p; Message := "" |}
  = Some (envelope st p).
Proof.
  intros Hp. unfold Marshal_jsonResponse.
  rewrite members_data by (apply encode_nonempty, Hp).
  rewrite (compact_encode p Hp). reflexivity.
Qed.

Lemma Unmarshal_envelope (st : string) (p : json.value) :
  utf8.ValidString st = true -> json.is_json p = true ->
  json.Unmarshal (envelope st p)
  = Some (json.Map [("data", p); ("status", json.Str st)]).
Proof.
  intros Hst Hp.
  assert (Henv : envelope st p
                 = json.encode (json.Map [("status", json.Str st); ("data", p)])).
  { reflexivity. }
  unfold json.Unmarshal. rewrite Henv.
  rewrite <- (append_nil_r (json.encode _)) at 2.
  rewrite decode_object.
  - reflexivity.
  - discriminate.
  - repeat constructor; try reflexivity; cbn [snd].
    + apply (decode_value_encode (json.Str st)). exact Hst.
    + apply decode_value_encode, Hp.
  - assert (Hs : json.supported (json.Map [("status", json.Str st); ("data", p)]) = true).
    { cbn. rewrite (is_json_supported p Hp). reflexivity. }
    pose proof (need_length _ Hs). lia.
Qed.

(** *** The write-once decorator *)

Section Decorator.

Context {W : Type} `{ResponseWriter W}.

Lemma Write_unwritten (data : string) (r : response W) :
  written r = false ->
  Write data r =
  let st := getStatus (code r) in
  let jr := {| Status := st; Data := ""; Message := "" |} in
  let jr := if decide (st = StatusError) then set_Message data jr
            else set_Data data jr in
  match Marshal_jsonResponse jr with
  | None => ((0, Some ErrInvalidRawJSON),
             {| rw := rw r; code := code r; written := true |})
  | Some env => forwarded env r
  end.
Proof.
  intros Hw. unfold Write, writeJSONResponse, forwarded. rewrite Hw. cbv zeta.
  repeat case_decide;
    match goal with
    | |- context [Marshal_jsonResponse ?j] => destruct (Marshal_jsonResponse j)
    end; try reflexivity;
    match goal with
    | |- context [rw_Write ?e ?w] => destruct (rw_Write e w) as [? ?]
    end; reflexivity.
Qed.

(** C2.  Once the written flag is set, [Write] returns
    [(0, ErrWrittenAlready)] whatever its input and leaves the
    decorator, and with it the underlying sink, as it was; the flag
    stays set across [WriteHeader]. *)
Theorem Write_written_already (r : response W) (data : string) :
  written r = true ->
  Write data r = ((0, Some ErrWrittenAlready), r)
  /\ rw (Write data r).2 = rw r
  /\ (forall c, written (WriteHeader c r) = true).
Proof.
  intros Hw. unfold Write. rewrite Hw. repeat split; try reflexivity.
  intros c. exact Hw.
Qed.

Lemma Write_sets_written (r : response W) (data : string) :
  written (Write data r).2 = true.
Proof.
  unfold Write. destruct (written r) eqn:Hw; [exact Hw|].
  cbv zeta. destruct (writeJSONResponse _ _) as [res w]. reflexivity.
Qed.

Lemma WriteHeader_written (cs : list Z) (r : response W) :
  written (foldr WriteHeader r cs) = written r.
Proof. induction cs as [|c cs IH]; [reflexivity | exact IH]. Qed.

(** C4.  Every call of [Write], accepted or not and whatever the
    marshaller or the sink return, leaves the written flag set; the
    flag stays set whatever status codes are recorded afterwards, and
    every later call of [Write] returns [(0, ErrWrittenAlready)]
    without touching the decorator. *)
Theorem Write_consumes_budget (r : response W) (first later : string)
        (cs : list Z) :
  written (Write first r).2 = true
  /\ Write later (foldr WriteHeader (Write first r).2 cs)
     = ((0, Some ErrWrittenAlready), foldr WriteHeader (Write first r).2 cs).
Proof.
  split; [apply Write_sets_written|].
  unfold Write at 1. rewrite WriteHeader_written, Write_sets_written. reflexivity.
Qed.

(** C3, as amended.  On a decorator that has not been written and
    whose code classifies as [success] or [fail], raw bytes that are
    not empty and not valid JSON make [Write] return
    [(0, ErrInvalidRawJSON)]; the sink is not called. *)
Theorem Write_invalid_raw (r : response W) (data : string) :
  written r = false ->
  getStatus (code r) = StatusSuccess \/ getStatus (code r) = StatusFail ->
  data <> "" ->
  json.Valid data = false ->
  Write data r
  = ((0, Some ErrInvalidRawJSON),
     {| rw := rw r; code := code r; written := true |})
  /\ rw (Write data r).2 = rw r.
Proof.
  intros Hw Hst Hne Hinv. apply Valid_false in Hinv.
  assert (Heq : Write data r
                = ((0, Some ErrInvalidRawJSON),
                   {| rw := rw r; code := code r; written := true |})).
  { rewrite (Write_unwritten data r Hw). cbv zeta.
    destruct (decide (getStatus (code r) = StatusError)) as [He|_].
    - destruct Hst as [Hs|Hs]; rewrite Hs in He; discriminate.
    - unfold Marshal_jsonResponse, set_Data.
      rewrite (members_data _ data Hne), Hinv. reflexivity. }
  split; [exact Heq | rewrite Heq; reflexivity].
Qed.

(** C9.  On a decorator that has not been written and whose code is
    500 or more, [Write] asks nothing of the bytes: they are the
    [Message] of the envelope, whose marshalling cannot fail, and the
    marshalled envelope, in which the message is the bytes as a JSON
    string, is handed to the sink ([omitempty] leaves out a message
    of length zero). *)
Theorem Write_error_message (r : response W) (data : string) :
  written r = false ->
  code r >= 500 ->
  let jr := {| Status := StatusError; Data := ""; Message := data |} in
  let env := object (("status", js "'error'")
                       :: if decide (data = "") then []
                          else [("message", json.appendString data)]) in
  Marshal_jsonResponse jr = Some env
  /\ Write data r = forwarded env r.
Proof.
  intros Hw Hc. cbv zeta.
  assert (Hm : Marshal_jsonResponse
                 {| Status := StatusError; Data := ""; Message := data |}
               = Some (object (("status", js "'error'")
                                 :: if decide (data = "") then []
                                    else [("message", json.appendString data)]))).
  { unfold Marshal_jsonResponse. rewrite members_message. reflexivity. }
  split; [exact Hm|].
  rewrite (Write_unwritten data r Hw). cbv zeta.
  rewrite (getStatus_error _ Hc).
  destruct (decide (StatusError = StatusError)) as [_|Hn]; [|contradiction].
  unfold set_Message. cbn [Status Data]. rewrite Hm. reflexivity.
Qed.

(** C10.  On a decorator that has not been written and whose code is
    below 500, a [Write] of no bytes is not rejected, although the
    empty byte sequence is not valid JSON: [omitempty] drops the
    [data] member before it is checked, and the envelope handed to
    the sink has the status alone. *)
Theorem Write_empty_raw (r : response W) :
  written r = false ->
  code r < 500 ->
  json.Valid "" = false
  /\ Write "" r
     = forwarded (if decide (code r < 400) then js "{'status':'success'}"
                  else js "{'status':'fail'}") r.
Proof.
  intros Hw Hc. split; [reflexivity|].
  rewrite (Write_unwritten "" r Hw). cbv zeta.
  destruct (decide (code r < 400)) as [Hlow|Hhigh].
  - rewrite (getStatus_success _ Hlow). reflexivity.
  - rewrite (getStatus_fail (code r)) by lia. reflexivity.
Qed.

End Decorator.

(** *** The direct encoders and the envelope *)

Section Encoders.

Context {W : Type} `{ResponseWriter W}.

Lemma encode_failure_writes_nothing_aux (w : W) (data : json.value) (c : Z) :
  json.Marshal data = None ->
  Success w (Some data) c = ((0, Some ErrJSONEncode), w)
  /\ Fail w (Some data) c = ((0, Some ErrJSONEncode), w).
Proof.
  intros Hm. unfold Success, Fail, write. rewrite Hm. split; reflexivity.
Qed.

(** C5.  When the payload cannot be marshalled, [Success] and [Fail]
    return [(0, ErrJSONEncode)] and the sink is as it was: no body,
    no status code, no header. *)
Theorem encode_failure_writes_nothing (w : W) (data : json.value) (c : Z) :
  json.Marshal data = None ->
  Success w (Some data) c = ((0, Some ErrJSONEncode), w)
  /\ Fail w (Some data) c = ((0, Some ErrJSONEncode), w).
Proof.
  intros Hm. unfold Success, Fail, write. rewrite Hm. split; reflexivity.
Qed.

Lemma write_marshalled (w : W) (st : string) (c : Z)
      (data : option json.value) (msg bytes : string) :
  payload_bytes data = Some bytes ->
  write w st c data msg
  = writeJSONResponse (rw_WriteHeader c (defaultContentType w))
                      {| Status := st; Data := bytes; Message := msg |}.
Proof.
  unfold payload_bytes, write. intros Hp.
  destruct data as [v|].
  - rewrite Hp. destruct (decide (msg = "")) as [->|_]; reflexivity.
  - injection Hp as <-. destruct (decide (msg = "")) as [->|_]; reflexivity.
Qed.


Lemma defaultContentType_Header `{!HeaderRef W} (w : W) :
  content_type_defaulted (rw_Header w) (rw_Header (defaultContentType w)).
Proof.
  unfold content_type_defaulted, defaultContentType.
  destruct (decide (http.Get (rw_Header w) "Content-Type" = "")) as [He|Hne].
  - rewrite rw_Header_set. unfold http.Set_. repeat split.
    + unfold http.Get. rewrite lookup_insert_eq. reflexivity.
    + intros Hn. contradiction.
    + intros k Hk. rewrite lookup_insert_ne by congruence. reflexivity.
  - repeat split; reflexivity.
Qed.

Lemma writeJSONResponse_Header `{!HeaderStable W} (w : W) (jr : jsonResponse) :
  rw_Header (writeJSONResponse w jr).2 = rw_Header w.
Proof.
  unfold writeJSONResponse. destruct (Marshal_jsonResponse jr).
  - apply rw_Header_Write.
  - reflexivity.
Qed.

(** C6, as amended.  On a sink that keeps the header map it is given
    and whose [WriteHeader] and [Write] leave it alone: [Wrap],
    [Error], and [Success] and [Fail] when the payload marshals, set
    [Content-Type] to [application/json] when [Header.Get] finds no
    value for it, leave the map as it is otherwise, and touch no other
    key; when the payload does not marshal, [Success] and [Fail] leave
    the map as it is. *)
Theorem content_type_default `{!HeaderRef W} `{!HeaderStable W} (w : W) (c : Z) :
  content_type_defaulted (rw_Header w) (Header (Wrap w))
  /\ (forall msg, content_type_defaulted (rw_Header w) (rw_Header (Error w msg c).2))
  /\ (forall data bytes, payload_bytes data = Some bytes ->
        content_type_defaulted (rw_Header w) (rw_Header (Success w data c).2)
        /\ content_type_defaulted (rw_Header w) (rw_Header (Fail w data c).2))
  /\ (forall data, payload_bytes data = None ->
        rw_Header (Success w data c).2 = rw_Header w
        /\ rw_Header (Fail w data c).2 = rw_Header w).
Proof.
  split; [|split; [|split]].
  - apply defaultContentType_Header.
  - intros msg. unfold Error.
    rewrite (write_marshalled w StatusError c None msg "" eq_refl).
    rewrite writeJSONResponse_Header, rw_Header_WriteHeader.
    apply defaultContentType_Header.
  - intros data bytes Hp. unfold Success, Fail.
    rewrite (write_marshalled w StatusSuccess c data "" bytes Hp).
    rewrite (write_marshalled w StatusFail c data "" bytes Hp).
    rewrite !writeJSONResponse_Header, !rw_Header_WriteHeader.
    split; apply defaultContentType_Header.
  - intros data Hp. destruct data as [v|]; [|discriminate].
    simpl in Hp.
    destruct (encode_failure_writes_nothing_aux w v c Hp) as [-> ->].
    split; reflexivity.
Qed.


End Encoders.

(** ** The properties at work on the recording sink *)

Lemma Write_written_already_witness :
  written (Write (js "'hello'") fresh).2 = true
  /\ Write (js "'world'") (Write (js "'hello'") fresh).2
     = ((0, Some ErrWrittenAlready), (Write (js "'hello'") fresh).2).
Proof.
  split; [reflexivity|].
  apply (Write_written_already (Write (js "'hello'") fresh).2 (js "'world'")).
  reflexivity.
Defined.

(** C3, as stated, fails on the empty byte sequence: it is not valid
    JSON, the code of a fresh decorator classifies as [success], and
    [Write] hands a status-only envelope to the sink. *)
Lemma Write_invalid_raw_stated_fails :
  json.Valid "" = false
  /\ written fresh = false
  /\ getStatus (code fresh) = StatusSuccess
  /\ (Write "" fresh).1 = (20, None)
  /\ Body (rw fresh) = ""
  /\ Body (rw (Write "" fresh).2) = js "{'status':'success'}".
Proof. repeat split; reflexivity. Qed.

Lemma Write_invalid_raw_witness :
  Write "some invalid json" (WriteHeader 200 fresh)
  = ((0, Some ErrInvalidRawJSON),
     {| rw := rw (WriteHeader 200 fresh); code := 200; written := true |}).
Proof.
  apply (Write_invalid_raw (WriteHeader 200 fresh) "some invalid json");
    [reflexivity | left; reflexivity | discriminate | reflexivity].
Defined.

Lemma Write_error_message_witness :
  Body (rw (Write "something wrong" (WriteHeader 503 fresh)).2)
  = js "{'status':'error','message':'something wrong'}".
Proof.
  destruct (Write_error_message (WriteHeader 503 fresh) "something wrong")
    as [_ Heq]; [reflexivity | simpl; lia |].
  rewrite Heq. reflexivity.
Defined.

Lemma Write_empty_raw_witness :
  Write "" (WriteHeader 404 fresh)
  = ((17, None),
     {| rw := {| Code := 404;
                 HeaderMap := {[ "Content-Type" := ["application/json"] ]};
                 Body := js "{'status':'fail'}" |};
        code := 404; written := true |}).
Proof.
  destruct (Write_empty_raw (WriteHeader 404 fresh)) as [_ Heq];
    [reflexivity | simpl; lia |].
  rewrite Heq. vm_compute. reflexivity.
Defined.

Lemma encode_failure_writes_nothing_witness :
  Success NewRecorder (Some (json.Map [("foos", json.Chan)])) 200
  = ((0, Some ErrJSONEncode), NewRecorder).
Proof.
  apply (encode_failure_writes_nothing NewRecorder
           (json.Map [("foos", json.Chan)]) 200).
  reflexivity.
Defined.




(** C6, as stated, fails: [Success] with a payload that does not
    marshal leaves a sink without [Content-Type] without one. *)
Lemma content_type_default_stated_fails :
  http.Get (rw_Header NewRecorder) "Content-Type" = ""
  /\ http.Get (rw_Header (Success NewRecorder (Some json.Chan) 200).2)
              "Content-Type" = "".
Proof. split; reflexivity. Qed.

Lemma content_type_default_witness :
  content_type_defaulted (rw_Header NewRecorder) (Header (Wrap NewRecorder))
  /\ content_type_defaulted
       (rw_Header NewRecorder)
       (rw_Header (Success NewRecorder (Some (json.Str "foo")) 200).2).
Proof.
  destruct (content_type_default NewRecorder 200) as (Hwrap & _ & Hdata & _).
  split; [exact Hwrap|].
  apply (Hdata (Some (json.Str "foo")) (js "'foo'") eq_refl).
Defined.



(** * Further properties

    ** The scanner on what it has written *)

(** The first byte of a compacted string literal is the first byte of
    the input or a backslash. *)
Lemma scan_string_head (b : ascii) (s o r : string) :
  json.scan_string (String b s) = Some (o, r) ->
  exists x t, o = String x t /\ (x = b \/ x = "\"%char).
Proof.
  cbn [json.scan_string].
  destruct (Ascii.eqb b dq) eqn:Eq.
  { apply Ascii.eqb_eq in Eq. intros [= <- <-]. eauto. }
  destruct (Ascii.eqb b "\") eqn:Eb.
  { apply Ascii.eqb_eq in Eb. subst b.
    destruct s as [|e r1]; [discriminate|].
    destruct (json.isEscape e).
    - intros H. apply emit_inv in H. destruct H as (o' & _ & ->). eauto.
    - destruct (Ascii.eqb e "u"); [|discriminate].
      destruct r1 as [|h1 [|h2 [|h3 [|h4 r2]]]]; try discriminate.
      destruct (json.isHex h1 && json.isHex h2 && json.isHex h3 && json.isHex h4);
        [|discriminate].
      intros H. apply emit_inv in H. destruct H as (o' & _ & ->). eauto. }
  destruct (ord b <? 32)%N; [discriminate|].
  destruct (json.isHtml b).
  { intros H. apply emit_inv in H. destruct H as (o' & _ & ->).
    unfold json.u00. rewrite append_cons. eauto. }
  destruct s as [|b' [|d r2]];
    try (intros H; apply emit_inv in H; destruct H as (o' & _ & ->); eauto).
  destruct (utf8.is_ls_ps b b' d);
    intros H; apply emit_inv in H; destruct H as (o' & _ & ->); eauto.
Qed.

(** Whether the two bytes after [c] make it the start of U+2028 or
    U+2029. *)
Lemma scan_string_plain (c : ascii) (s : string) :
  Ascii.eqb c dq = false -> Ascii.eqb c "\" = false ->
  (ord c <? 32)%N = false -> json.isHtml c = false ->
  match s with
  | String b (String d _) => utf8.is_ls_ps c b d = false
  | _ => True
  end ->
  json.scan_string (String c s) = json.emit (String c "") (json.scan_string s).
Proof.
  intros Hq Hb Hc Hh Hl. cbn [json.scan_string]. rewrite Hq, Hb, Hc, Hh.
  destruct s as [|b [|d r]]; try reflexivity. rewrite Hl. reflexivity.
Qed.

Lemma scan_string_out (n : nat) :
  forall s o r rest, (String.length s <= n)%nat ->
    json.scan_string s = Some (o, r) ->
    json.scan_string (o ++ rest) = Some (o, rest).
Proof.
  induction n as [|n IH]; intros s o r rest Hn H.
  { destruct s; [discriminate | simpl in Hn; lia]. }
  destruct s as [|c r0]; [discriminate|]. simpl in Hn.
  cbn [json.scan_string] in H.
  destruct (Ascii.eqb c dq) eqn:Eq.
  { injection H as <- <-. reflexivity. }
  destruct (Ascii.eqb c "\") eqn:Eb.
  { apply Ascii.eqb_eq in Eb. subst c.
    destruct r0 as [|e r1]; [discriminate|]. simpl in Hn.
    destruct (json.isEscape e) eqn:Ee.
    - apply emit_inv in H. destruct H as (o' & H & ->).
      apply (IH _ _ _ rest) in H; [|lia].
      rewrite !append_cons, append_nil_l. cbn [json.scan_string].
      change (Ascii.eqb "\" dq) with false. cbv iota.
      rewrite Ascii.eqb_refl, Ee, H. reflexivity.
    - destruct (Ascii.eqb e "u") eqn:Eu; [|discriminate].
      destruct r1 as [|h1 [|h2 [|h3 [|h4 r2]]]]; try discriminate.
      destruct (json.isHex h1 && json.isHex h2 && json.isHex h3 && json.isHex h4)
        eqn:Eh; [|discriminate].
      apply emit_inv in H. destruct H as (o' & H & ->). simpl in Hn.
      apply (IH _ _ _ rest) in H; [|lia].
      rewrite !append_cons, append_nil_l. cbn [json.scan_string].
      change (Ascii.eqb "\" dq) with false. cbv iota.
      rewrite Ascii.eqb_refl, Ee, Eu, Eh, H. reflexivity. }
  destruct (ord c <? 32)%N eqn:Ec; [discriminate|].
  destruct (json.isHtml c) eqn:Eh.
  { apply emit_inv in H. destruct H as (o' & H & ->).
    apply (IH _ _ _ rest) in H; [|lia].
    unfold json.isHtml in Eh. bool_facts;
      match goal with
      | |- context [json.u00 ?x] =>
        let u := eval vm_compute in (json.u00 x) in change (json.u00 x) with u
      end;
      rewrite !append_cons, append_nil_l; cbn [json.scan_string];
      change (Ascii.eqb "\" dq) with false; cbv iota;
      rewrite H; reflexivity. }
  assert (Hcases :
            (exists b d r2 o', r0 = String b (String d r2)
                               /\ utf8.is_ls_ps c b d = true
                               /\ json.scan_string r2 = Some (o', r)
                               /\ o = ("\u202" ++ String (json.hex (ord d mod 16)) "") ++ o')
            \/ (match r0 with
                | String b (String d _) => utf8.is_ls_ps c b d = false
                | _ => True
                end
                /\ exists o', json.scan_string r0 = Some (o', r) /\ o = String c o')).
  { destruct r0 as [|b [|d r2]];
      try (right; split; [exact I|]; apply emit_inv in H;
           destruct H as (o' & H & ->); eauto).
    destruct (utf8.is_ls_ps c b d) eqn:El.
    - left. apply emit_inv in H. destruct H as (o' & H & ->).
      exists b, d, r2, o'. auto.
    - right. split; [reflexivity|]. apply emit_inv in H.
      destruct H as (o' & H & ->). eauto. }
  clear H. destruct Hcases as [(b & d & r2 & o' & -> & El & H & ->) | (Hl & o' & H & ->)].
  - apply is_ls_ps_bytes in El. destruct El as (_ & _ & Hd). simpl in Hn.
    apply (IH _ _ _ rest) in H; [|lia].
    change ((("\u202" ++ String (json.hex (ord d mod 16)) "") ++ o') ++ rest)
      with (("\u202" ++ String (json.hex (ord d mod 16)) o') ++ rest).
    rewrite (scan_string_u202 d o' rest Hd), H. reflexivity.
  - rewrite append_cons.
    rewrite scan_string_plain; try assumption.
    + apply (IH _ _ _ rest) in H; [|lia]. rewrite H. reflexivity.
    + (* the two bytes that follow [c] in the output *)
      destruct (Ascii.eqb c "226") eqn:E2.
      2:{ destruct (o' ++ rest) as [|b [|d t]]; try exact I.
          unfold utf8.is_ls_ps. rewrite E2. reflexivity. }
      destruct r0 as [|b r1]; [discriminate|].
      destruct (scan_string_head _ _ _ _ H) as (x & t & -> & Hx).
      rewrite append_cons.
      destruct (Ascii.eqb b "128") eqn:E80.
      2:{ destruct (t ++ rest) as [|d t']; [exact I|].
          unfold utf8.is_ls_ps.
          destruct Hx as [-> | ->]; [rewrite E80 | ]; rewrite ?andb_false_r; reflexivity. }
      apply Ascii.eqb_eq in E80. subst b.
      rewrite scan_string_copy in H by reflexivity.
      apply emit_inv in H. destruct H as (o'' & H & Ho).
      rewrite append_cons in Ho. injection Ho as -> ->.
      destruct r1 as [|d r2]; [discriminate|].
      destruct (scan_string_head _ _ _ _ H) as (y & t' & -> & Hy).
      rewrite append_nil_l, append_cons.
      destruct Hy as [-> | ->]; [exact Hl|].
      unfold utf8.is_ls_ps. apply andb_false_r.
Qed.

(** Number literals *)

Lemma digits_out (s d r t : string) :
  json.digits s = (d, r) -> json.digits t = (EmptyString, t) ->
  json.digits (d ++ t) = (d, t).
Proof.
  revert d r. induction s as [|c s IH]; intros d r H Ht.
  - injection H as <- <-. exact Ht.
  - cbn [json.digits] in H. destruct (json.isDigit c) eqn:Hc.
    + destruct (json.digits s) as [d' r'] eqn:Hd. injection H as <- <-.
      rewrite append_cons. cbn [json.digits]. rewrite Hc.
      rewrite (IH _ _ eq_refl Ht). reflexivity.
    + injection H as <- <-. exact Ht.
Qed.

Lemma digits1_out (s d r t : string) :
  json.digits1 s = Some (d, r) -> json.digits t = (EmptyString, t) ->
  json.digits1 (d ++ t) = Some (d, t)
  /\ exists c u, d = String c u /\ json.isDigit c = true.
Proof.
  unfold json.digits1. intros H Ht.
  destruct (json.digits s) as [d' r'] eqn:Hd.
  destruct d' as [|c u]; [discriminate|]. injection H as <- <-.
  rewrite (digits_out _ _ _ _ Hd Ht). split; [reflexivity|].
  exists c, u. split; [reflexivity|].
  destruct s as [|c' s]; [discriminate|]. cbn [json.digits] in Hd.
  destruct (json.isDigit c') eqn:Hc; [|discriminate].
  destruct (json.digits s). injection Hd as -> _ _. exact Hc.
Qed.

Lemma digits_nondigit (c : ascii) (t : string) :
  json.isDigit c = false -> json.digits (String c t) = (EmptyString, String c t).
Proof. intros Hc. cbn [json.digits]. rewrite Hc. reflexivity. Qed.

Lemma ends_number_digits (t : string) :
  ends_number t = true -> json.digits t = (EmptyString, t).
Proof. apply digits_end. Qed.

Lemma ends_number_dot (t : string) :
  ends_number t = true -> json.after "." t = None.
Proof.
  intros Ht. pose proof (scan_frac_end t Ht) as H. unfold json.scan_frac in H.
  destruct (json.after "." t) as [r|] eqn:Ha; [|reflexivity].
  apply after_inv in Ha. subst t. discriminate Ht.
Qed.

Lemma scan_int_out (s i r t : string) :
  json.scan_int s = Some (i, r) -> json.digits t = (EmptyString, t) ->
  json.scan_int (i ++ t) = Some (i, t)
  /\ exists c u, i = String c u /\ json.isDigit c = true.
Proof.
  unfold json.scan_int. destruct s as [|c s]; [discriminate|].
  destruct (Ascii.eqb c "0") eqn:E0.
  - intros [= <- <-] _. apply Ascii.eqb_eq in E0. subst c.
    split; [reflexivity | eauto].
  - destruct (json.isDigit c) eqn:Hc; [|discriminate].
    destruct (json.digits s) as [d r'] eqn:Hd. intros [= <- <-] Ht.
    rewrite append_cons, E0, Hc, (digits_out _ _ _ _ Hd Ht). eauto.
Qed.

Lemma scan_frac_out (s f r t : string) :
  json.scan_frac s = Some (f, r) ->
  json.digits t = (EmptyString, t) -> json.after "." t = None ->
  json.scan_frac (f ++ t) = Some (f, t)
  /\ (f = "" \/ exists u, f = String "." u).
Proof.
  unfold json.scan_frac. intros H Ht Hdot.
  destruct (json.after "." s) as [s1|] eqn:Ha.
  - apply emit_inv in H. destruct H as (d & H & ->).
    destruct (digits1_out _ _ _ _ H Ht) as [Hd _].
    change (("." ++ d) ++ t) with (String "." (d ++ t)).
    rewrite after_eq, Hd. split; [reflexivity | right; eauto].
  - injection H as <- <-. rewrite append_nil_l, Hdot. auto.
Qed.

Lemma scan_exp_out (s e r t : string) :
  json.scan_exp s = Some (e, r) -> ends_number t = true ->
  json.scan_exp (e ++ t) = Some (e, t)
  /\ (e = "" \/ exists u, e = String "e" u \/ e = String "E" u).
Proof.
  intros H Ht. pose proof (ends_number_digits t Ht) as Hd.
  unfold json.scan_exp in H.
  destruct s as [|c s].
  { injection H as <- <-. rewrite append_nil_l. split; [apply scan_exp_end, Ht | auto]. }
  destruct (Ascii.eqb c "e" || Ascii.eqb c "E") eqn:Ec.
  2:{ injection H as <- <-. rewrite append_nil_l.
      split; [apply scan_exp_end, Ht | auto]. }
  assert (Hc : exists u, String c u = String "e" u \/ String c u = String "E" u).
  { exists "". bool_facts; auto. }
  assert (Hhead : forall u, exists u', String c u = String "e" u' \/ String c u = String "E" u').
  { intros u. exists u. bool_facts; auto. }
  destruct s as [|g s1]; [discriminate|].
  destruct (Ascii.eqb g "+" || Ascii.eqb g "-") eqn:Eg.
  - apply emit_inv in H. destruct H as (d & H & ->).
    destruct (digits1_out _ _ _ _ H Hd) as [Hd1 _].
    change ((String c (String g "") ++ d) ++ t) with (String c (String g (d ++ t))).
    unfold json.scan_exp. rewrite Ec, Eg, Hd1.
    split; [reflexivity | right; apply Hhead].
  - apply emit_inv in H. destruct H as (d & H & ->).
    destruct (digits1_out _ _ _ _ H Hd) as [Hd1 (x & u & -> & Hx)].
    change ((String c "" ++ String x u) ++ t) with (String c (String x (u ++ t))).
    unfold json.scan_exp.
    assert (Ex : (Ascii.eqb x "+" || Ascii.eqb x "-") = false).
    { clear -Hx. destruct x as [[] [] [] [] [] [] [] []]; vm_compute in Hx;
        try discriminate Hx; reflexivity. }
    rewrite Ec, Ex. rewrite append_cons in Hd1. rewrite Hd1.
    split; [reflexivity | right; apply Hhead].
Qed.

Lemma scan_number_out (s o r t : string) :
  json.scan_number s = Some (o, r) -> ends_number t = true ->
  json.scan_number (o ++ t) = Some (o, t)
  /\ exists c u, o = String c u /\ (json.isDigit c || Ascii.eqb c "-") = true.
Proof.
  intros H Ht. unfold json.scan_number in H.
  assert (Hgen : forall s1 sign,
            ('(i, s2) ← json.scan_int s1;
             '(f, s3) ← json.scan_frac s2;
             '(e, s4) ← json.scan_exp s3;
             Some (sign ++ i ++ f ++ e, s4)) = Some (o, r) ->
            sign = "" \/ sign = "-" ->
            json.scan_number (o ++ t) = Some (o, t)
            /\ exists c u, o = sign ++ String c u /\ json.isDigit c = true).
  { intros s1 sign Hs Hsign.
    destruct (json.scan_int s1) as [[i s2]|] eqn:Hi; [|discriminate].
    cbn [mbind option_bind] in Hs.
    destruct (json.scan_frac s2) as [[f s3]|] eqn:Hf; [|discriminate].
    cbn [mbind option_bind] in Hs.
    destruct (json.scan_exp s3) as [[e s4]|] eqn:He; [|discriminate].
    cbn [mbind option_bind] in Hs. injection Hs as <- <-.
    destruct (scan_exp_out _ _ _ _ He Ht) as [He' Heh].
    assert (Het : json.digits (e ++ t) = (EmptyString, e ++ t)
                  /\ json.after "." (e ++ t) = None).
    { destruct Heh as [-> | (u & [-> | ->])].
      - rewrite append_nil_l. split; [apply ends_number_digits | apply ends_number_dot];
          exact Ht.
      - split; reflexivity.
      - split; reflexivity. }
    destruct Het as [Hed Hedot].
    destruct (scan_frac_out _ _ _ _ Hf Hed Hedot) as [Hf' Hfh].
    assert (Hft : json.digits (f ++ e ++ t) = (EmptyString, f ++ e ++ t)).
    { destruct Hfh as [-> | (u & ->)]; [rewrite append_nil_l; exact Hed | reflexivity]. }
    destruct (scan_int_out _ _ _ _ Hi Hft) as [Hi' (c & u & -> & Hc)].
    split; [|rewrite append_cons; eauto].
    assert (Hscan : ('(i, s2) ← json.scan_int (String c u ++ f ++ e ++ t);
                     '(f0, s3) ← json.scan_frac s2;
                     '(e0, s4) ← json.scan_exp s3;
                     Some (sign ++ i ++ f0 ++ e0, s4))
                    = Some (sign ++ String c u ++ f ++ e, t)).
    { rewrite Hi'. cbn [mbind option_bind]. rewrite Hf'. cbn [mbind option_bind].
      rewrite He'. reflexivity. }
    assert (Hminus : Ascii.eqb c "-" = false).
    { clear -Hc. destruct c as [[] [] [] [] [] [] [] []]; vm_compute in Hc;
        try discriminate Hc; reflexivity. }
    unfold json.scan_number.
    destruct Hsign as [-> | ->].
    - rewrite !append_nil_l in *. rewrite <- !append_assoc. rewrite append_cons.
      rewrite (after_ne "-" c _ Hminus). rewrite <- append_cons. exact Hscan.
    - rewrite <- !append_assoc.
      change ("-" ++ String c u ++ f ++ e ++ t) with (String "-" (String c u ++ f ++ e ++ t)).
      rewrite after_eq. exact Hscan. }
  destruct (json.after "-" s) as [s1|] eqn:Hsign.
  - destruct (Hgen s1 "-" H) as [Hs (c & u & -> & Hc)]; [auto|].
    split; [exact Hs|]. exists "-"%char, (String c u). split; reflexivity.
  - destruct (Hgen s "" H) as [Hs (c & u & -> & Hc)]; [auto|].
    split; [exact Hs|].
    exists c, u. rewrite Hc. split; reflexivity.
Qed.

Lemma scan_lit_out (w s o r : string) :
  json.scan_lit w s = Some (o, r) -> o = w /\ s = w ++ r.
Proof.
  revert s o r. induction w as [|c w IH]; intros s o r H.
  - injection H as <- <-. split; reflexivity.
  - cbn [json.scan_lit] in H. destruct s as [|c' s]; [discriminate|].
    destruct (Ascii.eqb c c') eqn:Hc; [|discriminate].
    apply Ascii.eqb_eq in Hc. subst c'.
    apply emit_inv in H. destruct H as (o' & H & ->).
    destruct (IH _ _ _ H) as [-> ->]. split; reflexivity.
Qed.

Lemma ends_number_sep (c : ascii) (t : string) :
  c = ","%char \/ c = "]"%char \/ c = "}"%char -> ends_number (String c t) = true.
Proof. intros [-> | [-> | ->]]; reflexivity. Qed.

(** What the scanner has written, it accepts and writes again. *)
Lemma scan_out (f : nat) :
  (forall s o r, json.scan_value f s = Some (o, r) ->
     (exists c t, o = String c t /\ value_start c = true)
     /\ forall rest, ends_number rest = true ->
                     json.scan_value f (o ++ rest) = Some (o, rest))
  /\ (forall s o r, json.scan_elements f s = Some (o, r) ->
        (exists c t, o = String c t /\ value_start c = true)
        /\ forall rest, json.scan_elements f (o ++ rest) = Some (o, rest))
  /\ (forall s o r, json.scan_members f s = Some (o, r) ->
        (exists t, o = String dq t)
        /\ forall rest, json.scan_members f (o ++ rest) = Some (o, rest)).
Proof.
  induction f as [|f (IHv & IHe & IHm)]; [repeat split; discriminate|].
  split; [|split]; intros s o r H.
  - cbn [json.scan_value] in H.
    destruct (json.skip_ws s) as [|c r0] eqn:Hs; [discriminate|].
    destruct (Ascii.eqb c "{") eqn:E1.
    { destruct (json.after "}" (json.skip_ws r0)) as [r1|] eqn:Ha.
      - injection H as <- <-. split; [eexists _, _; split; reflexivity|].
        intros rest _. reflexivity.
      - apply emit_inv in H. destruct H as (o' & H & ->).
        destruct (IHm _ _ _ H) as [(t & ->) Hm].
        split; [eexists _, _; split; reflexivity|]. intros rest _.
        specialize (Hm rest).
        change (("{" ++ String dq t) ++ rest) with (String "{" (String dq t ++ rest)).
        cbn [json.scan_value]. rewrite skip_ws_char by reflexivity.
        rewrite Ascii.eqb_refl. rewrite append_cons in *.
        rewrite skip_ws_char by reflexivity.
        rewrite after_ne by reflexivity. rewrite Hm. reflexivity. }
    destruct (Ascii.eqb c "[") eqn:E2.
    { destruct (json.after "]" (json.skip_ws r0)) as [r1|] eqn:Ha.
      - injection H as <- <-. split; [eexists _, _; split; reflexivity|].
        intros rest _. reflexivity.
      - apply emit_inv in H. destruct H as (o' & H & ->).
        destruct (IHe _ _ _ H) as [(x & t & -> & Hx) He].
        split; [eexists _, _; split; reflexivity|]. intros rest _.
        specialize (He rest).
        change (("[" ++ String x t) ++ rest) with (String "[" (String x t ++ rest)).
        cbn [json.scan_value]. rewrite skip_ws_char by reflexivity.
        change (Ascii.eqb "[" "{") with false. cbv iota.
        rewrite Ascii.eqb_refl. rewrite append_cons in *.
        rewrite (value_start_skip x _ Hx).
        rewrite (value_start_after x "]" _ Hx) by auto. rewrite He. reflexivity. }
    destruct (Ascii.eqb c dq) eqn:E3.
    { apply emit_inv in H. destruct H as (o' & H & ->).
      split; [eexists _, _; split; reflexivity|]. intros rest _.
      apply (scan_string_out _ _ _ _ rest (le_n _)) in H.
      change ((String dq "" ++ o') ++ rest) with (String dq (o' ++ rest)).
      cbn [json.scan_value]. rewrite skip_ws_char by reflexivity.
      change (Ascii.eqb dq "{") with false. change (Ascii.eqb dq "[") with false.
      cbv iota. rewrite Ascii.eqb_refl, H. reflexivity. }
    destruct (Ascii.eqb c "t") eqn:E4.
    { apply scan_lit_out in H. destruct H as [-> _].
      split; [eexists _, _; split; reflexivity|]. intros rest _. reflexivity. }
    destruct (Ascii.eqb c "f") eqn:E5.
    { apply scan_lit_out in H. destruct H as [-> _].
      split; [eexists _, _; split; reflexivity|]. intros rest _. reflexivity. }
    destruct (Ascii.eqb c "n") eqn:E6.
    { apply scan_lit_out in H. destruct H as [-> _].
      split; [eexists _, _; split; reflexivity|]. intros rest _. reflexivity. }
    assert (Hn : forall rest, ends_number rest = true ->
                   json.scan_number (o ++ rest) = Some (o, rest)
                   /\ exists x u, o = String x u
                                  /\ (json.isDigit x || Ascii.eqb x "-") = true).
    { intros rest Hr. apply (scan_number_out _ _ _ _ H Hr). }
    destruct (Hn "" eq_refl) as [_ (x & u & -> & Hx)].
    split.
    { exists x, u. split; [reflexivity|]. unfold value_start.
      apply orb_prop in Hx. destruct Hx as [-> | ->]; [reflexivity|].
      rewrite orb_true_r. reflexivity. }
    intros rest Hr. destruct (Hn rest Hr) as [Hscan _].
    rewrite append_cons in *. rewrite (scan_value_number f x _ Hx). exact Hscan.
  - cbn [json.scan_elements] in H.
    destruct (json.scan_value f s) as [[o1 r1]|] eqn:Hv; [|discriminate].
    cbn [mbind option_bind] in H.
    destruct (IHv _ _ _ Hv) as [(x & t & -> & Hx) Hv1].
    destruct (json.after "," (json.skip_ws r1)) as [r2|] eqn:Hc.
    + apply emit_inv in H. destruct H as (o2 & H & ->).
      destruct (IHe _ _ _ H) as [_ He].
      split; [rewrite !append_cons; eauto|]. intros rest.
      cbn [json.scan_elements].
      specialize (Hv1 (String "," (o2 ++ rest)) eq_refl).
      norm_app. rewrite append_cons in Hv1. rewrite Hv1.
      next_char. rewrite (He rest), emit_Some. norm_app. reflexivity.
    + destruct (json.after "]" (json.skip_ws r1)) as [r2|] eqn:Hb; [|discriminate].
      cbn [mbind option_bind] in H. injection H as <- <-.
      split; [rewrite !append_cons; eauto|]. intros rest.
      cbn [json.scan_elements].
      specialize (Hv1 (String "]" rest) eq_refl).
      norm_app. rewrite append_cons in Hv1. rewrite Hv1.
      next_char. norm_app. reflexivity.
  - cbn [json.scan_members] in H.
    destruct (json.after dq (json.skip_ws s)) as [r0|] eqn:Hq; [|discriminate].
    cbn [mbind option_bind] in H.
    destruct (json.scan_string r0) as [[k r1]|] eqn:Hk; [|discriminate].
    cbn [mbind option_bind] in H.
    destruct (json.after ":" (json.skip_ws r1)) as [r2|] eqn:Hcolon; [|discriminate].
    cbn [mbind option_bind] in H.
    destruct (json.scan_value f r2) as [[o1 r3]|] eqn:Hv; [|discriminate].
    cbn [mbind option_bind] in H.
    destruct (IHv _ _ _ Hv) as [(x & t & -> & Hx) Hv1].
    pose proof (fun rest => scan_string_out _ _ _ _ rest (le_n _) Hk) as Hk1.
    destruct (json.after "," (json.skip_ws r3)) as [r4|] eqn:Hc.
    + apply emit_inv in H. destruct H as (o2 & H & ->).
      destruct (IHm _ _ _ H) as [_ Hm].
      split; [rewrite !append_cons; eauto|]. intros rest.
      cbn [json.scan_members].
      specialize (Hv1 (String "," (o2 ++ rest)) eq_refl).
      specialize (Hk1 (String ":" (String x (t ++ String "," (o2 ++ rest))))).
      norm_app. rewrite append_cons in Hv1.
      next_char. rewrite Hk1. next_char. rewrite Hv1.
      next_char. rewrite (Hm rest), emit_Some. norm_app. reflexivity.
    + destruct (json.after "}" (json.skip_ws r3)) as [r4|] eqn:Hb; [|discriminate].
      cbn [mbind option_bind] in H. injection H as <- <-.
      split; [rewrite !append_cons; eauto|]. intros rest.
      cbn [json.scan_members].
      specialize (Hv1 (String "}" rest) eq_refl).
      specialize (Hk1 (String ":" (String x (t ++ String "}" rest)))).
      norm_app. rewrite append_cons in Hv1.
      next_char. rewrite Hk1. next_char. rewrite Hv1.
      next_char. norm_app. reflexivity.
Qed.

Lemma rescans_le (g g' : nat) (o : string) :
  (g <= g')%nat -> rescans g o -> rescans g' o.
Proof. intros Hg Ho f rest Hf Hr. apply Ho; [lia | exact Hr]. Qed.

Lemma compact_rescans (d o : string) :
  json.compact d = Some o -> rescans (String.length o) o.
Proof.
  unfold json.compact. intros H.
  destruct (json.scan_value (S (String.length d)) d) as [[o' r]|] eqn:Hs;
    [|discriminate].
  cbn [mbind option_bind] in H. destruct (json.skip_ws r); [|discriminate].
  injection H as ->.
  destruct (scan_out (S (String.length d))) as (Hv & _ & _).
  destruct (Hv _ _ _ Hs) as [_ Hre].
  intros f rest Hf Hr. specialize (Hre rest Hr).
  destruct (scan_fuel (S (String.length d))) as (Hfuel & _ & _).
  destruct (Hfuel _ _ _ Hre) as [_ Hmono]. apply Hmono.
  rewrite append_length. lia.
Qed.

Lemma appendString_rescans (s : string) : rescans 1 (json.appendString s).
Proof.
  intros f rest Hf _. destruct f as [|f]; [lia|].
  unfold json.appendString. norm_app.
  cbn [json.scan_value]. rewrite skip_ws_char by reflexivity.
  change (Ascii.eqb dq "{") with false. change (Ascii.eqb dq "[") with false.
  cbv iota. rewrite Ascii.eqb_refl, scan_string_escape, emit_Some.
  norm_app. reflexivity.
Qed.

Lemma encode_rescans (v : json.value) :
  json.supported v = true -> rescans (need v) (json.encode v).
Proof. intros Hv f rest Hf Hr. apply (scan_value_encode v Hv f rest Hf Hr). Qed.

(** The members of an object whose names need no escape and whose
    values the scanner accepts. *)
Lemma scan_members_raw (ms : list (string * string)) :
  ms <> [] ->
  Forall (fun m => json.escape m.1 = m.1 /\ exists g, rescans g m.2) ms ->
  exists G, forall f rest, (G <= f)%nat ->
    json.scan_members
      f (json.join (map (fun m => String dq (m.1 ++ String dq "") ++ ":" ++ m.2) ms)
         ++ String "}" rest)
    = Some (json.join (map (fun m => String dq (m.1 ++ String dq "") ++ ":" ++ m.2) ms)
            ++ "}", rest).
Proof.
  set (h := fun m : string * string => String dq (m.1 ++ String dq "") ++ ":" ++ m.2).
  intros Hne Hm. induction Hm as [|[k o] ms [Hk (g & Ho)] Hm IH]; [contradiction|].
  cbn [fst snd] in Hk, Ho.
  destruct ms as [|e ms].
  - exists (S g). intros f rest Hf. destruct f as [|f]; [lia|].
    cbn [map json.join json.scan_members].
    change (h (k, o)) with (String dq (k ++ String dq "") ++ ":" ++ o). norm_app.
    next_char. rewrite <- Hk at 1. rewrite (scan_string_escape k), Hk.
    next_char. rewrite (Ho f (String "}" rest)) by first [reflexivity | lia].
    next_char. norm_app. reflexivity.
  - destruct IH as [G IH]; [discriminate|].
    exists (S (g + G)). intros f rest Hf. destruct f as [|f]; [lia|].
    cbn [map]. rewrite join_cons.
    change (h e :: map h ms) with (map h (e :: ms)).
    cbn [json.scan_members].
    change (h (k, o)) with (String dq (k ++ String dq "") ++ ":" ++ o). norm_app.
    next_char. rewrite <- Hk at 1. rewrite (scan_string_escape k), Hk.
    next_char. rewrite (Ho f) by first [reflexivity | lia].
    next_char. rewrite IH by lia.
    cbn [json.emit mbind option_bind]. norm_app. reflexivity.
Qed.

Lemma compact_object_raw (ms : list (string * string)) :
  ms <> [] ->
  Forall (fun m => json.escape m.1 = m.1 /\ exists g, rescans g m.2) ms ->
  json.compact (object ms) = Some (object ms).
Proof.
  intros Hne Hm. destruct (scan_members_raw ms Hne Hm) as [G HG].
  apply (compact_complete (S G) _ _ ""); [|reflexivity].
  unfold object. specialize (HG G "" (le_n _)).
  set (h := fun m : string * string => String dq (m.1 ++ String dq "") ++ ":" ++ m.2)
    in *.
  destruct ms as [|[k o] ms]; [contradiction|].
  assert (Hj : exists u, json.join (map h ((k, o) :: ms)) = String dq u).
  { destruct ms as [|e ms].
    - cbn [map json.join]. eexists. reflexivity.
    - cbn [map]. rewrite join_cons. eexists. reflexivity. }
  destruct Hj as [u Hj]. rewrite Hj in *.
  norm_app. cbn [json.scan_value]. rewrite skip_ws_char by reflexivity.
  rewrite Ascii.eqb_refl. rewrite skip_ws_char by reflexivity.
  rewrite after_ne by reflexivity.
  rewrite append_cons in HG. rewrite HG. cbn [json.emit mbind option_bind].
  norm_app. reflexivity.
Qed.

(** [compact] leaves a compacted text as it is. *)
Lemma compact_idempotent (d o : string) :
  json.compact d = Some o -> json.compact o = Some o.
Proof.
  intros H. pose proof (compact_rescans d o H (String.length o) "" (le_n _) eq_refl) as Hs.
  rewrite append_nil_r in Hs. apply (compact_complete _ _ _ "" Hs). reflexivity.
Qed.

(** ** No byte that HTML gives a meaning to *)

Lemma html_free_app (a b : string) :
  html_free (a ++ b) = html_free a && html_free b.
Proof.
  induction a as [|c a IH]; [reflexivity|].
  rewrite append_cons. cbn [html_free]. rewrite IH. apply andb_assoc.
Qed.

Lemma html_free_cons (c : ascii) (s : string) :
  json.isHtml c = false -> html_free s = true -> html_free (String c s) = true.
Proof. intros Hc Hs. cbn [html_free]. rewrite Hc, Hs. reflexivity. Qed.

Lemma html_free_high (c : ascii) : (ord c <? 128)%N = false -> json.isHtml c = false.
Proof. intros Hc. apply (high_not_special c Hc). Qed.

Lemma html_free_cont (c : ascii) : utf8.cont c = true -> json.isHtml c = false.
Proof. intros Hc. apply html_free_high, cont_high, Hc. Qed.

Lemma escape_ascii_html_free (a : ascii) :
  (ord a <? 128)%N = true -> html_free (json.escape_ascii a) = true.
Proof.
  destruct a as [[] [] [] [] [] [] [] []]; vm_compute; intros Ha;
    first [discriminate Ha | reflexivity].
Qed.

Lemma escape_html_free (s : string) : html_free (json.escape s) = true.
Proof.
  pattern s. apply escape_ind; clear s;
    [ | intros a r Ha IH | intros a b r Ha H2 IH
      | intros a b c r Ha H2 H3 IH | intros a b c d r Ha H2 H3 H4 IH
      | intros a r Ha He IH ].
  - reflexivity.
  - cbn [json.escape]. rewrite Ha, html_free_app, IH, escape_ascii_html_free by exact Ha.
    reflexivity.
  - cbn [json.escape]. rewrite Ha, H2.
    destruct (seq2_high a b H2) as (_ & _ & Hb).
    repeat apply html_free_cons; auto using html_free_high, html_free_cont.
  - cbn [json.escape]. rewrite Ha, H2, H3.
    destruct (seq3_bytes a b c H3) as (_ & Hb & Hc).
    destruct (utf8.is_ls_ps a b c) eqn:El.
    + apply is_ls_ps_bytes in El. destruct El as (_ & _ & [-> | ->]);
        rewrite html_free_app; cbn [html_free]; rewrite IH; reflexivity.
    + repeat apply html_free_cons; auto using html_free_high, html_free_cont.
  - cbn [json.escape]. rewrite Ha, H2, H3, H4.
    destruct (seq4_bytes a b c d H4) as (_ & _ & Hb & Hc & Hd).
    repeat apply html_free_cons; auto using html_free_high, html_free_cont.
  - rewrite He, html_free_app, IH. reflexivity.
Qed.

Lemma appendString_html_free (s : string) : html_free (json.appendString s) = true.
Proof.
  unfold json.appendString. apply html_free_cons; [reflexivity|].
  rewrite html_free_app, escape_html_free. reflexivity.
Qed.

Lemma uint_html_free (d : uint) : html_free (NilEmpty.string_of_uint d) = true.
Proof. induction d; cbn [NilEmpty.string_of_uint html_free]; auto. Qed.

Lemma itoa_html_free (n : Z) : html_free (json.itoa n) = true.
Proof.
  destruct n as [|p|p]; [reflexivity| |].
  - destruct (itoa_pos p) as [-> _]. apply uint_html_free.
  - destruct (itoa_pos p) as [_ ->]. apply html_free_cons; [reflexivity|].
    apply uint_html_free.
Qed.

Lemma join_html_free (l : list string) :
  Forall (fun x => html_free x = true) l -> html_free (json.join l) = true.
Proof.
  induction 1 as [|x l Hx Hl IH]; [reflexivity|].
  destruct l as [|y l]; [exact Hx|].
  rewrite join_cons, !html_free_app, Hx, IH. reflexivity.
Qed.

Lemma encode_html_free (v : json.value) : html_free (json.encode v) = true.
Proof.
  induction v as [|b|n|s|l IH|m IH|] using value_ind; try reflexivity.
  - destruct b; reflexivity.
  - apply itoa_html_free.
  - apply appendString_html_free.
  - cbn [json.encode]. rewrite !html_free_app, join_html_free; [reflexivity|].
    apply Forall_map. exact IH.
  - cbn [json.encode]. rewrite !html_free_app, join_html_free; [reflexivity|].
    apply Forall_map. eapply Forall_impl; [exact IH|].
    intros [k x] Hx. cbn [fst snd] in *.
    rewrite !html_free_app, appendString_html_free, Hx. reflexivity.
Qed.

Lemma isEscape_html (e : ascii) : json.isEscape e = true -> json.isHtml e = false.
Proof.
  destruct e as [[] [] [] [] [] [] [] []]; vm_compute; intros H;
    first [discriminate H | reflexivity].
Qed.

Lemma isHex_html (h : ascii) : json.isHex h = true -> json.isHtml h = false.
Proof.
  destruct h as [[] [] [] [] [] [] [] []]; vm_compute; intros H;
    first [discriminate H | reflexivity].
Qed.

Lemma isDigit_html (c : ascii) : json.isDigit c = true -> json.isHtml c = false.
Proof.
  destruct c as [[] [] [] [] [] [] [] []]; vm_compute; intros H;
    first [discriminate H | reflexivity].
Qed.

Lemma scan_string_html_free (n : nat) :
  forall s o r, (String.length s <= n)%nat ->
    json.scan_string s = Some (o, r) -> html_free o = true.
Proof.
  induction n as [|n IH]; intros s o r Hn H.
  { destruct s; [discriminate | simpl in Hn; lia]. }
  destruct s as [|c r0]; [discriminate|]. simpl in Hn.
  cbn [json.scan_string] in H.
  destruct (Ascii.eqb c dq) eqn:Eq.
  { injection H as <- <-. reflexivity. }
  destruct (Ascii.eqb c "\") eqn:Eb.
  { apply Ascii.eqb_eq in Eb. subst c.
    destruct r0 as [|e r1]; [discriminate|]. simpl in Hn.
    destruct (json.isEscape e) eqn:Ee.
    - apply emit_inv in H. destruct H as (o' & H & ->).
      apply IH in H; [|lia].
      rewrite html_free_app, H. cbn [html_free]. rewrite (isEscape_html e Ee).
      reflexivity.
    - destruct (Ascii.eqb e "u") eqn:Eu; [|discriminate].
      apply Ascii.eqb_eq in Eu. subst e.
      destruct r1 as [|h1 [|h2 [|h3 [|h4 r2]]]]; try discriminate.
      destruct (json.isHex h1 && json.isHex h2 && json.isHex h3 && json.isHex h4)
        eqn:Eh; [|discriminate].
      apply emit_inv in H. destruct H as (o' & H & ->). simpl in Hn.
      apply IH in H; [|lia]. bool_facts.
      rewrite html_free_app, H. cbn [html_free].
      rewrite (isHex_html h1), (isHex_html h2), (isHex_html h3), (isHex_html h4)
        by assumption. reflexivity. }
  destruct (ord c <? 32)%N eqn:Ec; [discriminate|].
  destruct (json.isHtml c) eqn:Eh.
  { apply emit_inv in H. destruct H as (o' & H & ->).
    apply IH in H; [|lia]. rewrite html_free_app, H.
    unfold json.isHtml in Eh. bool_facts; reflexivity. }
  destruct r0 as [|b [|d r2]];
    try (apply emit_inv in H; destruct H as (o' & H & ->);
         apply IH in H; [|simpl in *; lia];
         rewrite append_cons, append_nil_l; apply html_free_cons; assumption).
  destruct (utf8.is_ls_ps c b d) eqn:El.
  - apply emit_inv in H. destruct H as (o' & H & ->).
    apply IH in H; [|simpl in *; lia].
    apply is_ls_ps_bytes in El. destruct El as (_ & _ & [-> | ->]);
      rewrite html_free_app, H; reflexivity.
  - apply emit_inv in H. destruct H as (o' & H & ->).
    apply IH in H; [|simpl in *; lia].
    rewrite append_cons, append_nil_l. apply html_free_cons; assumption.
Qed.

Lemma digits_html_free (s d r : string) :
  json.digits s = (d, r) -> html_free d = true.
Proof.
  revert d r. induction s as [|c s IH]; intros d r H.
  - injection H as <- <-. reflexivity.
  - cbn [json.digits] in H. destruct (json.isDigit c) eqn:Hc.
    + destruct (json.digits s) as [d' r'] eqn:Hd. injection H as <- <-.
      apply html_free_cons; [apply isDigit_html, Hc | apply (IH _ _ eq_refl)].
    + injection H as <- <-. reflexivity.
Qed.

Lemma digits1_html_free (s d r : string) :
  json.digits1 s = Some (d, r) -> html_free d = true.
Proof.
  unfold json.digits1. destruct (json.digits s) as [d' r'] eqn:Hd.
  destruct d'; [discriminate|]. intros [= <- <-]. apply (digits_html_free _ _ _ Hd).
Qed.

Lemma scan_number_html_free (s o r : string) :
  json.scan_number s = Some (o, r) -> html_free o = true.
Proof.
  unfold json.scan_number.
  assert (Hgen : forall sign s1, html_free sign = true ->
            ('(i, s2) ← json.scan_int s1;
             '(f, s3) ← json.scan_frac s2;
             '(e, s4) ← json.scan_exp s3;
             Some (sign ++ i ++ f ++ e, s4)) = Some (o, r) ->
            html_free o = true).
  { intros sign s1 Hsign.
    destruct (json.scan_int s1) as [[i s2]|] eqn:Hi; [|discriminate].
    cbn [mbind option_bind].
    destruct (json.scan_frac s2) as [[f s3]|] eqn:Hf; [|discriminate].
    cbn [mbind option_bind].
    destruct (json.scan_exp s3) as [[e s4]|] eqn:He; [|discriminate].
    cbn [mbind option_bind]. intros [= <- <-].
    assert (Hi' : html_free i = true).
    { unfold json.scan_int in Hi. destruct s1 as [|c s1]; [discriminate|].
      destruct (Ascii.eqb c "0") eqn:E0.
      - apply Ascii.eqb_eq in E0. subst c. injection Hi as <- <-. reflexivity.
      - destruct (json.isDigit c) eqn:Hc; [|discriminate].
        destruct (json.digits s1) as [d r'] eqn:Hd. injection Hi as <- <-.
        apply html_free_cons; [apply isDigit_html, Hc | apply (digits_html_free _ _ _ Hd)]. }
    assert (Hf' : html_free f = true).
    { unfold json.scan_frac in Hf. destruct (json.after "." s2) as [s'|].
      - apply emit_inv in Hf. destruct Hf as (d & Hf & ->).
        apply digits1_html_free in Hf. rewrite html_free_app, Hf. reflexivity.
      - injection Hf as <- <-. reflexivity. }
    assert (He' : html_free e = true).
    { unfold json.scan_exp in He. destruct s3 as [|c s3]; [injection He as <- <-; reflexivity|].
      destruct (Ascii.eqb c "e" || Ascii.eqb c "E") eqn:Ec;
        [|injection He as <- <-; reflexivity].
      assert (Hc : json.isHtml c = false) by (bool_facts; reflexivity).
      destruct s3 as [|g s3]; [discriminate|].
      destruct (Ascii.eqb g "+" || Ascii.eqb g "-") eqn:Eg.
      - assert (Hg : json.isHtml g = false) by (bool_facts; reflexivity).
        apply emit_inv in He. destruct He as (d & He & ->).
        apply digits1_html_free in He. rewrite html_free_app, He.
        cbn [html_free]. rewrite Hc, Hg. reflexivity.
      - apply emit_inv in He. destruct He as (d & He & ->).
        apply digits1_html_free in He. rewrite html_free_app, He.
        cbn [html_free]. rewrite Hc. reflexivity. }
    rewrite !html_free_app, Hsign, Hi', Hf', He'. reflexivity. }
  destruct (json.after "-" s) as [s1|]; apply Hgen; reflexivity.
Qed.

Lemma scan_html_free (f : nat) :
  (forall s o r, json.scan_value f s = Some (o, r) -> html_free o = true)
  /\ (forall s o r, json.scan_elements f s = Some (o, r) -> html_free o = true)
  /\ (forall s o r, json.scan_members f s = Some (o, r) -> html_free o = true).
Proof.
  induction f as [|f (IHv & IHe & IHm)]; [repeat split; discriminate|].
  split; [|split]; intros s o r H.
  - cbn [json.scan_value] in H.
    destruct (json.skip_ws s) as [|c r0] eqn:Hs; [discriminate|].
    destruct (Ascii.eqb c "{").
    { destruct (json.after "}" (json.skip_ws r0)) as [r1|].
      - injection H as <- <-. reflexivity.
      - apply emit_inv in H. destruct H as (o' & H & ->).
        rewrite html_free_app, (IHm _ _ _ H). reflexivity. }
    destruct (Ascii.eqb c "[").
    { destruct (json.after "]" (json.skip_ws r0)) as [r1|].
      - injection H as <- <-. reflexivity.
      - apply emit_inv in H. destruct H as (o' & H & ->).
        rewrite html_free_app, (IHe _ _ _ H). reflexivity. }
    destruct (Ascii.eqb c dq).
    { apply emit_inv in H. destruct H as (o' & H & ->).
      apply (scan_string_html_free _ _ _ _ (le_n _)) in H.
      rewrite html_free_app, H. reflexivity. }
    destruct (Ascii.eqb c "t"); [apply scan_lit_out in H; destruct H as [-> _]; reflexivity|].
    destruct (Ascii.eqb c "f"); [apply scan_lit_out in H; destruct H as [-> _]; reflexivity|].
    destruct (Ascii.eqb c "n"); [apply scan_lit_out in H; destruct H as [-> _]; reflexivity|].
    apply (scan_number_html_free _ _ _ H).
  - cbn [json.scan_elements] in H.
    destruct (json.scan_value f s) as [[o1 r1]|] eqn:Hv; [|discriminate].
    cbn [mbind option_bind] in H. apply IHv in Hv.
    destruct (json.after "," (json.skip_ws r1)) as [r2|].
    + apply emit_inv in H. destruct H as (o2 & H & ->).
      rewrite !html_free_app, Hv, (IHe _ _ _ H). reflexivity.
    + destruct (json.after "]" (json.skip_ws r1)) as [r2|]; [|discriminate].
      cbn [mbind option_bind] in H. injection H as <- <-.
      rewrite html_free_app, Hv. reflexivity.
  - cbn [json.scan_members] in H.
    destruct (json.after dq (json.skip_ws s)) as [r0|]; [|discriminate].
    cbn [mbind option_bind] in H.
    destruct (json.scan_string r0) as [[k r1]|] eqn:Hk; [|discriminate].
    cbn [mbind option_bind] in H.
    apply (scan_string_html_free _ _ _ _ (le_n _)) in Hk.
    destruct (json.after ":" (json.skip_ws r1)) as [r2|]; [|discriminate].
    cbn [mbind option_bind] in H.
    destruct (json.scan_value f r2) as [[o1 r3]|] eqn:Hv; [|discriminate].
    cbn [mbind option_bind] in H. apply IHv in Hv.
    destruct (json.after "," (json.skip_ws r3)) as [r4|].
    + apply emit_inv in H. destruct H as (o2 & H & ->).
      rewrite !html_free_app. cbn [html_free].
      rewrite Hk, Hv, (IHm _ _ _ H). reflexivity.
    + destruct (json.after "}" (json.skip_ws r3)) as [r4|]; [|discriminate].
      cbn [mbind option_bind] in H. injection H as <- <-.
      rewrite !html_free_app. cbn [html_free].
      rewrite Hk, Hv. reflexivity.
Qed.

Lemma compact_html_free (d o : string) :
  json.compact d = Some o -> html_free o = true.
Proof.
  unfold json.compact.
  destruct (json.scan_value (S (String.length d)) d) as [[o' r]|] eqn:Hs;
    [|discriminate].
  cbn [mbind option_bind]. destruct (json.skip_ws r); [|discriminate].
  intros [= <-]. destruct (scan_html_free (S (String.length d))) as (Hv & _ & _).
  apply (Hv _ _ _ Hs).
Qed.

Lemma object_html_free (ms : list (string * string)) :
  Forall (fun m => html_free m.1 = true /\ html_free m.2 = true) ms ->
  html_free (object ms) = true.
Proof.
  intros Hm. unfold object. rewrite !html_free_app, join_html_free; [reflexivity|].
  apply Forall_map. eapply Forall_impl; [exact Hm|].
  intros [k o] [Hk Ho]. cbn [fst snd] in *.
  rewrite !html_free_app. cbn [html_free]. rewrite html_free_app, Hk, Ho. reflexivity.
Qed.

(** ** The envelope, whatever its members

    *** Marshalling, decoding and scanning the envelope *)

Lemma compact_nonempty (d o : string) : json.compact d = Some o -> d <> "".
Proof. intros H ->. discriminate H. Qed.

Lemma Marshal_jsonResponse_empty (st msg : string) :
  Marshal_jsonResponse {| Status := st; Data := ""; Message := msg |}
  = Some (envelope_of st None msg).
Proof. reflexivity. Qed.

Lemma Marshal_jsonResponse_raw (st d msg : string) :
  d <> "" ->
  Marshal_jsonResponse {| Status := st; Data := d; Message := msg |}
  = o ← json.compact d; Some (envelope_of st (Some o) msg).
Proof.
  intros Hd. unfold Marshal_jsonResponse, members, envelope_of.
  cbn [Status Data Message].
  destruct (decide (d = "")) as [|_]; [contradiction|].
  destruct (json.compact d); reflexivity.
Qed.

Lemma Marshal_jsonResponse_payload (st msg : string) (data : option json.value)
      (bytes : string) :
  payload_bytes data = Some bytes ->
  Marshal_jsonResponse {| Status := st; Data := bytes; Message := msg |}
  = Some (envelope_of st (json.encode <$> data) msg).
Proof.
  destruct data as [v|]; cbn [payload_bytes]; intros Hp.
  - unfold json.Marshal in Hp. destruct (json.supported v) eqn:Hs; [|discriminate].
    injection Hp as <-.
    rewrite Marshal_jsonResponse_raw by (apply encode_nonempty, Hs).
    rewrite (compact_encode v Hs). reflexivity.
  - injection Hp as <-. apply Marshal_jsonResponse_empty.
Qed.

Lemma payload_supported (v : json.value) :
  payload_bytes (Some v) <> None -> json.supported v = true.
Proof.
  cbn [payload_bytes]. unfold json.Marshal.
  destruct (json.supported v); [reflexivity | contradiction].
Qed.

Lemma envelope_of_encode (st : string) (data : option json.value) (msg : string) :
  envelope_of st (json.encode <$> data) msg
  = json.encode (envelope_value st data msg).
Proof.
  unfold envelope_of, envelope_value.
  destruct data as [p|]; destruct (decide (msg = "")); reflexivity.
Qed.

Lemma envelope_value_supported (st : string) (data : option json.value)
      (msg : string) :
  payload_bytes data <> None -> json.supported (envelope_value st data msg) = true.
Proof.
  intros Hp. unfold envelope_value.
  destruct data as [v|]; destruct (decide (msg = "")); cbn;
    rewrite ?(payload_supported v Hp); reflexivity.
Qed.

Lemma Unmarshal_envelope_of (st : string) (data : option json.value) (msg : string) :
  utf8.ValidString st = true ->
  utf8.ValidString msg = true ->
  (forall p, data = Some p -> json.is_json p = true) ->
  json.Unmarshal (envelope_of st (json.encode <$> data) msg)
  = Some (decoded_envelope st data msg).
Proof.
  intros Hst Hmsg Hdata.
  assert (Hd : forall p, data = Some p -> decodes p).
  { intros p Hp. apply decode_value_encode, Hdata, Hp. }
  assert (Hs : json.supported (envelope_value st data msg) = true).
  { unfold envelope_value. destruct data as [p|]; destruct (decide (msg = ""));
      cbn; rewrite ?(is_json_supported p (Hdata p eq_refl)); reflexivity. }
  rewrite envelope_of_encode. unfold json.Unmarshal.
  rewrite <- (append_nil_r (json.encode _)) at 2.
  unfold envelope_value in *.
  rewrite decode_object.
  - unfold decoded_envelope.
    destruct data as [p|]; destruct (decide (msg = "")); reflexivity.
  - discriminate.
  - assert (Hstr : forall s, utf8.ValidString s = true -> decodes (json.Str s)).
    { intros s Hv. apply (decode_value_encode (json.Str s)). exact Hv. }
    destruct data as [p|]; destruct (decide (msg = ""));
      repeat constructor; cbn [fst snd]; auto.
  - pose proof (need_length _ Hs). lia.
Qed.

Lemma compact_envelope_of (st : string) (data : option string) (msg : string) :
  (forall o, data = Some o -> exists g, rescans g o) ->
  json.compact (envelope_of st data msg) = Some (envelope_of st data msg).
Proof.
  intros Hdata. unfold envelope_of. apply compact_object_raw; [discriminate|].
  assert (Hstr : forall s, exists g, rescans g (json.appendString s)).
  { intros s. exists 1%nat. apply appendString_rescans. }
  destruct data as [o|]; destruct (decide (msg = ""));
    repeat constructor; cbn [fst snd]; auto.
Qed.

Lemma envelope_of_html_free (st : string) (data : option string) (msg : string) :
  (forall o, data = Some o -> html_free o = true) ->
  html_free (envelope_of st data msg) = true.
Proof.
  intros Hdata. unfold envelope_of. apply object_html_free.
  destruct data as [o|]; destruct (decide (msg = ""));
    repeat constructor; cbn [fst snd];
    auto using appendString_html_free.
Qed.

(** *** The operations *)

Section Operations.

Context {W : Type} `{ResponseWriter W}.

Lemma write_envelope (w : W) (st : string) (c : Z)
      (data : option json.value) (msg : string) :
  payload_bytes data <> None ->
  write w st c data msg
  = rw_Write (envelope_of st (json.encode <$> data) msg)
             (rw_WriteHeader c (defaultContentType w)).
Proof.
  intros Hp. destruct (payload_bytes data) as [bytes|] eqn:Hb; [|contradiction].
  rewrite (write_marshalled w st c data msg bytes Hb).
  unfold writeJSONResponse.
  rewrite (Marshal_jsonResponse_payload st msg data bytes Hb). reflexivity.
Qed.

(** What [Write] does on a decorator that has not been written: it
    refuses, or it forwards an envelope whose [data], if any, is the
    compaction of the bytes. *)
Lemma Write_cases (r : response W) (raw : string) :
  written r = false ->
  Write raw r = ((0, Some ErrInvalidRawJSON),
                 {| rw := rw r; code := code r; written := true |})
  \/ exists data msg,
      Write raw r = forwarded (envelope_of (getStatus (code r)) data msg) r
      /\ forall o, data = Some o -> json.compact raw = Some o.
Proof.
  intros Hw. rewrite (Write_unwritten raw r Hw). cbv zeta.
  destruct (decide (getStatus (code r) = StatusError)) as [He|_].
  - right. unfold set_Message. cbn [Status Data].
    rewrite Marshal_jsonResponse_empty. exists None, raw.
    split; [reflexivity | discriminate].
  - unfold set_Data. cbn [Status Message].
    destruct (decide (raw = "")) as [->|Hraw].
    + right. rewrite Marshal_jsonResponse_empty. exists None, "".
      split; [reflexivity | discriminate].
    + rewrite (Marshal_jsonResponse_raw _ raw "" Hraw).
      destruct (json.compact raw) as [o|] eqn:Ho; cbn [mbind option_bind].
      * right. exists (Some o), "". split; [reflexivity|]. intros o' [= <-]. reflexivity.
      * left. reflexivity.
Qed.




(** X4.  The two ways of using the package agree.  Wrapping a sink,
    recording the code [c] and writing the bytes that [json.Marshal]
    gives for a payload (no bytes for the nil payload) leaves the sink
    in the state, and returns the result, of [Success] when [c] is
    below 400 and of [Fail] when [c] is in 400..499; writing a text
    when [c] is 500 or more does what [Error] does with that text. *)
Theorem Wrap_agrees_with_encoders (w : W) (c : Z) :
  let r := WriteHeader c (Wrap w) in
  let via_Write raw := ((Write raw r).1, rw (Write raw r).2) in
  (forall data bytes, payload_bytes data = Some bytes ->
     (c < 400 -> via_Write bytes = Success w data c)
     /\ (400 <= c < 500 -> via_Write bytes = Fail w data c))
  /\ (forall msg, c >= 500 -> via_Write msg = Error w msg c).
Proof.
  cbv zeta.
  assert (Hw : written (WriteHeader c (Wrap w)) = false) by reflexivity.
  split.
  - intros data bytes Hp.
    assert (Hne : payload_bytes data <> None) by congruence.
    split; intros Hc; rewrite (Write_unwritten bytes _ Hw); cbv zeta;
      cbn [code WriteHeader].
    + rewrite (getStatus_success c Hc).
      destruct (decide (StatusSuccess = StatusError)) as [He|_]; [discriminate|].
      unfold set_Data. cbn [Status Message].
      rewrite (Marshal_jsonResponse_payload _ _ data bytes Hp).
      unfold Success. rewrite (write_envelope w _ c data "" Hne).
      unfold forwarded. cbn [rw WriteHeader Wrap fst snd].
      symmetry. apply surjective_pairing.
    + rewrite (getStatus_fail c Hc).
      destruct (decide (StatusFail = StatusError)) as [He|_]; [discriminate|].
      unfold set_Data. cbn [Status Message].
      rewrite (Marshal_jsonResponse_payload _ _ data bytes Hp).
      unfold Fail. rewrite (write_envelope w _ c data "" Hne).
      unfold forwarded. cbn [rw WriteHeader Wrap fst snd].
      symmetry. apply surjective_pairing.
  - intros msg Hc. rewrite (Write_unwritten msg _ Hw). cbv zeta.
    cbn [code WriteHeader]. rewrite (getStatus_error c Hc).
    destruct (decide (StatusError = StatusError)) as [_|Hn]; [|contradiction].
    unfold set_Message. cbn [Status Data].
    rewrite Marshal_jsonResponse_empty.
    unfold Error. rewrite (write_envelope w _ c None msg) by discriminate.
    unfold forwarded. cbn [rw WriteHeader Wrap fst snd].
    symmetry. apply surjective_pairing.
Qed.




(** X8.  After [Wrap] the decorator leaves the header map alone.  On
    a sink that keeps the map it is given and whose own [WriteHeader]
    and [Write] do not change it: a map stored through the decorator is
    the map it returns, and neither its [WriteHeader] nor its [Write]
    (refused, rejected or forwarded) changes the map.  A content type
    that the caller sets after [Wrap] is therefore the one in force when
    the body is written. *)
Theorem decorator_keeps_headers `{!HeaderRef W} `{!HeaderStable W}
        (r : response W) :
  (forall h, Header (rw_setHeader h r) = h)
  /\ (forall c, Header (WriteHeader c r) = Header r)
  /\ (forall data, Header (Write data r).2 = Header r).
Proof.
  split; [|split].
  - intros h. apply rw_Header_set.
  - intros c. apply rw_Header_WriteHeader.
  - intros data. unfold Write, Header. destruct (written r); [reflexivity|].
    cbv zeta.
    match goal with
    | |- context [writeJSONResponse ?w ?j] =>
      pose proof (writeJSONResponse_Header w j) as Hh;
      destruct (writeJSONResponse w j) as [res w']
    end.
    exact Hh.
Qed.

Lemma defaultContentType_fixed `{!HeaderRef W} (w : W) :
  defaultContentType (defaultContentType w) = defaultContentType w.
Proof.
  unfold defaultContentType at 1.
  destruct (decide (http.Get (rw_Header (defaultContentType w)) "Content-Type" = ""))
    as [He|_]; [|reflexivity].
  exfalso. destruct (defaultContentType_Header w) as (Hget & _ & _).
  rewrite Hget in He.
  destruct (decide (http.Get (rw_Header w) "Content-Type" = "")) as [_|Hn];
    [discriminate | contradiction].
Qed.

(** X9.  The default content type is applied once: on a sink that
    keeps the map it is given, wrapping the sink of a decorator again
    gives the same decorator, and a direct encoder used on the sink of
    a decorator does what it does on the sink before [Wrap]. *)
Theorem Wrap_idempotent `{!HeaderRef W} (w : W) :
  Wrap (rw (Wrap w)) = Wrap w
  /\ (forall st c data msg,
        payload_bytes data <> None ->
        write (rw (Wrap w)) st c data msg = write w st c data msg).
Proof.
  split.
  - unfold Wrap. cbn [rw]. rewrite defaultContentType_fixed. reflexivity.
  - intros st c data msg Hp. rewrite !write_envelope by exact Hp.
    cbn [Wrap rw]. rewrite defaultContentType_fixed. reflexivity.
Qed.

End Operations.

(** *** The decorator as a sink *)

Section Nested.

Context {W : Type} `{ResponseWriter W}.


End Nested.

(** ** The decoder on what the scanner has written *)

Lemma unquote_sequence (c : ascii) (r : string) :
  (ord c <? 128)%N = false ->
  json.unquote (String c r)
  = match sequence_at c r with
    | Some (q, r') => json.emit q (json.unquote r')
    | None => json.emit utf8.RuneError (json.unquote r)
    end.
Proof.
  intros Hc. rewrite (unquote_high c r Hc). unfold sequence_at.
  destruct r as [|b [|d [|g r4]]]; try reflexivity;
    repeat match goal with
           | |- context [if ?x then _ else _] => destruct x
           end; reflexivity.
Qed.

Lemma unquote_u (h1 h2 h3 h4 : ascii) (r2 : string) :
  (json.isHex h1 && json.isHex h2 && json.isHex h3 && json.isHex h4) = true ->
  json.unquote (String "\" (String "u" (String h1 (String h2 (String h3 (String h4 r2))))))
  = if utf16.IsSurrogate (json.getu4 h1 h2 h3 h4)
    then match pair_at (json.getu4 h1 h2 h3 h4) r2 with
         | Some (cp, r3) => json.emit (utf8.EncodeRune cp) (json.unquote r3)
         | None => json.emit utf8.RuneError (json.unquote r2)
         end
    else json.emit (utf8.EncodeRune (json.getu4 h1 h2 h3 h4)) (json.unquote r2).
Proof.
  intros Hh. cbn [json.unquote]. change (Ascii.eqb "\" dq) with false. cbv iota.
  rewrite Ascii.eqb_refl. change (Ascii.eqb "u" "u") with true. cbv iota.
  rewrite Hh. unfold pair_at.
  destruct (utf16.IsSurrogate _); [|reflexivity].
  destruct r2 as [|b1 [|b2 [|k1 [|k2 [|k3 [|k4 r3]]]]]]; try reflexivity.
  match goal with
  | |- context [if ?x then _ else _] => destruct x
  end; reflexivity.
Qed.

(** A continuation byte at the head of a compacted literal is a byte
    of the input, copied. *)
Lemma scan_cont_head (s o r rest u : string) (b : ascii) :
  json.scan_string s = Some (o, r) ->
  o ++ rest = String b u -> utf8.cont b = true ->
  exists s1 o1, s = String b s1 /\ o = String b o1 /\ u = o1 ++ rest
                /\ json.scan_string s1 = Some (o1, r).
Proof.
  intros Hs Ho Hb. destruct s as [|x s1]; [discriminate|].
  destruct (scan_string_head _ _ _ _ Hs) as (y & t & -> & Hy).
  rewrite append_cons in Ho. injection Ho as -> <-.
  assert (Hx : x = b).
  { destruct Hy as [-> | ->]; [reflexivity | discriminate Hb]. }
  subst x.
  rewrite scan_string_copy in Hs by (apply cont_high, Hb || apply cont_not_e2, Hb).
  apply emit_inv in Hs. destruct Hs as (o1 & Hs & Ho).
  rewrite append_cons, append_nil_l in Ho. injection Ho as ->.
  exists s1, o1. auto.
Qed.

Lemma sequence_at_None (c : ascii) (s o r rest : string) :
  sequence_at c s = None -> json.scan_string s = Some (o, r) ->
  sequence_at c (o ++ rest) = None.
Proof.
  intros Hn Hs. unfold sequence_at.
  destruct (o ++ rest) as [|b u] eqn:Ho; [reflexivity|].
  destruct (utf8.seq2 c b) eqn:E2.
  { exfalso. destruct (seq2_high c b E2) as (_ & _ & Hb).
    destruct (scan_cont_head _ _ _ _ _ _ Hs Ho Hb) as (s1 & o1 & -> & _).
    cbn [sequence_at] in Hn. rewrite E2 in Hn. discriminate. }
  destruct u as [|d u2]; [reflexivity|].
  destruct (utf8.seq3 c b d) eqn:E3.
  { exfalso. destruct (seq3_bytes c b d E3) as (_ & Hb & Hd).
    destruct (scan_cont_head _ _ _ _ _ _ Hs Ho Hb) as (s1 & o1 & -> & -> & Hu & Hs1).
    symmetry in Hu.
    destruct (scan_cont_head _ _ _ _ _ _ Hs1 Hu Hd) as (s2 & o2 & -> & _).
    cbn [sequence_at] in Hn. rewrite E2, E3 in Hn. discriminate. }
  destruct u2 as [|g u3]; [reflexivity|].
  destruct (utf8.seq4 c b d g) eqn:E4; [|reflexivity].
  exfalso. destruct (seq4_bytes c b d g E4) as (_ & _ & Hb & Hd & Hg).
  destruct (scan_cont_head _ _ _ _ _ _ Hs Ho Hb) as (s1 & o1 & -> & -> & Hu & Hs1).
  symmetry in Hu.
  destruct (scan_cont_head _ _ _ _ _ _ Hs1 Hu Hd) as (s2 & o2 & -> & -> & Hu2 & Hs2).
  symmetry in Hu2.
  destruct (scan_cont_head _ _ _ _ _ _ Hs2 Hu2 Hg) as (s3 & o3 & -> & _).
  cbn [sequence_at] in Hn. rewrite E2, E3, E4 in Hn. discriminate.
Qed.

(** An escape [\uXXXX] at the head of a compacted literal is an escape
    of the input, or stands for a byte that the scanner escapes: its
    code point is then no low surrogate. *)
Lemma scan_escape_head (s o r rest u : string) (k1 k2 k3 k4 : ascii) :
  json.scan_string s = Some (o, r) ->
  o ++ rest = String "\" (String "u" (String k1 (String k2 (String k3 (String k4 u))))) ->
  (exists s', s = String "\" (String "u" (String k1 (String k2 (String k3 (String k4 s'))))))
  \/ (json.getu4 k1 k2 k3 k4 <? 56320)%N = true.
Proof.
  intros Hs Ho. destruct s as [|c r0]; [discriminate|].
  cbn [json.scan_string] in Hs.
  destruct (Ascii.eqb c dq) eqn:Eq.
  { injection Hs as <- <-. discriminate Ho. }
  destruct (Ascii.eqb c "\") eqn:Eb.
  { apply Ascii.eqb_eq in Eb. subst c. left.
    destruct r0 as [|e r1]; [discriminate|].
    destruct (json.isEscape e) eqn:Ee.
    - apply emit_inv in Hs. destruct Hs as (o' & _ & ->).
      rewrite !append_cons in Ho. injection Ho as -> _. discriminate Ee.
    - destruct (Ascii.eqb e "u") eqn:Eu; [|discriminate].
      apply Ascii.eqb_eq in Eu. subst e.
      destruct r1 as [|h1 [|h2 [|h3 [|h4 r2]]]]; try discriminate.
      destruct (json.isHex h1 && json.isHex h2 && json.isHex h3 && json.isHex h4);
        [|discriminate].
      apply emit_inv in Hs. destruct Hs as (o' & _ & ->).
      rewrite !append_cons in Ho. injection Ho as <- <- <- <- _. eauto. }
  destruct (ord c <? 32)%N; [discriminate|].
  destruct (json.isHtml c) eqn:Eh.
  { right. apply emit_inv in Hs. destruct Hs as (o' & _ & ->).
    unfold json.isHtml in Eh. bool_facts;
      match type of Ho with
      | context [json.u00 ?x] =>
        let v := eval vm_compute in (json.u00 x) in change (json.u00 x) with v in Ho
      end;
      rewrite !append_cons in Ho; injection Ho as <- <- <- <- _; reflexivity. }
  assert (Hcopy : forall k, json.emit (String c "") k = Some (o, r) -> False).
  { intros k Hk. apply emit_inv in Hk. destruct Hk as (o' & _ & ->).
    rewrite append_cons in Ho. injection Ho as -> _. discriminate Eb. }
  destruct r0 as [|b [|d r2]]; try (exfalso; exact (Hcopy _ Hs)).
  destruct (utf8.is_ls_ps c b d) eqn:El; [|exfalso; exact (Hcopy _ Hs)].
  right. apply emit_inv in Hs. destruct Hs as (o' & _ & ->).
  apply is_ls_ps_bytes in El. destruct El as (_ & _ & [-> | ->]);
    rewrite !append_cons in Ho; injection Ho as <- <- <- <- _; reflexivity.
Qed.

Lemma DecodeRune_low (rr k : N) :
  (k <? 56320)%N = true -> utf16.DecodeRune rr k = 65533%N.
Proof.
  intros Hk. unfold utf16.DecodeRune.
  assert (Hle : (56320 <=? k)%N = false).
  { apply N.leb_gt. apply N.ltb_lt in Hk. exact Hk. }
  rewrite Hle, andb_false_r. reflexivity.
Qed.

Lemma pair_at_None (rr : N) (s o r rest : string) :
  pair_at rr s = None -> json.scan_string s = Some (o, r) ->
  pair_at rr (o ++ rest) = None.
Proof.
  intros Hn Hs. unfold pair_at.
  destruct (o ++ rest) as [|b1 [|b2 [|k1 [|k2 [|k3 [|k4 u]]]]]] eqn:Ho; try reflexivity.
  match goal with
  | |- (if ?x then _ else _) = _ => destruct x eqn:Hcond
  end; [|reflexivity].
  exfalso.
  apply andb_prop in Hcond. destruct Hcond as [Hcond Hdec].
  assert (Hb : b1 = "\"%char /\ b2 = "u"%char).
  { clear -Hcond. bool_facts. auto. }
  destruct Hb as [-> ->].
  destruct (scan_escape_head _ _ _ _ _ _ _ _ _ Hs Ho) as [(s' & ->) | Hlow].
  - unfold pair_at in Hn. rewrite Hcond, Hdec in Hn. discriminate.
  - rewrite (DecodeRune_low rr _ Hlow) in Hdec. discriminate.
Qed.

Lemma unescape_isEscape (e ch : ascii) :
  json.unescape e = Some ch -> json.isEscape e = true /\ Ascii.eqb e "u" = false.
Proof.
  destruct e as [[] [] [] [] [] [] [] []]; vm_compute; intros H;
    first [discriminate H | split; reflexivity].
Qed.

Lemma u00_escape_ascii (c : ascii) :
  json.isHtml c = true ->
  json.u00 c = json.escape_ascii c /\ (ord c <? 128)%N = true.
Proof.
  unfold json.isHtml. intros H. bool_facts; split; reflexivity.
Qed.

Lemma sequence_at_scan (c : ascii) (s q s' o' r rest : string) :
  (ord c <? 128)%N = false ->
  sequence_at c s = Some (q, s') ->
  json.scan_string s' = Some (o', r) ->
  exists o, json.scan_string (String c s) = Some (o, r)
            /\ json.unquote (o ++ rest) = json.emit q (json.unquote (o' ++ rest)).
Proof.
  intros Hc Hq Hs. unfold sequence_at in Hq.
  destruct s as [|b r2]; [discriminate|].
  destruct (utf8.seq2 c b) eqn:E2.
  { injection Hq as <- <-. destruct (seq2_high c b E2) as (_ & He2 & Hb).
    exists (String c (String b o')). split.
    - rewrite (scan_string_copy c _ Hc He2).
      rewrite (scan_string_copy b _ (cont_high b Hb) (cont_not_e2 b Hb)), Hs.
      reflexivity.
    - rewrite !append_cons, (unquote_sequence c _ Hc). cbn [sequence_at].
      rewrite E2. reflexivity. }
  destruct r2 as [|d r3]; [discriminate|].
  destruct (utf8.seq3 c b d) eqn:E3.
  { injection Hq as <- <-. destruct (seq3_bytes c b d E3) as (_ & Hb & Hd).
    destruct (utf8.is_ls_ps c b d) eqn:El.
    - pose proof (is_ls_ps_bytes _ _ _ El) as (-> & -> & Hd').
      exists (("\u202" ++ String (json.hex (ord d mod 16)) "") ++ o'). split.
      + rewrite scan_string_e2, El, Hs. reflexivity.
      + change ((("\u202" ++ String (json.hex (ord d mod 16)) "") ++ o') ++ rest)
          with (("\u202" ++ String (json.hex (ord d mod 16)) o') ++ rest).
        rewrite (unquote_u202 d o' rest Hd'). reflexivity.
    - exists (String c (String b (String d o'))). split.
      + assert (Hcopy : json.scan_string (String c (String b (String d r3)))
                        = json.emit (String c "")
                                    (json.scan_string (String b (String d r3)))).
        { apply scan_string_plain; try apply (high_not_special c Hc). exact El. }
        rewrite Hcopy.
        rewrite (scan_string_copy b _ (cont_high b Hb) (cont_not_e2 b Hb)).
        rewrite (scan_string_copy d _ (cont_high d Hd) (cont_not_e2 d Hd)), Hs.
        reflexivity.
      + rewrite !append_cons, (unquote_sequence c _ Hc). cbn [sequence_at].
        rewrite E2, E3. reflexivity. }
  destruct r3 as [|g r4]; [discriminate|].
  destruct (utf8.seq4 c b d g) eqn:E4; [|discriminate].
  injection Hq as <- <-. destruct (seq4_bytes c b d g E4) as (_ & He2 & Hb & Hd & Hg).
  exists (String c (String b (String d (String g o')))). split.
  - rewrite (scan_string_copy c _ Hc He2).
    rewrite (scan_string_copy b _ (cont_high b Hb) (cont_not_e2 b Hb)).
    rewrite (scan_string_copy d _ (cont_high d Hd) (cont_not_e2 d Hd)).
    rewrite (scan_string_copy g _ (cont_high g Hg) (cont_not_e2 g Hg)), Hs.
    reflexivity.
  - rewrite !append_cons, (unquote_sequence c _ Hc). cbn [sequence_at].
    rewrite E2, E3, E4. reflexivity.
Qed.

Lemma sequence_at_length (c : ascii) (s q s' : string) :
  sequence_at c s = Some (q, s') -> (String.length s' < String.length s)%nat.
Proof.
  unfold sequence_at. destruct s as [|b [|d [|g r4]]]; try discriminate;
    repeat match goal with
           | |- context [if ?x then _ else _] => destruct x
           end; intros [= <- <-] || discriminate; simpl; lia.
Qed.

Lemma sequence_at_not_ls_ps (c : ascii) (s : string) :
  sequence_at c s = None ->
  match s with
  | String b (String d _) => utf8.is_ls_ps c b d = false
  | _ => True
  end.
Proof.
  destruct s as [|b [|d r3]]; try exact (fun _ => I).
  intros Hn. destruct (utf8.is_ls_ps c b d) eqn:El; [|reflexivity].
  exfalso. apply is_ls_ps_bytes in El. destruct El as (-> & -> & [-> | ->]);
    discriminate Hn.
Qed.

(** The decoder reads from the compacted literal the string that it
    reads from the literal. *)
Lemma unquote_out (n : nat) :
  forall s t r rest, (String.length s <= n)%nat ->
    json.unquote s = Some (t, r) ->
    exists o, json.scan_string s = Some (o, r)
              /\ json.unquote (o ++ rest) = Some (t, rest).
Proof.
  induction n as [|n IH]; intros s t r rest Hn H.
  { destruct s; [discriminate | simpl in Hn; lia]. }
  destruct s as [|c r0]; [discriminate|]. simpl in Hn.
  destruct (Ascii.eqb c dq) eqn:Eq.
  { cbn [json.unquote] in H. rewrite Eq in H. injection H as <- <-.
    exists (String dq ""). cbn [json.scan_string]. rewrite Eq.
    split; reflexivity. }
  destruct (Ascii.eqb c "\") eqn:Eb.
  { apply Ascii.eqb_eq in Eb. subst c.
    destruct r0 as [|e r1]; [discriminate|]. simpl in Hn.
    destruct (Ascii.eqb e "u") eqn:Eu.
    - apply Ascii.eqb_eq in Eu. subst e.
      destruct r1 as [|h1 [|h2 [|h3 [|h4 r2]]]]; try discriminate.
      simpl in Hn.
      destruct (json.isHex h1 && json.isHex h2 && json.isHex h3 && json.isHex h4)
        eqn:Eh; [|cbn [json.unquote] in H; rewrite Eh in H; discriminate].
      rewrite (unquote_u _ _ _ _ _ Eh) in H.
      assert (Hscan : forall r' o', json.scan_string r' = Some (o', r) ->
                json.scan_string
                  (String "\" (String "u" (String h1 (String h2 (String h3 (String h4 r'))))))
                = Some (String "\" (String "u" (String h1 (String h2 (String h3 (String h4 o'))))),
                        r)).
      { intros r' o' Hr'. cbn [json.scan_string].
        change (Ascii.eqb "\" dq) with false. cbv iota.
        rewrite Ascii.eqb_refl. change (json.isEscape "u") with false.
        change (Ascii.eqb "u" "u") with true. cbv iota. rewrite Eh, Hr'. reflexivity. }
      destruct (utf16.IsSurrogate (json.getu4 h1 h2 h3 h4)) eqn:Esur.
      + destruct (pair_at (json.getu4 h1 h2 h3 h4) r2) as [[cp r3]|] eqn:Epair.
        * (* a surrogate pair *)
          apply emit_inv in H. destruct H as (t3 & H & ->).
          pose proof Epair as Epair'. unfold pair_at in Epair'.
          destruct r2 as [|b1 [|b2 [|k1 [|k2 [|k3 [|k4 r3']]]]]]; try discriminate.
          match type of Epair' with
          | (if ?x then _ else _) = _ => destruct x eqn:Hcond; [|discriminate]
          end.
          injection Epair' as <- <-. simpl in Hn.
          destruct (IH r3' _ _ rest ltac:(simpl in *; lia) H) as (o3 & Hs3 & Hu3).
          assert (Hk : b1 = "\"%char /\ b2 = "u"%char
                       /\ (json.isHex k1 && json.isHex k2 && json.isHex k3
                           && json.isHex k4) = true).
          { clear -Hcond. bool_facts. repeat split; try reflexivity.
            repeat (apply andb_true_intro; split); assumption. }
          destruct Hk as (-> & -> & Hk).
          eexists. split.
          -- apply Hscan. cbn [json.scan_string].
             change (Ascii.eqb "\" dq) with false. cbv iota.
             rewrite Ascii.eqb_refl. change (json.isEscape "u") with false.
             change (Ascii.eqb "u" "u") with true. cbv iota. rewrite Hk, Hs3.
             reflexivity.
          -- rewrite !append_cons. rewrite (unquote_u _ _ _ _ _ Eh), Esur.
             unfold pair_at. rewrite Hcond, append_nil_l, Hu3. reflexivity.
        * apply emit_inv in H. destruct H as (t2 & H & ->).
          destruct (IH r2 _ _ rest ltac:(simpl in *; lia) H) as (o2 & Hs2 & Hu2).
          eexists. split; [apply Hscan, Hs2|].
          rewrite !append_cons. rewrite (unquote_u _ _ _ _ _ Eh), Esur.
          rewrite (pair_at_None _ _ _ _ rest Epair Hs2), Hu2. reflexivity.
      + apply emit_inv in H. destruct H as (t2 & H & ->).
        destruct (IH r2 _ _ rest ltac:(simpl in *; lia) H) as (o2 & Hs2 & Hu2).
        eexists. split; [apply Hscan, Hs2|].
        rewrite !append_cons. rewrite (unquote_u _ _ _ _ _ Eh), Esur, Hu2.
        reflexivity.
    - cbn [json.unquote] in H. change (Ascii.eqb "\" dq) with false in H.
      cbv iota in H. rewrite Ascii.eqb_refl, Eu in H.
      destruct (json.unescape e) as [ch|] eqn:Ee; [|discriminate].
      apply emit_inv in H. destruct H as (t1 & H & ->).
      destruct (IH r1 _ _ rest ltac:(simpl in *; lia) H) as (o1 & Hs1 & Hu1).
      destruct (unescape_isEscape e ch Ee) as [Hesc _].
      exists (String "\" (String e o1)). split.
      + cbn [json.scan_string]. change (Ascii.eqb "\" dq) with false. cbv iota.
        rewrite Ascii.eqb_refl, Hesc, Hs1. reflexivity.
      + rewrite !append_cons. cbn [json.unquote].
        change (Ascii.eqb "\" dq) with false. cbv iota.
        rewrite Ascii.eqb_refl, Eu, Ee, Hu1. reflexivity. }
  destruct (ord c <? 32)%N eqn:Ec.
  { cbn [json.unquote] in H. rewrite Eq, Eb, Ec in H. discriminate. }
  destruct (ord c <? 128)%N eqn:Ea.
  { cbn [json.unquote] in H. rewrite Eq, Eb, Ec, Ea in H.
    apply emit_inv in H. destruct H as (t0 & H & ->).
    destruct (IH r0 _ _ rest ltac:(simpl in *; lia) H) as (o0 & Hs0 & Hu0).
    destruct (json.isHtml c) eqn:Eh.
    - exists (json.u00 c ++ o0). split.
      + cbn [json.scan_string]. rewrite Eq, Eb, Ec, Eh, Hs0. reflexivity.
      + destruct (u00_escape_ascii c Eh) as [-> _].
        rewrite <- append_assoc, (escape_ascii_unquote c _ Ea), Hu0. reflexivity.
    - exists (String c o0). split.
      + rewrite scan_string_plain; try assumption; [rewrite Hs0; reflexivity|].
        destruct r0 as [|b [|d r2]]; try exact I.
        unfold utf8.is_ls_ps.
        assert (He2 : Ascii.eqb c "226" = false).
        { clear -Ea. destruct c as [[] [] [] [] [] [] [] []]; vm_compute in Ea;
            try discriminate Ea; reflexivity. }
        rewrite He2. reflexivity.
      + rewrite append_cons. cbn [json.unquote]. rewrite Eq, Eb, Ec, Ea, Hu0.
        reflexivity. }
  rewrite (unquote_sequence c r0 Ea) in H.
  destruct (sequence_at c r0) as [[q r']|] eqn:Eseq.
  - apply emit_inv in H. destruct H as (t' & H & ->).
    pose proof (sequence_at_length _ _ _ _ Eseq) as Hlen.
    destruct (IH r' _ _ rest ltac:(simpl in *; lia) H) as (o' & Hs' & Hu').
    destruct (sequence_at_scan c r0 q r' o' r rest Ea Eseq Hs') as (o & Hs & Hu).
    exists o. split; [exact Hs|]. rewrite Hu, Hu'. reflexivity.
  - apply emit_inv in H. destruct H as (t0 & H & ->).
    destruct (IH r0 _ _ rest ltac:(simpl in *; lia) H) as (o0 & Hs0 & Hu0).
    exists (String c o0). split.
    + rewrite scan_string_plain; try apply (high_not_special c Ea);
        [rewrite Hs0; reflexivity | apply sequence_at_not_ls_ps, Eseq].
    + rewrite append_cons, (unquote_sequence c _ Ea).
      rewrite (sequence_at_None c r0 o0 r rest Eseq Hs0), Hu0. reflexivity.
Qed.

Ltac length_norm :=
  repeat first [rewrite append_length in * | progress cbn [String.length] in *].

(** The decoder reads from the compacted text the value that it reads
    from the text, with as much fuel as the compacted text is long. *)
Lemma decode_out (f : nat) :
  (forall s v r, json.decode_value f s = Some (v, r) ->
     exists o, json.scan_value f s = Some (o, r)
               /\ forall rest f', ends_number rest = true ->
                    (String.length o <= f')%nat ->
                    json.decode_value f' (o ++ rest) = Some (v, rest))
  /\ (forall s l r, json.decode_elements f s = Some (l, r) ->
        exists o, json.scan_elements f s = Some (o, r)
                  /\ forall rest f', (String.length o <= f')%nat ->
                       json.decode_elements f' (o ++ rest) = Some (l, rest))
  /\ (forall s m r, json.decode_members f s = Some (m, r) ->
        exists o, json.scan_members f s = Some (o, r)
                  /\ forall rest f', (String.length o <= f')%nat ->
                       json.decode_members f' (o ++ rest) = Some (m, rest)).
Proof.
  induction f as [|f (IHv & IHe & IHm)]; [repeat split; discriminate|].
  destruct (scan_out f) as (Sv & Se & Sm).
  split; [|split]; intros s v r H.
  - cbn [json.decode_value] in H. cbn [json.scan_value].
    destruct (json.skip_ws s) as [|c r0] eqn:Hs; [discriminate|].
    destruct (Ascii.eqb c "{") eqn:E1.
    { destruct (json.after "}" (json.skip_ws r0)) as [r1|] eqn:Ha.
      - injection H as <- <-. exists "{}". split; [reflexivity|].
        intros rest f' _ Hf'. destruct f' as [|f']; [simpl in Hf'; lia|]. reflexivity.
      - destruct (json.decode_members f (json.skip_ws r0)) as [[m r2]|] eqn:Hm;
          [|discriminate].
        cbn [mbind option_bind] in H. injection H as <- <-.
        destruct (IHm _ _ _ Hm) as (o & Hso & Hdo).
        destruct (Sm _ _ _ Hso) as [(t & ->) _].
        exists ("{" ++ String dq t). rewrite Hso. split; [reflexivity|].
        intros rest f' _ Hf'. destruct f' as [|f']; [simpl in Hf'; lia|].
        specialize (Hdo rest f' ltac:(simpl in *; lia)).
        change (("{" ++ String dq t) ++ rest) with (String "{" (String dq t ++ rest)).
        cbn [json.decode_value]. rewrite skip_ws_char by reflexivity.
        rewrite Ascii.eqb_refl. rewrite append_cons in *.
        rewrite skip_ws_char by reflexivity.
        rewrite after_ne by reflexivity. rewrite Hdo. reflexivity. }
    destruct (Ascii.eqb c "[") eqn:E2.
    { destruct (json.after "]" (json.skip_ws r0)) as [r1|] eqn:Ha.
      - injection H as <- <-. exists "[]". split; [reflexivity|].
        intros rest f' _ Hf'. destruct f' as [|f']; [simpl in Hf'; lia|]. reflexivity.
      - destruct (json.decode_elements f (json.skip_ws r0)) as [[l r2]|] eqn:Hl;
          [|discriminate].
        cbn [mbind option_bind] in H. injection H as <- <-.
        destruct (IHe _ _ _ Hl) as (o & Hso & Hdo).
        destruct (Se _ _ _ Hso) as [(x & t & -> & Hx) _].
        exists ("[" ++ String x t). rewrite Hso. split; [reflexivity|].
        intros rest f' _ Hf'. destruct f' as [|f']; [simpl in Hf'; lia|].
        specialize (Hdo rest f' ltac:(simpl in *; lia)).
        change (("[" ++ String x t) ++ rest) with (String "[" (String x t ++ rest)).
        cbn [json.decode_value]. rewrite skip_ws_char by reflexivity.
        change (Ascii.eqb "[" "{") with false. cbv iota.
        rewrite Ascii.eqb_refl. rewrite append_cons in *.
        rewrite (value_start_skip x _ Hx).
        rewrite (value_start_after x "]" _ Hx) by auto. rewrite Hdo. reflexivity. }
    destruct (Ascii.eqb c dq) eqn:E3.
    { destruct (json.unquote r0) as [[t r1]|] eqn:Hq; [|discriminate].
      cbn [mbind option_bind] in H. injection H as <- <-.
      assert (Hk : forall rest, exists o,
                   json.scan_string r0 = Some (o, r1)
                   /\ json.unquote (o ++ rest) = Some (t, rest)).
      { intros rest. apply (unquote_out _ _ _ _ rest (le_n _) Hq). }
      destruct (Hk "") as (o & Hso & _).
      exists (String dq o). rewrite Hso. split; [reflexivity|].
      intros rest f' _ Hf'. destruct f' as [|f']; [simpl in Hf'; lia|].
      destruct (Hk rest) as (o' & Hso' & Hu). rewrite Hso in Hso'.
      injection Hso' as <-.
      rewrite append_cons. cbn [json.decode_value].
      rewrite skip_ws_char by reflexivity.
      change (Ascii.eqb dq "{") with false. change (Ascii.eqb dq "[") with false.
      cbv iota. rewrite Ascii.eqb_refl, Hu. reflexivity. }
    assert (Hlit : forall w v0,
              json.decode_lit w v0 (String c r0) = Some (v, r) ->
              json.scan_lit w (String c r0) = Some (w, r) /\ v = v0).
    { intros w v0 Hd. unfold json.decode_lit in Hd.
      destruct (json.scan_lit w (String c r0)) as [[o' r']|] eqn:Hw; [|discriminate].
      cbn [mbind option_bind] in Hd. injection Hd as <- <-.
      destruct (scan_lit_out _ _ _ _ Hw) as [-> _]. auto. }
    destruct (Ascii.eqb c "t") eqn:E4.
    { destruct (Hlit _ _ H) as [-> ->]. exists "true". split; [reflexivity|].
      intros rest f' _ Hf'. destruct f' as [|f']; [simpl in Hf'; lia|]. reflexivity. }
    destruct (Ascii.eqb c "f") eqn:E5.
    { destruct (Hlit _ _ H) as [-> ->]. exists "false". split; [reflexivity|].
      intros rest f' _ Hf'. destruct f' as [|f']; [simpl in Hf'; lia|]. reflexivity. }
    destruct (Ascii.eqb c "n") eqn:E6.
    { destruct (Hlit _ _ H) as [-> ->]. exists "null". split; [reflexivity|].
      intros rest f' _ Hf'. destruct f' as [|f']; [simpl in Hf'; lia|]. reflexivity. }
    unfold json.decode_number in H.
    destruct (json.scan_number (String c r0)) as [[lit r']|] eqn:Hn; [|discriminate].
    cbn [mbind option_bind] in H.
    destruct (NilZero.int_of_string lit) as [n|] eqn:Hi; [|discriminate].
    cbn [mbind option_bind] in H. injection H as <- <-.
    exists lit. split; [reflexivity|].
    intros rest f' Hr Hf'.
    destruct (scan_number_out _ _ _ _ Hn Hr) as [Hscan (x & u & -> & Hx)].
    destruct f' as [|f']; [simpl in Hf'; lia|].
    rewrite append_cons in *. rewrite (decode_value_number f' x _ Hx).
    unfold json.decode_number. rewrite Hscan. cbn [mbind option_bind].
    rewrite Hi. reflexivity.
  - cbn [json.decode_elements] in H. cbn [json.scan_elements].
    destruct (json.decode_value f s) as [[v1 r1]|] eqn:Hv; [|discriminate].
    cbn [mbind option_bind] in H.
    destruct (IHv _ _ _ Hv) as (o1 & Hs1 & Hd1). rewrite Hs1.
    cbn [mbind option_bind].
    destruct (json.after "," (json.skip_ws r1)) as [r2|] eqn:Hc.
    + destruct (json.decode_elements f r2) as [[l2 r3]|] eqn:Hl; [|discriminate].
      cbn [mbind option_bind] in H. injection H as <- <-.
      destruct (IHe _ _ _ Hl) as (o2 & Hs2 & Hd2). rewrite Hs2.
      eexists. split; [reflexivity|].
      intros rest f' Hf'. length_norm.
      destruct f' as [|f']; [lia|].
      cbn [json.decode_elements]. norm_app.
      specialize (Hd1 (String "," (o2 ++ rest)) f' eq_refl ltac:(lia)).
      rewrite Hd1. next_char. rewrite Hd2 by lia. reflexivity.
    + destruct (json.after "]" (json.skip_ws r1)) as [r2|] eqn:Hb; [|discriminate].
      cbn [mbind option_bind] in H. injection H as <- <-.
      eexists. split; [reflexivity|].
      intros rest f' Hf'. length_norm.
      destruct f' as [|f']; [lia|].
      cbn [json.decode_elements]. norm_app.
      specialize (Hd1 (String "]" rest) f' eq_refl ltac:(lia)).
      rewrite Hd1. next_char. reflexivity.
  - cbn [json.decode_members] in H. cbn [json.scan_members].
    destruct (json.after dq (json.skip_ws s)) as [r0|] eqn:Hq; [|discriminate].
    cbn [mbind option_bind] in H |- *.
    destruct (json.unquote r0) as [[k r1]|] eqn:Hk; [|discriminate].
    cbn [mbind option_bind] in H.
    assert (Hkey : forall rest, exists o,
                 json.scan_string r0 = Some (o, r1)
                 /\ json.unquote (o ++ rest) = Some (k, rest)).
    { intros rest. apply (unquote_out _ _ _ _ rest (le_n _) Hk). }
    destruct (Hkey "") as (ok & Hsk & _). rewrite Hsk. cbn [mbind option_bind].
    destruct (json.after ":" (json.skip_ws r1)) as [r2|] eqn:Hcolon; [|discriminate].
    cbn [mbind option_bind] in H |- *.
    destruct (json.decode_value f r2) as [[v1 r3]|] eqn:Hv; [|discriminate].
    cbn [mbind option_bind] in H.
    destruct (IHv _ _ _ Hv) as (o1 & Hs1 & Hd1). rewrite Hs1.
    cbn [mbind option_bind].
    assert (Hkey' : forall rest, json.unquote (ok ++ rest) = Some (k, rest)).
    { intros rest. destruct (Hkey rest) as (o' & Hso' & Hu). rewrite Hsk in Hso'.
      injection Hso' as <-. exact Hu. }
    destruct (json.after "," (json.skip_ws r3)) as [r4|] eqn:Hc.
    + destruct (json.decode_members f r4) as [[m2 r5]|] eqn:Hm; [|discriminate].
      cbn [mbind option_bind] in H. injection H as <- <-.
      destruct (IHm _ _ _ Hm) as (o2 & Hs2 & Hd2). rewrite Hs2.
      eexists. split; [reflexivity|].
      intros rest f' Hf'. length_norm.
      destruct f' as [|f']; [lia|].
      cbn [json.decode_members]. norm_app.
      next_char. rewrite Hkey'. next_char.
      specialize (Hd1 (String "," (o2 ++ rest)) f' eq_refl ltac:(lia)).
      rewrite Hd1. next_char. rewrite Hd2 by lia. reflexivity.
    + destruct (json.after "}" (json.skip_ws r3)) as [r4|] eqn:Hb; [|discriminate].
      cbn [mbind option_bind] in H. injection H as <- <-.
      eexists. split; [reflexivity|].
      intros rest f' Hf'. length_norm.
      destruct f' as [|f']; [lia|].
      cbn [json.decode_members]. norm_app.
      next_char. rewrite Hkey'. next_char.
      specialize (Hd1 (String "}" rest) f' eq_refl ltac:(lia)).
      rewrite Hd1. next_char. reflexivity.
Qed.

(** What [Unmarshal] reads from a text it reads from its compaction. *)
Lemma Unmarshal_compact (raw : string) (v : json.value) :
  json.Unmarshal raw = Some v ->
  exists o, json.compact raw = Some o
            /\ forall rest f', ends_number rest = true ->
                 (String.length o <= f')%nat ->
                 json.decode_value f' (o ++ rest) = Some (v, rest).
Proof.
  unfold json.Unmarshal, json.compact. intros H.
  destruct (json.decode_value (S (String.length raw)) raw) as [[v' r]|] eqn:Hd;
    [|discriminate].
  cbn [mbind option_bind] in H.
  destruct (json.skip_ws r) eqn:Hr; [|discriminate]. injection H as ->.
  destruct (decode_out (S (String.length raw))) as (Hv & _ & _).
  destruct (Hv _ _ _ Hd) as (o & Hs & Ho).
  exists o. rewrite Hs. cbn [mbind option_bind]. rewrite Hr. auto.
Qed.

Lemma Unmarshal_envelope_raw (st o : string) (v : json.value) :
  utf8.ValidString st = true ->
  (forall rest f', ends_number rest = true -> (String.length o <= f')%nat ->
     json.decode_value f' (o ++ rest) = Some (v, rest)) ->
  json.Unmarshal (envelope_of st (Some o) "")
  = Some (json.Map [("data", v); ("status", json.Str st)]).
Proof.
  intros Hst Ho.
  assert (Henv : envelope_of st (Some o) ""
                 = String "{" (String dq ("status" ++ String dq (String ":" (String dq
                     (json.escape st ++ String dq (String "," (String dq
                        ("data" ++ String dq (String ":" (o ++ "}"))))))))))).
  { unfold envelope_of, object, json.appendString.
    destruct (decide ("" = "")) as [_|Hn]; [|contradiction].
    cbn [app map json.join fst snd]. norm_app. reflexivity. }
  unfold json.Unmarshal. rewrite Henv.
  match goal with
  | |- context [json.decode_value (S ?n)] => remember n as L eqn:HL
  end.
  assert (Hlen : (String.length o + 3 <= L)%nat).
  { subst L. length_norm. lia. }
  clear HL. destruct L as [|[|L]]; try lia.
  cbn [json.decode_value]. rewrite skip_ws_char by reflexivity.
  rewrite Ascii.eqb_refl. rewrite skip_ws_char by reflexivity.
  rewrite after_ne by reflexivity.
  cbn [json.decode_members]. next_char.
  rewrite (unquote_escape "status" _ eq_refl). next_char.
  cbn [json.decode_value]. rewrite skip_ws_char by reflexivity.
  change (Ascii.eqb dq "{") with false. change (Ascii.eqb dq "[") with false.
  cbv iota. rewrite Ascii.eqb_refl, (unquote_escape st _ Hst).
  next_char. destruct L as [|L]; [lia|].
  cbn [json.decode_members]. next_char.
  rewrite (unquote_escape "data" _ eq_refl). next_char.
  rewrite (Ho (String "}" "") (S L) eq_refl) by lia.
  next_char. reflexivity.
Qed.

Section DecoratorRoundTrip.

Context {W : Type} `{ResponseWriter W}.


End DecoratorRoundTrip.

(** ** The number of bytes reported *)

#[export] Instance Recorder_CountsBytes : CountsBytes Recorder.
Proof. split. reflexivity. Qed.

Lemma escape_ascii_length (a : ascii) :
  (1 <= String.length (json.escape_ascii a))%nat.
Proof.
  destruct a as [[] [] [] [] [] [] [] []]; vm_compute; lia.
Qed.

Lemma escape_length (s : string) :
  (String.length s <= String.length (json.escape s))%nat.
Proof.
  pattern s. apply escape_ind; clear s;
    [ | intros a r Ha IH | intros a b r Ha H2 IH
      | intros a b c r Ha H2 H3 IH | intros a b c d r Ha H2 H3 H4 IH
      | intros a r Ha He IH ].
  - reflexivity.
  - cbn [json.escape]. rewrite Ha, append_length.
    pose proof (escape_ascii_length a). simpl. lia.
  - cbn [json.escape]. rewrite Ha, H2. simpl. lia.
  - cbn [json.escape]. rewrite Ha, H2, H3.
    destruct (utf8.is_ls_ps a b c); simpl; lia.
  - cbn [json.escape]. rewrite Ha, H2, H3, H4. simpl. lia.
  - rewrite He, append_length. simpl. lia.
Qed.

Lemma envelope_of_message_length (msg : string) :
  (String.length msg + 18 <= String.length (envelope_of StatusError None msg))%nat.
Proof.
  unfold envelope_of. destruct (decide (msg = "")) as [->|_]; [simpl; lia|].
  unfold object. cbn [app map json.join fst snd]. unfold json.appendString.
  change (json.escape StatusError) with "error". norm_app.
  repeat first [rewrite append_length | progress cbn [String.length]].
  pose proof (escape_length msg). lia.
Qed.

Lemma envelope_of_data_length (st o : string) :
  json.escape st = st ->
  String.length (envelope_of st (Some o) "")
  = (21 + String.length st + String.length o)%nat.
Proof.
  intros Hst. unfold envelope_of, object.
  destruct (decide ("" = "")) as [_|Hn]; [|contradiction].
  cbn [app map json.join fst snd].
  unfold json.appendString. rewrite Hst. norm_app.
  repeat first [rewrite append_length | progress cbn [String.length]]. lia.
Qed.

Section Count.

Context {W : Type} `{ResponseWriter W}.


End Count.

(** ** The further properties at work on the recording sink *)




Lemma Wrap_agrees_with_encoders_witness :
  ((Write (js "{'id':'missing','name':'invalid'}") (WriteHeader 400 (Wrap NewRecorder))).1,
   rw (Write (js "{'id':'missing','name':'invalid'}")
             (WriteHeader 400 (Wrap NewRecorder))).2)
  = Fail NewRecorder
         (Some (json.Map [("id", json.Str "missing"); ("name", json.Str "invalid")]))
         400.
Proof.
  destruct (Wrap_agrees_with_encoders NewRecorder 400) as [Hdata _].
  destruct (Hdata (Some (json.Map [("id", json.Str "missing");
                                   ("name", json.Str "invalid")]))
                  (js "{'id':'missing','name':'invalid'}") eq_refl) as [_ Hfail].
  apply Hfail. lia.
Defined.




Lemma decorator_keeps_headers_witness :
  http.Get
    (Header
       (Write (js "'foo'")
              (WriteHeader
                 200
                 (rw_setHeader
                    (http.Set_ (Header fresh) "Content-Type" "application/foo+json")
                    fresh))).2)
    "Content-Type"
  = "application/foo+json".
Proof.
  destruct (decorator_keeps_headers
              (WriteHeader
                 200
                 (rw_setHeader
                    (http.Set_ (Header fresh) "Content-Type" "application/foo+json")
                    fresh))) as (_ & _ & HW).
  rewrite HW. reflexivity.
Defined.

Lemma Wrap_idempotent_witness :
  Wrap (rw (Wrap NewRecorder)) = Wrap NewRecorder
  /\ Error (rw (Wrap NewRecorder)) "something wrong" 500
     = Error NewRecorder "something wrong" 500.
Proof.
  destruct (Wrap_idempotent NewRecorder) as [Hwrap Hwrite].
  split; [exact Hwrap | apply Hwrite; discriminate].
Defined.



